(** * nessus2csv: the XML-to-row extraction engine

  A shallow embedding of [src/nessus2csv.py] ([parse_nessus_file] and the
  writing loop of [main]) and the properties of its specification.

  Conventions of the embedding.
  - A Python [str] is a Rocq [string]; each character stands for the code
    point with the same number (0..255).  [strip], [lower] and [in] follow
    Python on that range.
  - A value that is [None] or a [str] is an [option string]; Python's
    truthiness ([x or ""], [if text]) is written out with [truthy].
  - An [xml.etree.ElementTree.Element] is a tree of [Elem] nodes carrying
    the tag, the attribute dictionary, the text and the children; the tail
    text is not read by the program and is left out.
  - Exceptions that the program does not catch are the [Raise] results of
    an error monad; the output row, a [dict] built from a literal, is an
    association list in insertion order. *)

From Stdlib Require Import String Ascii List Bool Arith Lia.
From stdpp Require Import gmap strings list fin_maps.
Import ListNotations.
Open Scope string_scope.
Open Scope list_scope.

(** ** Python built-ins used by the program *)

Module Py.

Inductive exn : Type := IndexError | KeyError | ValueError.

Inductive result (A : Type) : Type :=
| Ok (a : A)
| Raise (e : exn).
Arguments Ok {A} a.
Arguments Raise {A} e.

Definition bind {A B : Type} (m : result A) (k : A -> result B) : result B :=
  match m with
  | Ok a => k a
  | Raise e => Raise e
  end.

(** [for x in xs: st = body st x], stopping at the first exception. *)
Fixpoint for_each {S A : Type} (body : S -> A -> result S) (xs : list A) (st : S)
  : result S :=
  match xs with
  | [] => Ok st
  | x :: rest => bind (body st x) (for_each body rest)
  end.

(** Truthiness of a [str]: only the empty string is false. *)
Definition truthy (s : string) : bool := negb (String.eqb s "").

(** Truthiness of a value that is [None] or a [str]. *)
Definition truthy_opt (x : option string) : bool :=
  match x with
  | Some s => truthy s
  | None => false
  end.

(** [x or d] where [x] is [None] or a [str] and [d] is a [str]. *)
Definition or_else (x : option string) (d : string) : string :=
  match x with
  | Some s => if truthy s then s else d
  | None => d
  end.

(** [s[0]] *)
Definition index0 (s : string) : result ascii :=
  match s with
  | String c _ => Ok c
  | EmptyString => Raise IndexError
  end.

(** [s[1:]] *)
Definition slice1 (s : string) : string :=
  match s with
  | String _ s' => s'
  | EmptyString => EmptyString
  end.

(** [needle in hay] on strings. *)
Fixpoint contains (needle hay : string) : bool :=
  String.prefix needle hay
  || match hay with
     | String _ hay' => contains needle hay'
     | EmptyString => false
     end.

(** [s.partition(sep)] for a non-empty separator: the part before the first
    occurrence, the separator and the rest, or [(s, "", "")]. *)
Fixpoint partition (sep s : string) : string * string * string :=
  match s with
  | EmptyString => (EmptyString, EmptyString, EmptyString)
  | String c s' =>
      if String.prefix sep s
      then (EmptyString, sep, String.substring (String.length sep) (String.length s) s)
      else let '(before, found, rest) := partition sep s' in
           (String c before, found, rest)
  end.

(** [str.isspace] on one character, code points below 256. *)
Definition isspace (c : ascii) : bool :=
  let n := nat_of_ascii c in
  (((9 <=? n) && (n <=? 13)) || ((28 <=? n) && (n <=? 32))
   || (n =? 133) || (n =? 160))%nat.

Fixpoint lstrip (s : string) : string :=
  match s with
  | String c s' => if isspace c then lstrip s' else s
  | EmptyString => EmptyString
  end.

Fixpoint rstrip (s : string) : string :=
  match s with
  | String c s' =>
      let r := rstrip s' in
      if isspace c && negb (truthy r) then EmptyString else String c r
  | EmptyString => EmptyString
  end.

(** [s.strip()] *)
Definition strip (s : string) : string := rstrip (lstrip s).

(** [str.lower] on one character, code points below 256: the ASCII capitals
    and the Latin-1 capitals (all of 192..222 but the multiplication sign). *)
Definition lower_char (c : ascii) : ascii :=
  let n := nat_of_ascii c in
  if (((65 <=? n) && (n <=? 90))
      || ((192 <=? n) && (n <=? 222) && negb (n =? 215)))%nat
  then ascii_of_nat (n + 32)
  else c.

(** [s.lower()] *)
Fixpoint lower (s : string) : string :=
  match s with
  | String c s' => String (lower_char c) (lower s')
  | EmptyString => EmptyString
  end.

(** [d.setdefault(k, v)], for the dictionary it leaves behind. *)
Definition setdefault (k v : string) (d : gmap string string) : gmap string string :=
  match d !! k with
  | Some _ => d
  | None => <[k := v]> d
  end.

(** [d[k]] *)
Definition getitem (d : gmap string string) (k : string) : result string :=
  match d !! k with
  | Some v => Ok v
  | None => Raise KeyError
  end.

(** [d.get(k, dflt)] *)
Definition dict_get (d : gmap string string) (k dflt : string) : string :=
  match d !! k with
  | Some v => v
  | None => dflt
  end.

End Py.

Notation "'let?' x ':=' m 'in' k" := (Py.bind m (fun x => k))
  (at level 10, x name, m at level 100, k at level 200).

(** ** xml.etree.ElementTree *)

Module ET.

#[warning="-register-all"]
Inductive Element : Type :=
| Elem (tag : string) (attrib : gmap string string) (text : option string)
       (children : list Element).

Definition tag (e : Element) : string :=
  match e with Elem t _ _ _ => t end.
Definition attrib (e : Element) : gmap string string :=
  match e with Elem _ a _ _ => a end.
Definition text (e : Element) : option string :=
  match e with Elem _ _ x _ => x end.
Definition children (e : Element) : list Element :=
  match e with Elem _ _ _ cs => cs end.

(** [elem.get(key)] *)
Definition get (key : string) (e : Element) : option string := attrib e !! key.

(** [elem.iter()]: the element and all its descendants, in document order. *)
Fixpoint iter (e : Element) : list Element :=
  match e with
  | Elem _ _ _ cs => e :: flat_map iter cs
  end.

Definition has_tag (t : string) (e : Element) : bool := String.eqb (tag e) t.

(** [elem.iter(t)] *)
Definition iter_tag (t : string) (e : Element) : list Element :=
  List.filter (has_tag t) (iter e).

(** The elements below [e], in document order: [e.iter()] without [e]. *)
Definition descendants (e : Element) : list Element := flat_map iter (children e).

(** [elem.findall(".//t")]: every descendant whose tag is [t]. *)
Definition findall_desc (t : string) (e : Element) : list Element :=
  List.filter (has_tag t) (descendants e).

(** [elem.find(".//t")] *)
Definition find_desc (t : string) (e : Element) : option Element :=
  head (findall_desc t e).

(** [elem.find(t)] for a plain tag: the first child whose tag is [t]. *)
Definition find (t : string) (e : Element) : option Element :=
  List.find (has_tag t) (children e).

(** [elem.findtext(t)] for a plain tag: the text of the first such child,
    the empty string when that child has no text, [None] without child. *)
Definition findtext (t : string) (e : Element) : option string :=
  match find t e with
  | Some c => Some (match text c with Some s => s | None => EmptyString end)
  | None => None
  end.

End ET.

(** ** The program *)

Section Nessus2csv.

(** [html.unescape(s)] returns [s] itself when it holds no ampersand and
    otherwise the result of the standard library's character-reference
    substitution, [_charref.sub(_replace_charref, s)], which is taken as
    given. *)
Variable charref_sub : string -> string.

Definition html_unescape (s : string) : string :=
  if Py.contains "&" s then charref_sub s else s.

(** An output row: the keys and values of the [dict], in insertion order. *)
Definition Row : Type := list (string * string).

Fixpoint row_get (k : string) (r : Row) : option string :=
  match r with
  | [] => None
  | (k', v) :: r' => if String.eqb k' k then Some v else row_get k r'
  end.

(** *** Namespace detection (lines 25-36) *)

Definition default_cm : string := "http://www.nessus.org/cm".

Definition is_cm_uri (uri : string) : bool :=
  Py.contains "nessus.org/cm" uri || Py.contains "compliance" uri.

(** The namespace URI of a tag in Clark notation: [elem.tag[1:].partition("}")[0]]. *)
Definition tag_uri (t : string) : string := (Py.partition "}" (Py.slice1 t)).1.1.

(** One turn of [for elem in root.iter()]. *)
Definition nsmap_step (nsmap : gmap string string) (elem : ET.Element)
  : Py.result (gmap string string) :=
  let? c := Py.index0 (ET.tag elem) in
  if Ascii.eqb c "{"
  then let uri := tag_uri (ET.tag elem) in
       if is_cm_uri uri then Py.Ok (<["cm" := uri]> nsmap) else Py.Ok nsmap
  else Py.Ok nsmap.

Definition detect_nsmap (root : ET.Element) : Py.result (gmap string string) :=
  let? nsmap := Py.for_each nsmap_step (ET.iter root) ∅ in
  Py.Ok (Py.setdefault "cm" default_cm nsmap).

(** *** Severity (lines 38-44, 61-62) *)

Definition severity_map : gmap string string :=
  list_to_map
    [("0", "Info"); ("1", "Low"); ("2", "Medium"); ("3", "High"); ("4", "Critical")].

Definition severity_text (severity_code : string) : string :=
  Py.dict_get severity_map severity_code
    (if Py.truthy severity_code then severity_code else "Unknown").

(** *** Host address (lines 48-54) *)

(** The loop over [host.findall(".//tag")], left at the first tag named
    host-ip that has text. *)
Fixpoint host_ip_tags (tags : list ET.Element) (ip : string) : string :=
  match tags with
  | [] => ip
  | tag :: rest =>
      match ET.get "name" tag, ET.text tag with
      | Some n, Some t =>
          if String.eqb n "host-ip" && Py.truthy t then t else host_ip_tags rest ip
      | _, _ => host_ip_tags rest ip
      end
  end.

Definition host_ip (host : ET.Element) : string :=
  let ip := Py.or_else (ET.get "name" host) "" in
  if negb (Py.truthy ip)
  then host_ip_tags (ET.findall_desc "tag" host) ip
  else ip.

(** *** Field extraction (lines 69-80) *)

(** The path [f"{{{cm}}}{tagname}"]. *)
Definition qualified (cm tagname : string) : string :=
  "{" +:+ cm +:+ "}" +:+ tagname.

Definition cm_text (cm : string) (item : ET.Element) (tagname : string) : string :=
  let text := ET.findtext (qualified cm tagname) item in
  let text :=
    match text with
    | None => ET.findtext tagname item
    | Some _ => text
    end in
  let text :=
    match text with
    | None =>
        match ET.find_desc (qualified cm tagname) item with
        | Some elem => if Py.truthy_opt (ET.text elem) then ET.text elem else None
        | None => None
        end
    | Some _ => text
    end in
  match text with
  | Some t => if Py.truthy t then html_unescape (Py.strip t) else ""
  | None => ""
  end.

(** [(item.findtext("compliance") or "").strip().lower() == "true"] *)
Definition compliance (item : ET.Element) : bool :=
  String.eqb (Py.lower (Py.strip (Py.or_else (ET.findtext "compliance" item) ""))) "true".

(** *** Row assembly, primary path (lines 56-132) *)

Definition report_item_row (cm ip : string) (item : ET.Element) : Row :=
  let plugin_name :=
    Py.or_else (ET.get "pluginName" item)
      (Py.or_else (ET.findtext "plugin_name" item) "") in
  let plugin_id := Py.or_else (ET.get "pluginID" item) "" in
  let plugin_family := Py.or_else (ET.get "pluginFamily" item) "" in
  let severity_code := Py.or_else (ET.get "severity" item) "" in
  let port := Py.or_else (ET.get "port" item) "" in
  let protocol := Py.or_else (ET.get "protocol" item) "" in
  let svc_name := Py.or_else (ET.get "svc_name" item) "" in
  let risk_factor := Py.strip (Py.or_else (ET.findtext "risk_factor" item) "") in
  [ ("IP Address", ip);
    ("Port", port);
    ("Protocol", protocol);
    ("Service", svc_name);
    ("Plugin ID", plugin_id);
    ("Plugin Name", plugin_name);
    ("Plugin Family", plugin_family);
    ("Severity", severity_text severity_code);
    ("Risk Factor", risk_factor);
    ("Is Compliance Item", if compliance item then "true" else "false");
    ("Compliance Result", cm_text cm item "compliance-result");
    ("Compliance Check Name", cm_text cm item "compliance-check-name");
    ("Compliance Check ID", cm_text cm item "compliance-check-id");
    ("Compliance Policy Value", cm_text cm item "compliance-policy-value");
    ("Compliance Actual Value", cm_text cm item "compliance-actual-value");
    ("Compliance Solution", cm_text cm item "compliance-solution");
    ("Compliance Info", cm_text cm item "compliance-info");
    ("Compliance Reference", cm_text cm item "compliance-reference");
    ("Compliance Benchmark Name", cm_text cm item "compliance-benchmark-name");
    ("Compliance Benchmark Version", cm_text cm item "compliance-benchmark-version");
    ("Compliance Benchmark Profile", cm_text cm item "compliance-benchmark-profile");
    ("Compliance Full ID", cm_text cm item "compliance-full-id");
    ("Compliance Control ID", cm_text cm item "compliance-control-id");
    ("Compliance See Also", cm_text cm item "compliance-see-also");
    ("Compliance Source", cm_text cm item "compliance-source");
    ("Compliance Audit File", cm_text cm item "compliance-audit-file");
    ("Compliance Functional ID", cm_text cm item "compliance-functional-id");
    ("Compliance Informational ID", cm_text cm item "compliance-informational-id") ].

(** One turn of [for item in host.findall(".//ReportItem")]. *)
Definition item_step (nsmap : gmap string string) (ip : string)
  (rows : list Row) (item : ET.Element) : Py.result (list Row) :=
  let? cm := Py.getitem nsmap "cm" in
  Py.Ok (rows ++ [report_item_row cm ip item]).

(** One turn of [for host in report_hosts]. *)
Definition host_step (nsmap : gmap string string)
  (rows : list Row) (host : ET.Element) : Py.result (list Row) :=
  Py.for_each (item_step nsmap (host_ip host)) (ET.findall_desc "ReportItem" host) rows.

(** Lines 46-132: the rows of the host-to-item traversal. *)
Definition primary_pass (nsmap : gmap string string) (root : ET.Element)
  : Py.result (list Row) :=
  Py.for_each (host_step nsmap) (ET.findall_desc "ReportHost" root) [].

(** *** Flat fallback (lines 135-173) *)

Definition flat_row (ip : string) (it : ET.Element) : Row :=
  let plugin_name :=
    Py.or_else (ET.get "pluginName" it)
      (Py.or_else (ET.findtext "plugin_name" it) "") in
  let plugin_id := Py.or_else (ET.get "pluginID" it) "" in
  let severity_code := Py.or_else (ET.get "severity" it) "" in
  [ ("IP Address", ip);
    ("Port", Py.or_else (ET.get "port" it) "");
    ("Protocol", Py.or_else (ET.get "protocol" it) "");
    ("Service", Py.or_else (ET.get "svc_name" it) "");
    ("Plugin ID", plugin_id);
    ("Plugin Name", plugin_name);
    ("Plugin Family", Py.or_else (ET.get "pluginFamily" it) "");
    ("Severity", severity_text severity_code);
    ("Risk Factor", Py.strip (Py.or_else (ET.findtext "risk_factor" it) ""));
    ("Is Compliance Item", "false");
    ("Compliance Result", "");
    ("Compliance Check Name", "");
    ("Compliance Check ID", "");
    ("Compliance Policy Value", "");
    ("Compliance Actual Value", "");
    ("Compliance Solution", "");
    ("Compliance Info", "");
    ("Compliance Reference", "");
    ("Compliance Benchmark Name", "");
    ("Compliance Benchmark Version", "");
    ("Compliance Benchmark Profile", "");
    ("Compliance Full ID", "");
    ("Compliance Control ID", "");
    ("Compliance See Also", "");
    ("Compliance Source", "");
    ("Compliance Audit File", "");
    ("Compliance Functional ID", "");
    ("Compliance Informational ID", "") ].

(** [for idx, it in enumerate(items)], with
    [ip = ips[idx] if idx < len(ips) else ""]. *)
Fixpoint flat_loop (ips : list string) (idx : nat) (items : list ET.Element)
  (rows : list Row) : list Row :=
  match items with
  | [] => rows
  | it :: rest =>
      let ip := if (idx <? length ips)%nat
                then match ips !! idx with Some a => a | None => "" end
                else "" in
      flat_loop ips (S idx) rest (rows ++ [flat_row ip it])
  end.

Definition flat_fallback (root : ET.Element) (rows : list Row) : list Row :=
  let ips := map (fun h => Py.or_else (ET.get "name" h) "") (ET.iter_tag "ReportHost" root) in
  let items := ET.iter_tag "ReportItem" root in
  flat_loop ips 0 items rows.

(** *** parse_nessus_file (lines 10-175)

    [etree.parse(file_path).getroot()] is the library's business: its outcome
    is an argument, [inl e] for an exception with message [e] and [inr root]
    for the parsed tree.  The result is the lines printed on the standard
    error stream and the value returned or the exception raised. *)

Definition parse_failure (file_path e : string) : string :=
  "[!] Failed to parse '" +:+ file_path +:+ "': " +:+ e.

Definition parse_nessus_file (file_path : string) (parsed : string + ET.Element)
  : list string * Py.result (list Row) :=
  match parsed with
  | inl e => ([parse_failure file_path e], Py.Ok [])
  | inr root =>
      ([],
       let? nsmap := detect_nsmap root in
       let? rows := primary_pass nsmap root in
       Py.Ok (match rows with
              | [] => flat_fallback root rows
              | _ :: _ => rows
              end))
  end.

(** *** The writing loop of main (lines 237-263) *)

Definition fieldnames : list string :=
  [ "IP Address"; "Port"; "Protocol"; "Service";
    "Plugin ID"; "Plugin Name"; "Plugin Family";
    "Severity"; "Risk Factor";
    "Is Compliance Item"; "Compliance Result";
    "Compliance Check Name"; "Compliance Check ID";
    "Compliance Policy Value"; "Compliance Actual Value";
    "Compliance Solution"; "Compliance Info";
    "Compliance Reference"; "Compliance Benchmark Name";
    "Compliance Benchmark Version"; "Compliance Benchmark Profile";
    "Compliance Full ID"; "Compliance Control ID";
    "Compliance See Also"; "Compliance Source";
    "Compliance Audit File"; "Compliance Functional ID";
    "Compliance Informational ID" ].

(** [csv.DictWriter.writerow]: a key outside the field names raises
    [ValueError]; a missing one is written as the empty string.  A written
    line is the list of its cells. *)
Definition writerow (names : list string) (r : Row) : Py.result (list string) :=
  if forallb (fun k => existsb (String.eqb k) names) (map fst r)
  then Py.Ok (map (fun k => match row_get k r with Some v => v | None => "" end) names)
  else Py.Raise Py.ValueError.

(** What the loop has done so far: the lines of the CSV file, the lines on
    the standard error stream, and the counter [total_rows]. *)
Record Output : Type := {
  written : list (list string);
  stderr : list string;
  total_rows : nat
}.

(** The closing message,
    [f"[+] Wrote {total_rows} rows to '{args.output}' from {len(files)} file(s)."],
    by its two numbers. *)
Record Summary : Type := {
  wrote_rows : nat;
  from_files : nat
}.

(** One turn of [for path in files]. *)
Definition file_step (parse : string -> string + ET.Element) (st : Output) (path : string)
  : Py.result Output :=
  let '(diag, returned) := parse_nessus_file path (parse path) in
  let? rows := returned in
  let? lines :=
    Py.for_each (fun out r => let? line := writerow fieldnames r in Py.Ok (out ++ [line]))
      rows (written st) in
  Py.Ok {| written := lines;
           stderr := stderr st ++ diag;
           total_rows := total_rows st + length rows |}.

(** Lines 253-263, after [writer.writeheader()]: the input files in order,
    then the closing message. *)
Definition main (parse : string -> string + ET.Element) (files : list string)
  : Py.result (Output * Summary) :=
  let start := {| written := [fieldnames]; stderr := []; total_rows := 0 |} in
  let? st := Py.for_each (file_step parse) files start in
  Py.Ok (st, {| wrote_rows := total_rows st; from_files := length files |}).

(** ** What the specification says, in its own words *)

(** A parsed document: the parser gives every element a non-empty tag. *)
Definition parsed_tags (root : ET.Element) : bool :=
  forallb (fun e => Py.truthy (ET.tag e)) (ET.iter root).

(** *** Namespace resolution *)

(** The URI of an element's tag when the tag is namespaced and the URI holds
    one of the two compliance markers. *)
Definition compliance_uri (e : ET.Element) : option string :=
  if String.prefix "{" (ET.tag e) && is_cm_uri (tag_uri (ET.tag e))
  then Some (tag_uri (ET.tag e))
  else None.

(** The marked URIs of the document, in document order. *)
Definition compliance_uris (root : ET.Element) : list string :=
  omap compliance_uri (ET.iter root).

(** The namespace of the document: the last marked URI, or the default. *)
Definition resolved_cm (root : ET.Element) : string :=
  List.last (compliance_uris root) default_cm.

(** The same resolution read off the specification alone, the tag taken
    apart character by character and the default written out. *)







(** *** Hosts and items of a document *)

(** One traversal of the document in document order, handing every
    ReportItem that lies below a ReportHost together with the nearest such
    host. *)
Fixpoint hosted_items (host : option ET.Element) (e : ET.Element)
  : list (ET.Element * ET.Element) :=
  match e with
  | ET.Elem t _ _ cs =>
      (match host with
       | Some h => if String.eqb t "ReportItem" then [(h, e)] else []
       | None => []
       end
       ++ flat_map (hosted_items (if String.eqb t "ReportHost" then Some e else host)) cs)
  end.

(** The number N of ReportItem elements nested under ReportHost elements. *)
Definition nested_item_count (root : ET.Element) : nat :=
  length (hosted_items None root).

Definition no_host_below (e : ET.Element) : bool :=
  forallb (fun d => negb (ET.has_tag "ReportHost" d)) (ET.descendants e).

(** The hosts lie below the root, and none lies below another. *)
Definition hosts_apart (root : ET.Element) : bool :=
  negb (ET.has_tag "ReportHost" root)
  && forallb no_host_below (ET.findall_desc "ReportHost" root).

(** The rows of the primary path as one expression: hosts in document
    order, and below each host its items in document order. *)
Definition primary_rows (cm : string) (root : ET.Element) : list Row :=
  flat_map
    (fun host => map (report_item_row cm (host_ip host)) (ET.findall_desc "ReportItem" host))
    (ET.findall_desc "ReportHost" root).

(** The primary path of [parse_nessus_file] on a parsed document: namespace
    detection, then the host-to-item traversal (lines 25-132). *)
Definition primary_path (root : ET.Element) : Py.result (list Row) :=
  let? nsmap := detect_nsmap root in
  primary_pass nsmap root.

(** *** The three-tier lookup *)

(** Tier 1: a namespace-qualified direct child. *)
Definition tier1 (cm tagname : string) (item : ET.Element) : option string :=
  ET.findtext (qualified cm tagname) item.

(** Tier 2: an unqualified direct child with the literal field name. *)
Definition tier2 (tagname : string) (item : ET.Element) : option string :=
  ET.findtext tagname item.

(** Tier 3: a namespace-qualified tag anywhere below the item, the first in
    document order; it succeeds when that element has text. *)
Definition tier3 (cm tagname : string) (item : ET.Element) : option string :=
  match ET.find_desc (qualified cm tagname) item with
  | Some elem =>
      match ET.text elem with
      | Some t => if Py.truthy t then Some t else None
      | None => None
      end
  | None => None
  end.

(** Strategies tried in order, the first success wins. *)
Fixpoint first_success (tiers : list (ET.Element -> option string)) (item : ET.Element)
  : option string :=
  match tiers with
  | [] => None
  | tier :: others =>
      match tier item with
      | Some t => Some t
      | None => first_success others item
      end
  end.

(** The same lookup read off the specification alone. *)

(** The namespace-qualified name of a field, [{namespace}field-name]. *)
Definition namespace_qualified (namespace field_name : string) : string :=
  "{" +:+ namespace +:+ "}" +:+ field_name.

(** The text of the first direct child with the given tag, the empty string
    when that child has no text; no result without such a child. *)
Definition direct_child_text (name : string) (item : ET.Element) : option string :=
  match List.find (fun c => String.eqb (ET.tag c) name) (ET.children item) with
  | Some c => Some (match ET.text c with Some t => t | None => "" end)
  | None => None
  end.

(** The text of the first element below the item with the given tag, in
    document order; no result when there is no such element or when it has
    no text or an empty one. *)
Definition nested_text (name : string) (item : ET.Element) : option string :=
  match List.find (fun d => String.eqb (ET.tag d) name) (ET.descendants item) with
  | Some d =>
      match ET.text d with
      | Some t => if String.eqb t "" then None else Some t
      | None => None
      end
  | None => None
  end.

(** The three lookups, in the order they are tried. *)
Definition lookup_tiers (namespace field_name : string)
  : list (ET.Element -> option string) :=
  [ direct_child_text (namespace_qualified namespace field_name);
    direct_child_text field_name;
    nested_text (namespace_qualified namespace field_name) ].

(** Trimmed first and entity-decoded after: white space that the decoding
    produces stays. *)
Definition trimmed_then_decoded (t : string) : string :=
  let s := Py.strip t in
  if Py.contains "&" s then charref_sub s else s.

(** Entity-decoded first and trimmed after, the order in which the claim
    names the two: the result is always trimmed. *)
Definition decoded_then_trimmed (t : string) : string :=
  Py.strip (if Py.contains "&" t then charref_sub t else t).

(** The extracted field: the first success of the three lookups, trimmed
    and decoded when it is not empty; the empty string otherwise. *)
Definition extracted (namespace : string) (item : ET.Element) (field_name : string)
  : string :=
  match first_success (lookup_tiers namespace field_name) item with
  | Some t => if String.eqb t "" then "" else trimmed_then_decoded t
  | None => ""
  end.

(** A text of white space only. *)
Fixpoint all_space (s : string) : bool :=
  match s with
  | String c s' => Py.isspace c && all_space s'
  | EmptyString => true
  end.

(** *** Severity labels *)

Definition severity_label (code : option string) : string :=
  match code with
  | None => "Unknown"
  | Some c =>
      if String.eqb c "0" then "Info"
      else if String.eqb c "1" then "Low"
      else if String.eqb c "2" then "Medium"
      else if String.eqb c "3" then "High"
      else if String.eqb c "4" then "Critical"
      else if String.eqb c "" then "Unknown"
      else c
  end.

(** *** Host address *)

Definition is_host_ip (tag : ET.Element) : bool :=
  match ET.get "name" tag with
  | Some n => String.eqb n "host-ip"
  | None => false
  end.

(** The address as the code resolves it: the name attribute when it is
    there and not empty, else the text of the first descendant tag element
    named host-ip that has text, else the empty string. *)
Definition host_address (host : ET.Element) : string :=
  if Py.truthy_opt (ET.get "name" host)
  then Py.or_else (ET.get "name" host) ""
  else match List.find (fun t => is_host_ip t && Py.truthy_opt (ET.text t))
               (ET.findall_desc "tag" host) with
       | Some t => Py.or_else (ET.text t) ""
       | None => ""
       end.

(** The address as the claim words it: the fallback is the text of the
    first descendant tag element named host-ip, whatever its text. *)
Definition host_address_first_tag (host : ET.Element) : string :=
  if Py.truthy_opt (ET.get "name" host)
  then Py.or_else (ET.get "name" host) ""
  else match List.find is_host_ip (ET.findall_desc "tag" host) with
       | Some t => Py.or_else (ET.text t) ""
       | None => ""
       end.

(** *** The compliance flag *)

(** The flag as the code derives it: the text of the compliance child,
    trimmed and lower-cased, is the word true. *)
Definition compliance_child_true (item : ET.Element) : Prop :=
  exists c t,
    ET.find "compliance" item = Some c /\ ET.text c = Some t
    /\ Py.lower (Py.strip t) = "true".

(** *** The shape of a row *)

(** The eighteen compliance-specific text fields. *)
Definition compliance_fields : list string :=
  [ "Compliance Result"; "Compliance Check Name"; "Compliance Check ID";
    "Compliance Policy Value"; "Compliance Actual Value";
    "Compliance Solution"; "Compliance Info"; "Compliance Reference";
    "Compliance Benchmark Name"; "Compliance Benchmark Version";
    "Compliance Benchmark Profile"; "Compliance Full ID";
    "Compliance Control ID"; "Compliance See Also"; "Compliance Source";
    "Compliance Audit File"; "Compliance Functional ID";
    "Compliance Informational ID" ].

(** The base vulnerability fields of an item: plugin identity, severity,
    port, protocol and service, risk factor. *)
Definition base_fields (it : ET.Element) : Row :=
  [ ("Port", Py.or_else (ET.get "port" it) "");
    ("Protocol", Py.or_else (ET.get "protocol" it) "");
    ("Service", Py.or_else (ET.get "svc_name" it) "");
    ("Plugin ID", Py.or_else (ET.get "pluginID" it) "");
    ("Plugin Name",
     Py.or_else (ET.get "pluginName" it) (Py.or_else (ET.findtext "plugin_name" it) ""));
    ("Plugin Family", Py.or_else (ET.get "pluginFamily" it) "");
    ("Severity", severity_label (ET.get "severity" it));
    ("Risk Factor", Py.strip (Py.or_else (ET.findtext "risk_factor" it) "")) ].





(** *** Flat fallback *)

(** The address paired with the i-th item: the name attribute of the i-th
    ReportHost of the document, empty when the hosts are exhausted. *)
Definition positional_address (root : ET.Element) (i : nat) : string :=
  match ET.iter_tag "ReportHost" root !! i with
  | Some h => Py.or_else (ET.get "name" h) ""
  | None => ""
  end.

(** *** Aggregation *)

(** The cells of the line written for a row. *)
Definition row_cells (r : Row) : list string :=
  map (fun k => match row_get k r with Some v => v | None => "" end) fieldnames.

(** The rows a file contributes. *)
Definition file_rows (parse : string -> string + ET.Element) (path : string) : list Row :=
  match (parse_nessus_file path (parse path)).2 with
  | Py.Ok rows => rows
  | Py.Raise _ => []
  end.

(** The diagnostic of a file: one line when its XML fails to parse. *)
Definition file_diagnostic (parse : string -> string + ET.Element) (path : string)
  : list string :=
  match parse path with
  | inl e => [parse_failure path e]
  | inr _ => []
  end.

(** Every file that parses is a parsed document. *)
Definition parsed_inputs (parse : string -> string + ET.Element) (files : list string)
  : bool :=
  forallb (fun path => match parse path with
                       | inr root => parsed_tags root
                       | inl _ => true
                       end) files.

End Nessus2csv.

(** ** Sample documents *)

(** A character-reference substitution that leaves its argument alone; it
    serves where a concrete run is evaluated on text without references. *)
Definition same_text (s : string) : string := s.

(** The report item of the end-to-end scenario. *)
Definition tls_item : ET.Element :=
  ET.Elem "ReportItem"
    (list_to_map [("pluginID", "1000"); ("severity", "2"); ("port", "443");
                  ("protocol", "tcp")])
    None
    [ ET.Elem "compliance" ∅ (Some "true") [];
      ET.Elem "{http://www.nessus.org/cm}compliance-result" ∅ (Some "FAILED") [];
      ET.Elem "{http://www.nessus.org/cm}compliance-check-name" ∅
        (Some "Ensure TLS enabled") [] ].

(** One host, one item, in the usual nesting. *)
Definition tls_document : ET.Element :=
  ET.Elem "NessusClientData_v2" ∅ None
    [ ET.Elem "Report" {[ "name" := "scan" ]} None
        [ ET.Elem "ReportHost" {[ "name" := "10.0.0.5" ]} None [tls_item] ] ].

(** The row of the end-to-end scenario. *)
Definition tls_row : list (string * string) :=
  report_item_row same_text "http://www.nessus.org/cm" "10.0.0.5" tls_item.

Definition plain_item (plugin_id : string) : ET.Element :=
  ET.Elem "ReportItem" {[ "pluginID" := plugin_id ]} None [].

(** One host with one item that has neither severity attribute nor
    compliance child. *)
Definition bare_item_document : ET.Element :=
  ET.Elem "Report" ∅ None
    [ ET.Elem "ReportHost" {[ "name" := "10.0.0.5" ]} None [plain_item "1"] ].

(** A document whose root element is itself the ReportHost. *)
Definition rooted_host_document : ET.Element :=
  ET.Elem "ReportHost" {[ "name" := "10.0.0.5" ]} None [plain_item "1"].

(** A ReportHost below another ReportHost. *)
Definition nested_hosts_document : ET.Element :=
  ET.Elem "Report" ∅ None
    [ ET.Elem "ReportHost" {[ "name" := "outer" ]} None
        [ plain_item "1";
          ET.Elem "ReportHost" {[ "name" := "inner" ]} None [plain_item "2"];
          plain_item "3" ] ].

(** An export without namespace prefix on the compliance tags. *)
Definition unprefixed_item : ET.Element :=
  ET.Elem "ReportItem" {[ "pluginID" := "31" ]} None
    [ ET.Elem "compliance" ∅ (Some "TRUE") [];
      ET.Elem "compliance-result" ∅ (Some "PASSED") [];
      ET.Elem "compliance-info" ∅ (Some " O&amp;M ") [] ].

(** An item whose qualified compliance-result child holds white space only,
    next to an unqualified child and a nested qualified tag with text. *)
Definition blank_result_item : ET.Element :=
  ET.Elem "ReportItem" ∅ None
    [ ET.Elem "{http://www.nessus.org/cm}compliance-result" ∅ (Some "  ") [];
      ET.Elem "compliance-result" ∅ (Some "PASSED") [];
      ET.Elem "details" ∅ None
        [ ET.Elem "{http://www.nessus.org/cm}compliance-result" ∅ (Some "FAILED") [] ] ].

(** An item whose compliance child text carries white space around the word. *)
Definition padded_true_item : ET.Element :=
  ET.Elem "ReportItem" {[ "pluginID" := "7" ]} None
    [ ET.Elem "compliance" ∅ (Some " true ") [] ].

(** A host without name attribute and with two host-ip tags, the first of
    them without text. *)
Definition two_host_ip_tags : ET.Element :=
  ET.Elem "ReportHost" ∅ None
    [ ET.Elem "HostProperties" ∅ None
        [ ET.Elem "tag" {[ "name" := "host-ip" ]} None [];
          ET.Elem "tag" {[ "name" := "host-ip" ]} (Some "10.0.0.2") [] ] ].

(** A host without name attribute, addressed by its host-ip tag. *)
Definition host_by_tag : ET.Element :=
  ET.Elem "ReportHost" ∅ None
    [ ET.Elem "HostProperties" ∅ None
        [ ET.Elem "tag" {[ "name" := "os" ]} (Some "linux") [];
          ET.Elem "tag" {[ "name" := "host-ip" ]} (Some "10.0.0.9") [] ] ].

(** A document whose report items lie beside the hosts, not below them. *)
Definition unnested_document : ET.Element :=
  ET.Elem "Report" ∅ None
    [ ET.Elem "ReportHost" {[ "name" := "10.0.0.1" ]} None [];
      ET.Elem "ReportItem"
        (list_to_map [("pluginID", "11"); ("severity", "3"); ("port", "22")]) None
        [ ET.Elem "compliance" ∅ (Some "true") [];
          ET.Elem "{http://www.nessus.org/cm}compliance-result" ∅ (Some "PASSED") [] ];
      plain_item "12" ].

(** A document with a compliance namespace of its own. *)
Definition custom_namespace_document : ET.Element :=
  ET.Elem "Report" ∅ None
    [ ET.Elem "ReportHost" {[ "name" := "10.0.0.7" ]} None
        [ ET.Elem "ReportItem" {[ "pluginID" := "21" ]} None
            [ ET.Elem "{urn:example:compliance}compliance-result" ∅ (Some "WARNING") [] ] ] ].


(** An item whose compliance-info text opens with the character reference
    of a space: the XML source reads [&amp;#32;TLS off]. *)
Definition space_reference_item : ET.Element :=
  ET.Elem "ReportItem" {[ "pluginID" := "41" ]} None
    [ ET.Elem "{http://www.nessus.org/cm}compliance-info" ∅ (Some "&#32;TLS off") [] ].

(** The character-reference substitution of [html.unescape] on that text:
    the reference &#32; is the space. *)
Definition space_reference (s : string) : string :=
  if String.eqb s "&#32;TLS off" then " TLS off" else s.

(** Three submitted files: the second one does not parse. *)
Definition sample_parse (path : string) : string + ET.Element :=
  if String.eqb path "first.nessus" then inr tls_document
  else if String.eqb path "third.nessus" then inr custom_namespace_document
  else inl "syntax error: line 1, column 0".

Definition sample_files : list string :=
  ["first.nessus"; "second.nessus"; "third.nessus"].

(** ** Input discovery and the command-line run (lines 178-263) *)

(** [s.endswith(suffix)] *)
Fixpoint endswith (s suffix : string) : bool :=
  String.eqb s suffix
  || match s with
     | String _ s' => endswith s' suffix
     | EmptyString => false
     end.

(** [name.lower().endswith(".nessus")] *)
Definition is_nessus (name : string) : bool :=
  endswith (Py.lower name) ".nessus".

Module OS.

(** What the program can see at a path: a regular file, or a directory with
    its entries in the order the system lists them, the same for
    [os.listdir] and [os.walk].  A path that does not exist is [None] where
    a path is looked up.  An entry that [os.walk] lists among the
    directories and does not enter (a link to a directory) behaves here as a
    directory without entries; any other entry that is no directory is a
    file to both.  Paths are POSIX paths. *)
#[warning="-register-all"]
Inductive node : Type :=
| File
| Dir (entries : list (string * node)).

Definition is_dir (n : node) : bool :=
  match n with
  | Dir _ => true
  | File => false
  end.

(** [posixpath.join(a, b)] *)
Definition join (a b : string) : string :=
  if String.prefix "/" b then b
  else if negb (Py.truthy a) || endswith a "/" then a +:+ b
  else a +:+ "/" +:+ b.

(** [os.listdir(path)] on a directory. *)
Definition listdir (entries : list (string * node)) : list string :=
  map fst entries.

(** The names [os.walk] hands out for one directory: the sub-directories and
    the other entries. *)
Definition dirnames (entries : list (string * node)) : list string :=
  map fst (List.filter (fun e => is_dir e.2) entries).

Definition filenames (entries : list (string * node)) : list string :=
  map fst (List.filter (fun e => negb (is_dir e.2)) entries).

(** [os.walk(top)], top-down: the directory itself, then each sub-directory
    in listing order, depth first.  A top that cannot be listed yields
    nothing. *)
Fixpoint walk (top : string) (n : node) : list (string * list string * list string) :=
  match n with
  | File => []
  | Dir entries =>
      (top, dirnames entries, filenames entries)
      :: flat_map (fun e => if is_dir e.2 then walk (join top e.1) e.2 else []) entries
  end.

(** The two exceptions of input discovery, with their messages. *)
Inductive error : Type :=
| FileNotFoundError (msg : string)
| ValueError (msg : string).

(** [str(e)] *)
Definition message (e : error) : string :=
  match e with
  | FileNotFoundError msg => msg
  | ValueError msg => msg
  end.

Inductive outcome (A : Type) : Type :=
| Return (a : A)
| Raise (e : error).
Arguments Return {A} a.
Arguments Raise {A} e.

End OS.

(** Lines 178-206.  [found] is what lies at [input_path]. *)
Definition collect_nessus_inputs (found : option OS.node) (input_path : string)
  (recursive : bool) : OS.outcome (list string) :=
  match found with
  | None => OS.Raise (OS.FileNotFoundError ("Input path does not exist: " +:+ input_path))
  | Some OS.File =>
      if is_nessus input_path
      then OS.Return [input_path]
      else OS.Raise (OS.ValueError ("File is not a .nessus file: " +:+ input_path))
  | Some (OS.Dir entries) =>
      let nessus_files :=
        if recursive
        then flat_map
               (fun step =>
                  let '(root_dir, _, files) := step in
                  map (OS.join root_dir) (List.filter is_nessus files))
               (OS.walk input_path (OS.Dir entries))
        else map (OS.join input_path) (List.filter is_nessus (OS.listdir entries)) in
      match nessus_files with
      | [] => OS.Raise (OS.FileNotFoundError
                          ("No .nessus files found in directory: " +:+ input_path))
      | _ :: _ => OS.Return nessus_files
      end
  end.

(** The arguments of the command line as [argparse] hands them over. *)
Module Args.
Record t : Type := { input : string; output : string; recursive : bool }.
End Args.

(** What [parser.parse_args()] does (line 229): it returns the arguments, or
    it leaves the program with an exit status of its own, 2 on a command
    line it rejects and 0 after printing the help text. *)
Inductive parse_args : Type :=
| Leaves (status : nat)
| Returns (args : Args.t).

(** How a run of the program ends: in [parse_args]; with [sys.exit(1)]
    after one line on the standard error stream; with the OSError that
    [open(args.output, "w")] raises outside any [try]; with the closing
    message after the writing loop; or with an exception of the writing
    loop that nobody catches. *)
Inductive finish : Type :=
| Usage (status : nat)
| Exit1 (stderr_line : string)
| OpenError (e : string)
| Completed (out : Output) (msg : Summary)
| Uncaught (e : Py.exn).

(** Lines 229-263: the command line, input discovery, the output file, the
    writing loop.  [found] is what lies at the input path; [refused] is the
    OSError with which the system refuses to open the output path for
    writing, [None] when it opens the file.  A file that is open takes every
    line written to it. *)
Definition run (charref_sub : string -> string) (parse : string -> string + ET.Element)
  (cli : parse_args) (found : option OS.node) (refused : option string) : finish :=
  match cli with
  | Leaves status => Usage status
  | Returns args =>
      match collect_nessus_inputs found (Args.input args) (Args.recursive args) with
      | OS.Raise e => Exit1 ("[!] " +:+ OS.message e)
      | OS.Return files =>
          match refused with
          | Some e => OpenError e
          | None =>
              match main charref_sub parse files with
              | Py.Ok (out, msg) => Completed out msg
              | Py.Raise e => Uncaught e
              end
          end
      end
  end.

(** *** What input discovery is expected to find *)

(** The paths a recursive search keeps from one walk: the loop of lines
    193-196 as an expression. *)
Definition walk_files (top : string) (n : OS.node) : list string :=
  flat_map
    (fun step =>
       let '(root_dir, _, files) := step in
       map (OS.join root_dir) (List.filter is_nessus files))
    (OS.walk top n).

(** The names of a listing begin with no slash. *)
Fixpoint plain_names (n : OS.node) : bool :=
  match n with
  | OS.File => true
  | OS.Dir entries =>
      forallb (fun e => negb (String.prefix "/" e.1) && plain_names e.2) entries
  end.

(** No directory directly below carries a .nessus name. *)
Definition no_nessus_dir (entries : list (string * OS.node)) : bool :=
  forallb (fun e => negb (OS.is_dir e.2 && is_nessus e.1)) entries.

(** Some entry that is not a directory, at any depth, has a .nessus name. *)
Fixpoint holds_nessus_file (n : OS.node) : bool :=
  match n with
  | OS.File => false
  | OS.Dir entries =>
      existsb (fun e => if OS.is_dir e.2 then holds_nessus_file e.2 else is_nessus e.1)
        entries
  end.

(** A directory of scans: two exports, a note, and a sub-directory with one
    more export. *)
Definition scans_entries : list (string * OS.node) :=
  [ ("first.nessus", OS.File);
    ("notes.txt", OS.File);
    ("third.NESSUS", OS.File);
    ("archive", OS.Dir [ ("old.nessus", OS.File) ]) ].

Definition scans_directory : OS.node := OS.Dir scans_entries.

(** The command line [-i scans -o results.csv --recursive]. *)
Definition scans_args : Args.t :=
  {| Args.input := "scans"; Args.output := "results.csv"; Args.recursive := true |}.

(** What the parser makes of the files of that directory. *)
Definition scans_parse (path : string) : string + ET.Element :=
  if String.eqb path "scans/first.nessus" then inr tls_document
  else if String.eqb path "scans/third.NESSUS" then inr custom_namespace_document
  else inl "syntax error: line 1, column 0".

(** * The Word report: csv2word.py and csv2word_v2.py

    Both programs read the CSV file back through [csv.DictReader], tally the
    column Compliance Result and lay the rows out as the table of a
    document.  The document is what the program puts into it: the title,
    the rows of the summary table and the compliance table.  Widths, fonts
    and percentages are layout and floating point and are left out.

    What the libraries do is taken as follows.
    - The CSV file is the list of its lines, each line the list of its
      cells: what [csv.writer] writes cell by cell, [csv.reader] reads back
      cell by cell.  The reader raises [_csv.Error] on a cell of more than
      131072 characters, the field size limit of the module; it lets every
      character through (Python 3.11 and later).
    - python-docx hands the text of a cell or of a run to lxml, tabs and
      line ends apart, and lxml raises ValueError on a text that is not XML
      compatible: one that holds a control character below 32 other than
      tab, line feed and carriage return.
    - [parse_args] returns the arguments or raises SystemExit; opening and
      decoding the input and saving the document succeed or raise what the
      system says. *)

From stdpp Require Import sorting.

Module Word.

Inductive exn : Type :=
| SystemExit (status : nat)
| TypeError
| KeyError (key : string)
| ValueError (msg : string)
| FileNotFoundError (msg : string)
| CsvError (msg : string)
| OSError (msg : string)
| UnicodeDecodeError (msg : string).

Inductive result (A : Type) : Type :=
| Ok (a : A)
| Raise (e : exn).
Arguments Ok {A} a.
Arguments Raise {A} e.

Definition bind {A B : Type} (m : result A) (k : A -> result B) : result B :=
  match m with
  | Ok a => k a
  | Raise e => Raise e
  end.

(** A list built element by element, stopping at the first exception. *)
Fixpoint map_m {A B : Type} (f : A -> result B) (xs : list A) : result (list B) :=
  match xs with
  | [] => Ok []
  | x :: rest => bind (f x) (fun y => bind (map_m f rest) (fun ys => Ok (y :: ys)))
  end.

(** [sep.join(parts)] *)
Fixpoint join (sep : string) (parts : list string) : string :=
  match parts with
  | [] => EmptyString
  | [p] => p
  | p :: rest => p +:+ sep +:+ join sep rest
  end.

(** [xs.remove(x)] on a list that holds [x]: the first occurrence goes. *)
Fixpoint remove_first (x : string) (xs : list string) : list string :=
  match xs with
  | [] => []
  | y :: rest => if String.eqb y x then rest else y :: remove_first x rest
  end.

(** [x in xs] *)
Definition mem (x : string) (xs : list string) : bool := existsb (String.eqb x) xs.

(** *** Reading the CSV file (read_csv_rows) *)

(** What the run finds at the input path: nothing ([os.path.exists] is
    false); something that [open] or the UTF-8 decoder refuses with an
    exception (a directory, a file without read permission, bytes that are
    not UTF-8); or a text, given by its lines and cells. *)
Inductive csv_file : Type :=
| Missing
| Unreadable (e : exn)
| Readable (lines : list (list string)).

(** The field size limit of the csv module. *)
Definition field_size_limit : N := 131072%N.

Definition csv_error : exn := CsvError "field larger than field limit (131072)".

(** No cell of the file is larger than the limit. *)
Definition within_limit (lines : list (list string)) : bool :=
  forallb (forallb (fun cell => (N.of_nat (String.length cell) <=? field_size_limit)%N))
    lines.

(** One row of [csv.DictReader]: the cells under the field names, a later
    column of the same name over an earlier one; the fields a short line
    does not reach are [None], which [r.get(col) or ""] cannot tell from a
    missing key; the cells of a long line beyond the field names go under
    the key [None], which no lookup by a column name reads. *)
Definition reader_row (fieldnames row : list string) : gmap string string :=
  let d := fold_left (fun d kv => <[kv.1 := kv.2]> d) (combine fieldnames row) ∅ in
  fold_left (fun d key => delete key d) (drop (length row) fieldnames) d.

(** Lines 126-131 of csv2word.py, 97-101 of csv2word_v2.py: the field names
    ([None] for a file without lines) and the rows; blank lines are no
    rows.  [list(reader)] reads the whole file, so a cell over the limit
    anywhere in it raises. *)
Definition read_csv_rows (lines : list (list string))
  : result (option (list string) * list (gmap string string)) :=
  if within_limit lines
  then Ok match lines with
          | [] => (None, [])
          | fieldnames :: rest =>
              (Some fieldnames,
               map (reader_row fieldnames)
                 (List.filter (fun row => match row with [] => false | _ :: _ => true end)
                    rest))
          end
  else Raise csv_error.

(** *** Putting text into the document *)

(** A character lxml takes: tab, line feed, carriage return, and every
    character from the space on. *)
Definition xml_char (c : ascii) : bool :=
  let n := nat_of_ascii c in
  ((n =? 9) || (n =? 10) || (n =? 13) || (32 <=? n))%nat.

Fixpoint xml_compatible (s : string) : bool :=
  match s with
  | String c s' => xml_char c && xml_compatible s'
  | EmptyString => true
  end.

Definition xml_error : exn :=
  ValueError
    "All strings must be XML compatible: Unicode or ASCII, no NULL bytes or control characters".

(** [cell.text = s] and [paragraph.add_run(s)]: the document takes the
    text, or lxml raises. *)
Definition put_text (s : string) : result string :=
  if xml_compatible s then Ok s else Raise xml_error.

(** *** The table of the document *)

Definition HEADERS : list string :=
  [ "Compliance CIS Benchmark";
    "Compliance Info";
    "Result Value";
    "Result";
    "CIS Recommendation";
    "Management Respond";
    "Revalidation Result" ].

(** The dictionary literal, in the order it is written. *)
Definition CSV_MAP : list (string * option string) :=
  [ ("Compliance CIS Benchmark", Some "Compliance Check Name");
    ("Compliance Info", Some "Compliance Info");
    ("Result Value", Some "Compliance Actual Value");
    ("Result", Some "Compliance Result");
    ("CIS Recommendation", Some "Compliance Solution");
    ("Management Respond", None);
    ("Revalidation Result", None) ].

Fixpoint assoc {A : Type} (k : string) (d : list (string * A)) : option A :=
  match d with
  | [] => None
  | (k', v) :: d' => if String.eqb k' k then Some v else assoc k d'
  end.

(** [CSV_MAP[header]] *)
Definition csv_map_item (header : string) : result (option string) :=
  match assoc header CSV_MAP with
  | Some v => Ok v
  | None => Raise (KeyError header)
  end.

(** [CSV_MAP.get(header)] *)
Definition csv_map_get (header : string) : option string :=
  match assoc header CSV_MAP with
  | Some v => v
  | None => None
  end.

(** A colour of a run of text: red, green, blue. *)
Definition rgb : Type := (nat * nat * nat)%type.

(** A cell of a table: a header cell, a cell with plain text, or the result
    cell with the colour of its text and the fill of its background. *)
Inductive cell : Type :=
| Heading (text : string)
| Plain (text : string)
| Shaded (text : string) (text_color : rgb) (fill : string).

Definition cell_text (c : cell) : string :=
  match c with
  | Heading t => t
  | Plain t => t
  | Shaded t _ _ => t
  end.

(** The three colour pairs of a program: passed, failed, other. *)
Record palette : Type := {
  text_pass : rgb; text_fail : rgb; text_other : rgb;
  bg_pass : string; bg_fail : string; bg_other : string
}.

(** csv2word.py, lines 41-47. *)
Definition palette_v1 : palette :=
  {| text_pass := (0, 0, 0); text_fail := (0, 0, 0); text_other := (0, 0, 0);
     bg_pass := "008000"; bg_fail := "FF0000"; bg_other := "FFF4E5" |}.

(** csv2word_v2.py, lines 39-45. *)
Definition palette_v2 : palette :=
  {| text_pass := (0x00, 0x7A, 0x35); text_fail := (0xD9, 0x2F, 0x2F);
     text_other := (0xB3, 0x6B, 0x00);
     bg_pass := "E7F4EA"; bg_fail := "FDEAEA"; bg_other := "FFF4E5" |}.

Section Upper.

(** [str.upper], the library's: the properties below hold whatever it
    computes. *)
Variable upper : string -> string.

(** [(v or "").strip().upper()] *)
Definition normalized (v : option string) : string :=
  upper (Py.strip (Py.or_else v "")).

(** The colours of the result cell, by the normalized value (lines 106-115,
    v2 78-87). *)
Definition result_colors (colors : palette) (value : string) : rgb * string :=
  let normal := normalized (Some value) in
  if String.eqb normal "PASSED" then (text_pass colors, bg_pass colors)
  else if String.eqb normal "FAILED" then (text_fail colors, bg_fail colors)
  else (text_other colors, bg_other colors).

(** set_result_cell_style (lines 99-123, v2 77-95): the colours are chosen,
    the value goes into the cell as a run, the run and the cell are
    coloured. *)
Definition set_result_cell_style (colors : palette) (value : string) : result cell :=
  let '(text_color, bg_color) := result_colors colors value in
  bind (put_text value) (fun text => Ok (Shaded text text_color bg_color)).

(** The body of the loop over the headers, after the lookup in [CSV_MAP]:
    the value of the cell and the way it is put in. *)
Definition fill_cell (colors : palette) (r : gmap string string)
  (header : string) (csv_col : option string) : result cell :=
  let is_result_col := String.eqb header "Result" in
  let value :=
    match csv_col with
    | Some col => if Py.truthy col then Py.strip (Py.or_else (r !! col) "") else ""
    | None => ""
    end in
  let value :=
    if String.eqb header "Compliance CIS Benchmark"
    then let check_name := Py.strip (Py.or_else (r !! "Compliance Check Name") "") in
         let profile := Py.strip (Py.or_else (r !! "Compliance Benchmark Profile") "") in
         if Py.truthy profile then check_name +:+ " (" +:+ profile +:+ ")" else check_name
    else value in
  if is_result_col
  then set_result_cell_style colors value
  else bind (put_text value) (fun text => Ok (Plain text)).

(** create_table_from_rows of csv2word.py (lines 188-223): the header row,
    its texts the constants of [HEADERS], then one row per CSV row, cell by
    cell. *)
Definition create_table_from_rows (rows : list (gmap string string))
  : result (list (list cell)) :=
  bind
    (map_m (fun r =>
              map_m (fun header =>
                       bind (csv_map_item header)
                         (fun csv_col => fill_cell palette_v1 r header csv_col))
                HEADERS)
       rows)
    (fun body => Ok (map Heading HEADERS :: body)).

(** create_compliance_table of csv2word_v2.py (lines 163-196). *)
Definition create_compliance_table (rows : list (gmap string string))
  : result (list (list cell)) :=
  bind
    (map_m (fun r =>
              map_m (fun header => fill_cell palette_v2 r header (csv_map_get header))
                HEADERS)
       rows)
    (fun body => Ok (map Heading HEADERS :: body)).

(** *** The tally (tally_results, lines 133-143, v2 103-109) *)

(** [counts[val] += 1] on a [Counter]. *)
Definition tally_step (counts : gmap string nat) (r : gmap string string)
  : gmap string nat :=
  let val := normalized (r !! "Compliance Result") in
  <[val := default 0 (counts !! val) + 1]> counts.

Definition tally_results (rows : list (gmap string string)) : gmap string nat * nat :=
  let counts := fold_left tally_step rows ∅ in
  let total := map_fold (fun _ count acc => acc + count) 0 counts in
  (counts, total).

(** [counts.get(key, 0)] *)
Definition count_of (counts : gmap string nat) (key : string) : nat :=
  default 0 (counts !! key).

(** *** What the report is expected to show *)

(** The rows whose normalized result is [key]. *)
Definition rows_with (key : string) (rows : list (gmap string string)) : nat :=
  length (List.filter
            (fun r => String.eqb (normalized (r !! "Compliance Result")) key) rows).

(** The result cells of a table that carry the fill [fill]. *)
Definition shaded_with (fill : string) (t : list (list cell)) : nat :=
  length (List.filter
            (fun c => match c with
                      | Shaded _ _ f => String.eqb f fill
                      | _ => false
                      end)
            (concat t)).

End Upper.

(** The fills of a palette tell the three kinds of result apart. *)
Definition distinct_fills (colors : palette) : Prop :=
  bg_pass colors <> bg_fail colors
  /\ bg_pass colors <> bg_other colors
  /\ bg_fail colors <> bg_other colors.

(** The trimmed value of a column of a row, empty without the column. *)
Definition field (r : gmap string string) (col : string) : string :=
  Py.strip (Py.or_else (r !! col) "").

(** The check name, followed by the benchmark profile in brackets when
    there is one. *)
Definition benchmark_text (r : gmap string string) : string :=
  if Py.truthy (field r "Compliance Benchmark Profile")
  then field r "Compliance Check Name" +:+ " ("
       +:+ field r "Compliance Benchmark Profile" +:+ ")"
  else field r "Compliance Check Name".

(** The seven texts of the table row of a CSV row. *)
Definition row_texts (r : gmap string string) : list string :=
  [ benchmark_text r;
    field r "Compliance Info";
    field r "Compliance Actual Value";
    field r "Compliance Result";
    field r "Compliance Solution";
    "";
    "" ].

(** The row of cells both programs build for a CSV row, by its palette. *)
Definition table_row (upper : string -> string) (colors : palette)
  (r : gmap string string) : list cell :=
  [ Plain (benchmark_text r);
    Plain (field r "Compliance Info");
    Plain (field r "Compliance Actual Value");
    Shaded (field r "Compliance Result")
      (result_colors upper colors (field r "Compliance Result")).1
      (result_colors upper colors (field r "Compliance Result")).2;
    Plain (field r "Compliance Solution");
    Plain "";
    Plain "" ].

(** Every text of the table rows is XML compatible. *)
Definition table_compatible (rows : list (gmap string string)) : bool :=
  forallb (fun r => forallb xml_compatible (row_texts r)) rows.

(** *** The summary table (add_summary_section, lines 146-185, v2 111-145) *)

(** [priority.get(k, 2)] *)
Definition priority (k : string) : nat :=
  if String.eqb k "PASSED" then 0 else if String.eqb k "FAILED" then 1 else 2.

(** [a <= b] on [str]: code point by code point, a prefix first. *)
Fixpoint str_le (a b : string) : bool :=
  match a, b with
  | EmptyString, _ => true
  | String _ _, EmptyString => false
  | String x a', String y b' =>
      (nat_of_ascii x <? nat_of_ascii y)%nat
      || ((nat_of_ascii x =? nat_of_ascii y)%nat && str_le a' b')
  end.

(** [sort_key(a) <= sort_key(b)] on the pairs of priority and key. *)
Definition key_le (a b : string) : bool :=
  (priority a <? priority b)%nat || ((priority a =? priority b)%nat && str_le a b).

Definition key_order : relation string := fun a b => key_le a b = true.

#[global] Instance key_order_dec (a b : string) : Decision (key_order a b) :=
  decide (key_le a b = true).

(** [sorted(counts.keys(), key=sort_key)]: the keys of a counter are
    distinct and the order of the sort keys is total, so the sorted list
    does not depend on the order in which the keys come in. *)
Definition summary_keys (counts : gmap string nat) : list string :=
  merge_sort key_order (map fst (map_to_list counts)).

(** The rows added to the summary table, each by its label and its count;
    the percentage is left out. *)
Definition summary_rows (counts : gmap string nat) : list (string * nat) :=
  map (fun result_value =>
         (if Py.truthy result_value then result_value else "(blank)",
          default 0 (counts !! result_value)))
    (summary_keys counts).

(** The loop of add_summary_section: one row per key in sorted order, the
    label put into its first cell.  The total only enters the percentages. *)
Definition add_summary_section (counts : gmap string nat) (total : nat)
  : result (list (string * nat)) :=
  map_m (fun result_value =>
           let count := default 0 (counts !! result_value) in
           bind (put_text (if Py.truthy result_value then result_value else "(blank)"))
             (fun label => Ok (label, count)))
    (summary_keys counts).

(** The lines of a file that are rows: all but the first and the blank. *)
Definition data_lines (rest : list (list string)) : list (list string) :=
  List.filter (fun row => match row with [] => false | _ :: _ => true end) rest.

(** *** The entry points *)

(** The arguments of the command line as [argparse] hands them over. *)
Record args : Type := { input : string; output : string; title : string }.

(** [[src for src in CSV_MAP.values() if src is not None]] *)
Definition required_columns : list string := omap snd CSV_MAP.

(** [[col for col in required if col not in fieldnames]]: the test raises
    TypeError on the first column when the file gave no field names. *)
Definition missing_columns (required : list string) (fieldnames : option (list string))
  : result (list string) :=
  match fieldnames with
  | Some names => Ok (List.filter (fun col => negb (mem col names)) required)
  | None =>
      match required with
      | [] => Ok []
      | _ :: _ => Raise TypeError
      end
  end.

Definition missing_error (missing : list string) : exn :=
  ValueError ("CSV is missing required columns: " +:+ join ", " missing).

(** Every required column is among the field names. *)
Definition has_required (names : list string) : bool :=
  forallb (fun col => mem col names) required_columns.

(** What a run leaves: the title, the rows of the summary table and the
    compliance table of the saved document, and the three numbers of the
    closing line. *)
Record report : Type := {
  heading : string;
  summary : list (string * nat);
  table : list (list cell);
  passed : nat;
  failed : nat;
  total : nat
}.

Section Main.
Variable upper : string -> string.

(** main of csv2word.py (lines 226-286).  [cli] is what [parse_args] does,
    [file] what lies at the input path, [refused] the exception with which
    [doc.save] fails, [None] when the document is saved. *)
Definition main_v1 (cli : result args) (file : csv_file) (refused : option exn)
  : result report :=
  bind cli (fun a =>
  match file with
  | Missing => Raise (FileNotFoundError ("CSV not found: " +:+ input a))
  | Unreadable e => Raise e
  | Readable lines =>
      bind (read_csv_rows lines) (fun read =>
      let '(fieldnames, rows) := read in
      let required := required_columns in
      bind (missing_columns required fieldnames) (fun missing =>
      match missing with
      | _ :: _ => Raise (missing_error missing)
      | [] =>
          let '(counts, total) := tally_results upper rows in
          bind (put_text (title a)) (fun heading =>
          bind (add_summary_section counts total) (fun summary =>
          bind (create_table_from_rows upper rows) (fun t =>
          match refused with
          | Some e => Raise e
          | None =>
              Ok {| heading := heading;
                    summary := summary;
                    table := t;
                    passed := count_of counts "PASSED";
                    failed := count_of counts "FAILED";
                    total := total |}
          end)))
      end))
  end).

(** main of csv2word_v2.py (lines 204-247). *)
Definition main_v2 (cli : result args) (file : csv_file) (refused : option exn)
  : result report :=
  bind cli (fun a =>
  match file with
  | Missing => Raise (FileNotFoundError ("CSV not found: " +:+ input a))
  | Unreadable e => Raise e
  | Readable lines =>
      bind (read_csv_rows lines) (fun read =>
      let '(fieldnames, rows) := read in
      let required := required_columns ++ ["Compliance Benchmark Profile"] in
      bind (missing_columns required fieldnames) (fun missing =>
      let missing :=
        if mem "Compliance Benchmark Profile" missing
        then remove_first "Compliance Benchmark Profile" missing
        else missing in
      match missing with
      | _ :: _ => Raise (missing_error missing)
      | [] =>
          let '(counts, total) := tally_results upper rows in
          bind (put_text (title a)) (fun heading =>
          bind (add_summary_section counts total) (fun summary =>
          bind (create_compliance_table upper rows) (fun t =>
          match refused with
          | Some e => Raise e
          | None =>
              Ok {| heading := heading;
                    summary := summary;
                    table := t;
                    passed := count_of counts "PASSED";
                    failed := count_of counts "FAILED";
                    total := total |}
          end)))
      end))
  end).

(** Every text that goes into the document of a run is XML compatible: the
    title, the result values of the summary, trimmed and upper-cased, and
    the texts of the table rows. *)
Definition document_compatible (title : string) (rows : list (gmap string string))
  : bool :=
  xml_compatible title
  && forallb (fun r => xml_compatible (normalized upper (r !! "Compliance Result"))) rows
  && table_compatible rows.

End Main.

End Word.

(** The rows of nessus2csv whose Compliance Result, trimmed and upper-cased,
    is [key]. *)
Definition result_rows (upper : string -> string) (key : string) (rows : list Row) : nat :=
  length (List.filter
            (fun r => String.eqb (Word.normalized upper (row_get "Compliance Result" r)) key)
            rows).

(** [str.upper] on ASCII text, for the runs that are evaluated. *)
Definition ascii_upper_char (c : ascii) : ascii :=
  let n := nat_of_ascii c in
  if ((97 <=? n) && (n <=? 122))%nat then ascii_of_nat (n - 32) else c.

Fixpoint ascii_upper (s : string) : string :=
  match s with
  | String c s' => String (ascii_upper_char c) (ascii_upper s')
  | EmptyString => EmptyString
  end.

(** A CSV file of three results, one line short and one blank. *)
Definition sample_csv : list (list string) :=
  [ [ "Compliance Check Name"; "Compliance Info"; "Compliance Actual Value";
      "Compliance Result"; "Compliance Solution"; "Compliance Benchmark Profile" ];
    [ "Ensure TLS enabled"; "TLS"; "off"; " failed "; "Enable TLS"; "Level 1" ];
    [];
    [ "Ensure SSH root login disabled"; "SSH"; "no"; "PASSED"; "" ; "" ];
    [ "Ensure auditd"; "audit"; "" ] ].

(** The rows [csv.DictReader] makes of that file. *)
Definition sample_rows : list (gmap string string) :=
  map (Word.reader_row (List.hd [] sample_csv)) (Word.data_lines (List.tl sample_csv)).

(** A file whose one result carries a form feed in its solution. *)
Definition form_feed : string := String (ascii_of_nat 12) EmptyString.

Definition form_feed_csv : list (list string) :=
  [ [ "Compliance Check Name"; "Compliance Info"; "Compliance Actual Value";
      "Compliance Result"; "Compliance Solution" ];
    [ "Ensure TLS enabled"; "TLS"; "off"; "FAILED"; "Enable" +:+ form_feed +:+ "TLS" ] ].

(** The command line [-i results.csv -o report.docx]. *)
Definition sample_args : Word.args :=
  {| Word.input := "results.csv"; Word.output := "report.docx";
     Word.title := "Compliance Results" |}.
(** * Properties *)

(** ** The error monad and the loops *)

(** A loop whose body never raises is a left fold. *)
Lemma for_each_fold {S A : Type} (body : S -> A -> Py.result S) (f : S -> A -> S)
  (xs : list A) :
  (forall st x, In x xs -> body st x = Py.Ok (f st x)) ->
  forall st, Py.for_each body xs st = Py.Ok (fold_left f xs st).
Proof.
  induction xs as [|x xs IH]; intros Hbody st; simpl; [reflexivity|].
  rewrite Hbody by (left; reflexivity). simpl.
  apply IH. intros st' y Hy. apply Hbody. right. exact Hy.
Qed.

(** Appending to an accumulator collects the pieces in order. *)
Lemma fold_left_collect {A B : Type} (g : A -> list B) (xs : list A) (acc : list B) :
  fold_left (fun rows x => rows ++ g x) xs acc = acc ++ flat_map g xs.
Proof.
  revert acc. induction xs as [|x xs IH]; intros acc; simpl.
  - symmetry. apply app_nil_r.
  - rewrite IH. symmetry. apply app_assoc.
Qed.

Lemma truthy_false (s : string) : Py.truthy s = false <-> s = "".
Proof.
  unfold Py.truthy. destruct (String.eqb_spec s ""); simpl; split; congruence.
Qed.

Lemma truthy_true (s : string) : Py.truthy s = true <-> s <> "".
Proof.
  unfold Py.truthy. destruct (String.eqb_spec s ""); simpl; split; congruence.
Qed.

(** ** Severity *)

Lemma severity_map_miss (c : string) :
  c <> "0" -> c <> "1" -> c <> "2" -> c <> "3" -> c <> "4" ->
  severity_map !! c = None.
Proof.
  intros H0 H1 H2 H3 H4. unfold severity_map. simpl.
  rewrite !lookup_insert_ne by congruence. apply lookup_empty.
Qed.

Lemma severity_text_label (code : option string) :
  severity_text (Py.or_else code "") = severity_label code.
Proof.
  destruct code as [c|]; [|reflexivity].
  unfold severity_label.
  destruct (String.eqb_spec c "0") as [->|H0]; [reflexivity|].
  destruct (String.eqb_spec c "1") as [->|H1]; [reflexivity|].
  destruct (String.eqb_spec c "2") as [->|H2]; [reflexivity|].
  destruct (String.eqb_spec c "3") as [->|H3]; [reflexivity|].
  destruct (String.eqb_spec c "4") as [->|H4]; [reflexivity|].
  destruct (String.eqb_spec c "") as [->|He]; [reflexivity|].
  unfold Py.or_else. rewrite (proj2 (truthy_true c) He).
  unfold severity_text, Py.dict_get.
  rewrite severity_map_miss by assumption.
  now rewrite (proj2 (truthy_true c) He).
Qed.

(** ** Trees *)

(** Induction on a tree with the property known of all children. *)
Lemma Element_tree_ind (P : ET.Element -> Prop) :
  (forall t a x cs, Forall P cs -> P (ET.Elem t a x cs)) ->
  forall e, P e.
Proof.
  intros step. fix IH 1. intros [t a x cs]. apply step.
  induction cs as [|c cs IHcs]; constructor; [apply IH | exact IHcs].
Qed.

Lemma iter_descendants (e : ET.Element) : ET.iter e = e :: ET.descendants e.
Proof. destruct e; reflexivity. Qed.

Lemma flat_map_singleton {A B : Type} (f : A -> B) (xs : list A) :
  flat_map (fun x => [f x]) xs = map f xs.
Proof. induction xs as [|x xs IH]; simpl; [reflexivity | now rewrite IH]. Qed.

(** ** Namespace resolution *)

Lemma last_cons_default {A : Type} (x : A) (l : list A) (d : A) :
  List.last (x :: l) d = List.last l x.
Proof.
  revert x d. induction l as [|y l IH]; intros x d; [reflexivity|].
  change (List.last (x :: y :: l) d) with (List.last (y :: l) d).
  now rewrite !IH.
Qed.

Lemma prefix_brace (c : ascii) (s : string) :
  String.prefix "{" (String c s) = Ascii.eqb c "{".
Proof.
  change (String.prefix "{" (String c s))
    with (if ascii_dec "{" c then String.prefix "" s else false).
  destruct (ascii_dec "{" c) as [<-|Hne].
  - rewrite Ascii.eqb_refl. now destruct s.
  - symmetry. apply Ascii.eqb_neq. congruence.
Qed.

(** One turn of the detection loop never raises on a non-empty tag, and it
    overwrites the entry exactly at a marked URI. *)
Lemma nsmap_step_ok (nsmap : gmap string string) (elem : ET.Element) :
  Py.truthy (ET.tag elem) = true ->
  nsmap_step nsmap elem
  = Py.Ok (match compliance_uri elem with
           | Some uri => <["cm" := uri]> nsmap
           | None => nsmap
           end).
Proof.
  intros Htag. unfold nsmap_step, compliance_uri.
  destruct (ET.tag elem) as [|c s] eqn:Et; [discriminate|].
  simpl Py.index0. simpl Py.bind. rewrite prefix_brace.
  destruct (Ascii.eqb c "{"); simpl; [|reflexivity].
  destruct (is_cm_uri _); reflexivity.
Qed.

Lemma nsmap_loop (elems : list ET.Element) :
  forallb (fun e => Py.truthy (ET.tag e)) elems = true ->
  forall (nsmap : gmap string string) (d : string),
  exists nsmap',
    Py.for_each nsmap_step elems nsmap = Py.Ok nsmap'
    /\ Py.dict_get nsmap' "cm" d
       = List.last (omap compliance_uri elems) (Py.dict_get nsmap "cm" d).
Proof.
  induction elems as [|e elems IH]; intros Htags nsmap d; simpl in *.
  - exists nsmap. split; reflexivity.
  - apply andb_true_iff in Htags as [He Hrest].
    rewrite (nsmap_step_ok _ _ He). simpl.
    destruct (compliance_uri e) as [uri|].
    + destruct (IH Hrest (<["cm" := uri]> nsmap) d) as (m' & Hrun & Hget).
      exists m'. split; [exact Hrun|].
      rewrite Hget, last_cons_default.
      unfold Py.dict_get at 1. now rewrite lookup_insert_eq.
    + apply IH. exact Hrest.
Qed.

Lemma detect_nsmap_resolved (root : ET.Element) :
  parsed_tags root = true ->
  exists nsmap,
    detect_nsmap root = Py.Ok nsmap /\ nsmap !! "cm" = Some (resolved_cm root).
Proof.
  intros Htags. unfold detect_nsmap.
  destruct (nsmap_loop _ Htags ∅ default_cm) as (m & Hrun & Hget).
  assert (He : Py.dict_get ∅ "cm" default_cm = default_cm)
    by (unfold Py.dict_get; now rewrite lookup_empty).
  rewrite He in Hget.
  rewrite Hrun. simpl. eexists. split; [reflexivity|].
  unfold resolved_cm, compliance_uris. rewrite <- Hget.
  unfold Py.setdefault, Py.dict_get.
  destruct (m !! "cm") as [u|] eqn:Hm; [exact Hm|].
  apply lookup_insert_eq.
Qed.

(** ** The primary path as an expression *)

Section Rows.
Variable charref_sub : string -> string.

Lemma primary_pass_rows (nsmap : gmap string string) (cm : string) (root : ET.Element) :
  nsmap !! "cm" = Some cm ->
  primary_pass charref_sub nsmap root = Py.Ok (primary_rows charref_sub cm root).
Proof.
  intros Hcm. unfold primary_pass, primary_rows.
  rewrite (for_each_fold _
             (fun rows host =>
                rows ++ map (report_item_row charref_sub cm (host_ip host))
                          (ET.findall_desc "ReportItem" host))).
  - now rewrite fold_left_collect.
  - intros rows host _. unfold host_step.
    rewrite (for_each_fold _
               (fun acc item => acc ++ [report_item_row charref_sub cm (host_ip host) item])).
    + now rewrite fold_left_collect, flat_map_singleton.
    + intros acc item _. unfold item_step, Py.getitem. now rewrite Hcm.
Qed.

End Rows.

(** ** Strings *)

Lemma app_cons (c : ascii) (s b : string) : String c s +:+ b = String c (s +:+ b).
Proof. reflexivity. Qed.

Lemma app_empty (b : string) : "" +:+ b = b.
Proof. reflexivity. Qed.

Lemma prefix_empty (s : string) : String.prefix "" s = true.
Proof. now destruct s. Qed.

Lemma prefix_cons (c d : ascii) (n h : string) :
  String.prefix (String c n) (String d h)
  = if ascii_dec c d then String.prefix n h else false.
Proof. reflexivity. Qed.

(** [String.prefix] is the test for a leading occurrence. *)
Lemma prefix_iff (n h : string) :
  String.prefix n h = true <-> exists b, h = n +:+ b.
Proof.
  revert h. induction n as [|c n IH]; intros h.
  - rewrite prefix_empty. split; [exists h; reflexivity | reflexivity].
  - destruct h as [|d h].
    + split; [discriminate | intros [b Hb]; discriminate].
    + rewrite prefix_cons. destruct (ascii_dec c d) as [<-|Hne].
      * rewrite IH. split; intros [b Hb]; exists b; rewrite app_cons in *; congruence.
      * split; [discriminate | intros [b Hb]; rewrite app_cons in Hb; congruence].
Qed.

Lemma contains_empty (n : string) : Py.contains n "" = String.prefix n "".
Proof. simpl. apply orb_false_r. Qed.

Lemma contains_cons (n : string) (c : ascii) (h : string) :
  Py.contains n (String c h) = String.prefix n (String c h) || Py.contains n h.
Proof. reflexivity. Qed.

(** [Py.contains] is the substring test of Python's [in]. *)
Lemma contains_iff (n h : string) :
  Py.contains n h = true <-> exists a b, h = a +:+ n +:+ b.
Proof.
  induction h as [|c h IH]; [rewrite contains_empty | rewrite contains_cons].
  - rewrite prefix_iff. split.
    + intros [b Hb]. exists "", b. exact Hb.
    + intros (a & b & Hab). destruct a; [exists b; exact Hab | discriminate].
  - rewrite orb_true_iff, prefix_iff, IH. split.
    + intros [[b Hb]|(a & b & Hab)].
      * exists "", b. exact Hb.
      * exists (String c a), b. rewrite app_cons. now rewrite Hab.
    + intros (a & b & Hab). destruct a as [|c' a].
      * left. exists b. exact Hab.
      * right. exists a, b. rewrite app_cons in Hab. congruence.
Qed.

(** The two markers of a compliance namespace, as substrings. *)
Lemma is_cm_uri_iff (uri : string) :
  is_cm_uri uri = true
  <-> (exists a b, uri = a +:+ "nessus.org/cm" +:+ b)
      \/ (exists a b, uri = a +:+ "compliance" +:+ b).
Proof. unfold is_cm_uri. now rewrite orb_true_iff, !contains_iff. Qed.

Lemma substring_whole (s : string) (m : nat) :
  (String.length s <= m)%nat -> String.substring 0 m s = s.
Proof.
  revert m. induction s as [|c s IH]; intros m Hm.
  - now destruct m.
  - destruct m as [|m]; simpl in *; [lia|]. rewrite IH; [reflexivity | lia].
Qed.

(** The split of a tag in Clark notation gives back its URI. *)
Lemma tag_uri_clark (uri localname : string) :
  Py.contains "}" uri = false ->
  tag_uri ("{" +:+ uri +:+ "}" +:+ localname) = uri.
Proof.
  intros Hfree. unfold tag_uri. rewrite app_cons, app_empty. simpl Py.slice1.
  assert (Hsplit : Py.partition "}" (uri +:+ "}" +:+ localname) = (uri, "}", localname)).
  { induction uri as [|c uri IH].
    - rewrite app_empty, app_cons, app_empty. cbn [Py.partition]. rewrite prefix_cons.
      destruct (ascii_dec "}" "}") as [_|Hne]; [|congruence].
      rewrite prefix_empty. cbn [String.length String.substring].
      rewrite substring_whole; [reflexivity | lia].
    - rewrite contains_cons in Hfree. apply orb_false_iff in Hfree as [Hhere Hrest].
      rewrite app_cons. cbn [Py.partition]. rewrite prefix_cons in Hhere |- *.
      destruct (ascii_dec "}" c) as [Heq|Hne].
      + now rewrite prefix_empty in Hhere.
      + now rewrite (IH Hrest). }
  now rewrite Hsplit.
Qed.

(** ** Hosts, items and the order of the rows *)

Lemma filter_none {A : Type} (p : A -> bool) (l : list A) :
  forallb (fun x => negb (p x)) l = true -> List.filter p l = [].
Proof.
  induction l as [|x l IH]; simpl; [reflexivity|].
  intros H. apply andb_true_iff in H as [Hx Hl].
  apply negb_true_iff in Hx. rewrite Hx. now apply IH.
Qed.

Lemma filter_flat_map {A B : Type} (p : B -> bool) (f : A -> list B) (l : list A) :
  List.filter p (flat_map f l) = flat_map (fun x => List.filter p (f x)) l.
Proof.
  induction l as [|x l IH]; simpl; [reflexivity|].
  now rewrite List.filter_app, IH.
Qed.

Lemma map_flat_map {A B C : Type} (g : B -> C) (f : A -> list B) (l : list A) :
  map g (flat_map f l) = flat_map (fun x => map g (f x)) l.
Proof.
  induction l as [|x l IH]; simpl; [reflexivity|].
  now rewrite List.map_app, IH.
Qed.

Lemma flat_map_flat_map {A B C : Type} (g : B -> list C) (f : A -> list B) (l : list A) :
  flat_map g (flat_map f l) = flat_map (fun x => flat_map g (f x)) l.
Proof.
  induction l as [|x l IH]; simpl; [reflexivity|].
  now rewrite List.flat_map_app, IH.
Qed.

Lemma forallb_flat_map {A B : Type} (p : B -> bool) (f : A -> list B) (l : list A) :
  forallb p (flat_map f l) = forallb (fun x => forallb p (f x)) l.
Proof.
  induction l as [|x l IH]; simpl; [reflexivity|].
  now rewrite List.forallb_app, IH.
Qed.

Lemma flat_map_ext_Forall {A B : Type} (f g : A -> list B) (l : list A) :
  Forall (fun x => f x = g x) l -> flat_map f l = flat_map g l.
Proof.
  induction 1 as [|x l Hx _ IH]; simpl; [reflexivity|]. now rewrite Hx, IH.
Qed.

(** Below a host that has no host under it, the traversal hands out the
    items of the subtree, each with that host. *)
Lemma hosted_items_inside (h e : ET.Element) :
  forallb (fun d => negb (ET.has_tag "ReportHost" d)) (ET.iter e) = true ->
  hosted_items (Some h) e
  = map (pair h) (List.filter (ET.has_tag "ReportItem") (ET.iter e)).
Proof.
  induction e as [t a x cs IH] using Element_tree_ind. intros Hno.
  simpl in Hno. apply andb_true_iff in Hno as [Ht Hcs].
  apply negb_true_iff in Ht. unfold ET.has_tag in Ht. simpl in Ht.
  rewrite forallb_flat_map in Hcs.
  cbn [hosted_items ET.iter List.filter]. rewrite Ht.
  unfold ET.has_tag at 1. cbn [ET.tag].
  assert (Hkids :
    flat_map (hosted_items (Some h)) cs
    = map (pair h) (List.filter (ET.has_tag "ReportItem") (flat_map ET.iter cs))).
  { rewrite filter_flat_map, map_flat_map. apply flat_map_ext_Forall.
    rewrite List.Forall_forall in IH |- *. intros c Hc. apply IH; [exact Hc|].
    rewrite forallb_forall in Hcs. apply Hcs. exact Hc. }
  rewrite Hkids. destruct (String.eqb t "ReportItem"); reflexivity.
Qed.

(** Outside every host, the traversal hands out, host after host, the
    items found below each of them. *)
Lemma hosted_items_outside (e : ET.Element) :
  forallb no_host_below (ET.iter_tag "ReportHost" e) = true ->
  hosted_items None e
  = flat_map (fun h => map (pair h) (ET.findall_desc "ReportItem" h))
      (ET.iter_tag "ReportHost" e).
Proof.
  induction e as [t a x cs IH] using Element_tree_ind. intros Hapart.
  unfold ET.iter_tag in *. cbn [ET.iter List.filter] in *.
  unfold ET.has_tag at 1 in Hapart. unfold ET.has_tag at 1. cbn [ET.tag] in *.
  cbn [hosted_items]. rewrite app_nil_l.
  destruct (String.eqb t "ReportHost") eqn:Ht.
  - cbn [forallb] in Hapart. apply andb_true_iff in Hapart as [Hhere _].
    unfold no_host_below, ET.descendants in Hhere. cbn [ET.children] in Hhere.
    rewrite (filter_none _ _ Hhere). cbn [flat_map]. rewrite app_nil_r.
    unfold ET.findall_desc, ET.descendants. cbn [ET.children].
    rewrite filter_flat_map, map_flat_map. apply flat_map_ext_Forall.
    rewrite forallb_flat_map in Hhere.
    rewrite List.Forall_forall. intros c Hc. apply hosted_items_inside.
    rewrite forallb_forall in Hhere. apply Hhere. exact Hc.
  - rewrite filter_flat_map in Hapart |- *. rewrite forallb_flat_map in Hapart.
    rewrite flat_map_flat_map. apply flat_map_ext_Forall.
    rewrite List.Forall_forall in IH |- *. intros c Hc. apply IH; [exact Hc|].
    rewrite forallb_forall in Hapart. apply Hapart. exact Hc.
Qed.

(** With the hosts below the root and apart, the host-by-host enumeration
    of the program is the document-order traversal. *)
Lemma hosts_apart_traversal (root : ET.Element) :
  hosts_apart root = true ->
  flat_map (fun h => map (pair h) (ET.findall_desc "ReportItem" h))
    (ET.findall_desc "ReportHost" root)
  = hosted_items None root.
Proof.
  unfold hosts_apart. intros H. apply andb_true_iff in H as [Hroot Hhosts].
  apply negb_true_iff in Hroot.
  assert (Hiter : ET.iter_tag "ReportHost" root = ET.findall_desc "ReportHost" root).
  { unfold ET.iter_tag, ET.findall_desc. rewrite iter_descendants.
    cbn [List.filter]. now rewrite Hroot. }
  rewrite hosted_items_outside; rewrite Hiter; [reflexivity | exact Hhosts].
Qed.

(** ** The claims on the primary path *)

(** C1, as stated, fails: the primary path finds hosts strictly below the
    root only, and it visits a host nested in another host once more.  A
    document whose root is the ReportHost has one nested report item and
    gets no row from the primary path; a document with three report items,
    one of them below an inner host, gets four rows, the inner item twice. *)
Lemma primary_path_count_counterexample :
  primary_path same_text rooted_host_document = Py.Ok []
  /\ nested_item_count rooted_host_document = 1
  /\ (let? rows := primary_path same_text nested_hosts_document in
      Py.Ok (map (row_get "Plugin ID") rows))
     = Py.Ok [Some "1"; Some "2"; Some "3"; Some "2"]
  /\ nested_item_count nested_hosts_document = 3.
Proof. repeat split; vm_compute; reflexivity. Qed.

(** C1, amended: on a parsed document whose ReportHost elements lie below
    the root and not below one another, with N ReportItem elements nested
    under them, the primary path returns exactly N rows, one per report
    item, in the order of a document traversal; each row is assembled from
    the item, the address of its host and the resolved namespace. *)
Theorem primary_path_one_row_per_item
  (charref_sub : string -> string) (root : ET.Element) :
  parsed_tags root = true ->
  hosts_apart root = true ->
  exists rows,
    primary_path charref_sub root = Py.Ok rows
    /\ rows = map (fun hi => report_item_row charref_sub (resolved_cm root)
                               (host_ip hi.1) hi.2)
                (hosted_items None root)
    /\ length rows = nested_item_count root.
Proof.
  intros Htags Hapart.
  destruct (detect_nsmap_resolved root Htags) as (nsmap & Hns & Hcm).
  eexists. split; [|split; [reflexivity|]].
  - unfold primary_path. rewrite Hns. simpl.
    rewrite (primary_pass_rows charref_sub nsmap _ root Hcm).
    f_equal. unfold primary_rows.
    rewrite <- (hosts_apart_traversal root Hapart), map_flat_map.
    apply flat_map_ext_Forall, List.Forall_forall. intros h _.
    now rewrite List.map_map.
  - unfold nested_item_count. now rewrite length_map.
Qed.

Lemma primary_path_one_row_per_item_witness :
  parsed_tags tls_document = true
  /\ hosts_apart tls_document = true
  /\ exists rows,
       primary_path same_text tls_document = Py.Ok rows
       /\ rows = map (fun hi => report_item_row same_text (resolved_cm tls_document)
                                  (host_ip hi.1) hi.2)
                   (hosted_items None tls_document)
       /\ length rows = nested_item_count tls_document.
Proof.
  split; [vm_compute; reflexivity|].
  split; [vm_compute; reflexivity|].
  apply (primary_path_one_row_per_item same_text tls_document);
    vm_compute; reflexivity.
Defined.

(** ** Field extraction *)

(** C3, as stated, fails: the result is not always trimmed.  The code trims
    the text before it decodes it, so a character reference to white space
    at the rim of the text is decoded and stays: the text [&#32;TLS off]
    comes out as [ TLS off], with the space in front, where decoding first
    and trimming after would give [TLS off]. *)
Lemma cm_text_trim_counterexample :
  ET.findtext "{http://www.nessus.org/cm}compliance-info" space_reference_item
  = Some "&#32;TLS off"
  /\ cm_text space_reference "http://www.nessus.org/cm" space_reference_item
       "compliance-info"
     = " TLS off"
  /\ Py.strip " TLS off" <> " TLS off"
  /\ decoded_then_trimmed space_reference "&#32;TLS off" = "TLS off".
Proof.
  split; [reflexivity|].
  split; [vm_compute; reflexivity|].
  split; [vm_compute; discriminate|].
  vm_compute; reflexivity.
Qed.

Section Extraction.
Variable charref_sub : string -> string.

Lemma html_unescape_empty : html_unescape charref_sub "" = "".
Proof. reflexivity. Qed.

Lemma head_filter_find {A : Type} (p : A -> bool) (l : list A) :
  head (List.filter p l) = List.find p l.
Proof.
  induction l as [|x l IH]; [reflexivity|]. simpl. now destruct (p x).
Qed.

(** C3, amended: the extractor tries three lookups in order and the first
    success wins: the first direct child whose tag is the
    namespace-qualified name [{namespace}field-name], which succeeds with
    the text of that child, empty or not; the first direct child whose tag
    is the literal field name, likewise; the first element below the item,
    in document order, whose tag is the namespace-qualified name, which
    succeeds only when that element has a text that is not empty.  A result
    that is not empty is trimmed of surrounding white space and then
    entity-decoded, in that order; an empty result and a total miss give
    the empty string. *)
Theorem cm_text_three_tiers (cm : string) (item : ET.Element) (tagname : string) :
  cm_text charref_sub cm item tagname = extracted charref_sub cm item tagname.
Proof.
  unfold extracted, lookup_tiers, first_success, trimmed_then_decoded.
  unfold cm_text, html_unescape, ET.findtext, ET.find, ET.find_desc, ET.findall_desc.
  rewrite head_filter_find.
  change (namespace_qualified cm tagname) with ("{" +:+ cm +:+ "}" +:+ tagname).
  unfold qualified, direct_child_text, nested_text, ET.has_tag, Py.truthy_opt, Py.truthy.
  destruct (List.find (fun c => String.eqb (ET.tag c) ("{" +:+ cm +:+ "}" +:+ tagname))
              (ET.children item)) as [c|].
  { now destruct (String.eqb _ ""). }
  destruct (List.find (fun c => String.eqb (ET.tag c) tagname) (ET.children item)) as [c|].
  { now destruct (String.eqb _ ""). }
  destruct (List.find (fun d => String.eqb (ET.tag d) ("{" +:+ cm +:+ "}" +:+ tagname))
              (ET.descendants item)) as [elem|]; [|reflexivity].
  destruct (ET.text elem) as [t|]; [|reflexivity].
  destruct (String.eqb t "") eqn:Ht; cbn [negb]; [reflexivity|].
  now rewrite Ht.
Qed.

Lemma lstrip_all_space (s : string) : all_space s = true -> Py.lstrip s = "".
Proof.
  induction s as [|c s IH]; simpl; [reflexivity|].
  intros H. apply andb_true_iff in H as [Hc Hs]. rewrite Hc. now apply IH.
Qed.

Lemma strip_all_space (s : string) : all_space s = true -> Py.strip s = "".
Proof. intros H. unfold Py.strip. now rewrite lstrip_all_space. Qed.

(** C10: a namespace-qualified direct child settles the lookup even when
    its text is missing, empty or white space only: the extractor returns
    the empty string, whatever the unqualified children and the nested
    qualified tags of the item hold. *)
Theorem cm_text_blank_qualified_child
  (cm : string) (item : ET.Element) (tagname : string) (c : ET.Element) :
  ET.find (qualified cm tagname) item = Some c ->
  match ET.text c with
  | Some t => all_space t = true
  | None => True
  end ->
  cm_text charref_sub cm item tagname = "".
Proof.
  intros Hfind Hblank. unfold cm_text, ET.findtext. rewrite Hfind.
  destruct (ET.text c) as [t|]; [|reflexivity].
  destruct (Py.truthy t); [|reflexivity].
  rewrite (strip_all_space t Hblank). apply html_unescape_empty.
Qed.

End Extraction.

Lemma cm_text_blank_qualified_child_witness :
  ET.find (qualified "http://www.nessus.org/cm" "compliance-result") blank_result_item
  = Some (ET.Elem "{http://www.nessus.org/cm}compliance-result" ∅ (Some "  ") [])
  /\ all_space "  " = true
  /\ ET.findtext "compliance-result" blank_result_item = Some "PASSED"
  /\ cm_text same_text "http://www.nessus.org/cm" blank_result_item "compliance-result" = "".
Proof.
  split; [reflexivity|]. split; [reflexivity|]. split; [reflexivity|].
  apply (cm_text_blank_qualified_child same_text "http://www.nessus.org/cm"
           blank_result_item "compliance-result"
           (ET.Elem "{http://www.nessus.org/cm}compliance-result" ∅ (Some "  ") []));
    reflexivity.
Defined.

(** ** Reading a field of a row *)

Lemma row_get_here (k k' v : string) (r : Row) :
  String.eqb k' k = true -> row_get k ((k', v) :: r) = Some v.
Proof. intros H. simpl. now rewrite H. Qed.

Lemma row_get_skip (k k' v : string) (r : Row) :
  String.eqb k' k = false -> row_get k ((k', v) :: r) = row_get k r.
Proof. intros H. simpl. now rewrite H. Qed.

(** Walk down the literal row to the field that is asked for. *)
Ltac read_field :=
  unfold report_item_row, flat_row; cbv zeta;
  repeat (rewrite row_get_skip by reflexivity);
  rewrite row_get_here by reflexivity.

(** ** Severity *)

(** C5: the severity mapping is total; the codes 0 to 4 map to Info, Low,
    Medium, High and Critical, any other non-empty code is its own label, an
    absent or empty code maps to Unknown; this label is the Severity field
    of the rows of both paths. *)
Theorem severity_mapping (charref_sub : string -> string) :
  (forall code : option string,
     severity_text (Py.or_else code "") = severity_label code)
  /\ (forall cm ip item,
        row_get "Severity" (report_item_row charref_sub cm ip item)
        = Some (severity_label (ET.get "severity" item)))
  /\ (forall ip item,
        row_get "Severity" (flat_row ip item)
        = Some (severity_label (ET.get "severity" item))).
Proof.
  split; [exact severity_text_label|].
  split; intros; read_field; now rewrite severity_text_label.
Qed.

(** ** The compliance flag *)

Lemma compliance_true_iff (item : ET.Element) :
  compliance item = true <-> compliance_child_true item.
Proof.
  unfold compliance, compliance_child_true, ET.findtext.
  rewrite String.eqb_eq. split.
  - destruct (ET.find "compliance" item) as [c|]; [|discriminate].
    destruct (ET.text c) as [t|] eqn:Et; [|discriminate].
    intros H. exists c, t. split; [reflexivity|]. split; [exact Et|].
    simpl in H. destruct (Py.truthy t) eqn:Ht; [exact H|discriminate].
  - intros (c & t & Hfind & Htext & Htrue). rewrite Hfind, Htext. simpl.
    destruct (Py.truthy t) eqn:Ht; [exact Htrue|].
    apply truthy_false in Ht. subst t. discriminate.
Qed.

(** C6, as stated, fails: the code trims the text before it compares, so a
    compliance child with the text " true " gives the field "true" although
    the text itself, lower-cased, is not the word true. *)
Lemma compliance_flag_counterexample :
  row_get "Is Compliance Item"
    (report_item_row same_text "http://www.nessus.org/cm" "10.0.0.5" padded_true_item)
  = Some "true"
  /\ ET.findtext "compliance" padded_true_item = Some " true "
  /\ Py.lower " true " <> "true".
Proof.
  split; [vm_compute; reflexivity|].
  split; [reflexivity|].
  vm_compute. discriminate.
Qed.

(** C6, amended: on the primary path the field Is Compliance Item is "true"
    exactly when the text of the item's compliance child, trimmed of
    surrounding white space, matches "true" without regard to case (so
    "TRUE", "true" and "True" all give "true"); any other text, or no such
    child, gives "false".  The rows of the flat fallback always carry
    "false". *)
Theorem compliance_flag (charref_sub : string -> string) :
  (forall cm ip item,
     exists v,
       row_get "Is Compliance Item" (report_item_row charref_sub cm ip item) = Some v
       /\ (v = "true" \/ v = "false")
       /\ (v = "true" <-> compliance_child_true item))
  /\ List.Forall (fun t => Py.lower (Py.strip t) = "true") ["TRUE"; "true"; "True"]
  /\ (forall ip item, row_get "Is Compliance Item" (flat_row ip item) = Some "false").
Proof.
  split; [|split].
  - intros cm ip item. read_field. eexists. split; [reflexivity|].
    rewrite <- compliance_true_iff.
    destruct (compliance item); split; auto; split; congruence.
  - repeat constructor.
  - intros ip item. now read_field.
Qed.

(** ** Host address *)

Lemma host_ip_tags_find (tags : list ET.Element) :
  host_ip_tags tags ""
  = match List.find (fun t => is_host_ip t && Py.truthy_opt (ET.text t)) tags with
    | Some t => Py.or_else (ET.text t) ""
    | None => ""
    end.
Proof.
  induction tags as [|tag tags IH]; simpl; [reflexivity|].
  unfold is_host_ip at 1.
  destruct (ET.get "name" tag) as [n|]; simpl; [|exact IH].
  destruct (ET.text tag) as [t|] eqn:Et; simpl.
  - destruct (String.eqb n "host-ip"); simpl; [|exact IH].
    destruct (Py.truthy t) eqn:Ht; [|exact IH].
    rewrite Et. simpl. now rewrite Ht.
  - rewrite andb_false_r. exact IH.
Qed.

(** C9, as stated, fails: the loop skips a host-ip tag without text, so the
    address can be the text of a later host-ip tag where the first one has
    none. *)
Lemma host_ip_counterexample :
  host_ip two_host_ip_tags = "10.0.0.2"
  /\ host_address_first_tag two_host_ip_tags = "".
Proof. split; vm_compute; reflexivity. Qed.

(** C9, amended: the address of a host is its name attribute when that is
    present and not empty; otherwise the text of the first descendant tag
    element whose name attribute is host-ip and whose text is not empty;
    otherwise the empty string.  No input raises an error. *)
Theorem host_ip_resolution (host : ET.Element) :
  host_ip host = host_address host.
Proof.
  unfold host_ip, host_address.
  destruct (ET.get "name" host) as [n|]; simpl.
  - destruct (Py.truthy n) eqn:Hn; simpl.
    + now rewrite Hn.
    + apply host_ip_tags_find.
  - apply host_ip_tags_find.
Qed.

(** ** Namespace resolution, the claim *)

Lemma last_In {A : Type} (l : list A) (d : A) : l <> [] -> In (List.last l d) l.
Proof.
  induction l as [|x l IH]; [congruence|]. intros _.
  rewrite last_cons_default. destruct l as [|y l]; [left; reflexivity|].
  right. assert (Hne : y :: l <> []) by discriminate.
  specialize (IH Hne). rewrite last_cons_default in IH |- *. exact IH.
Qed.









(** ** What parse_nessus_file returns *)

Lemma detect_nsmap_has_cm (root : ET.Element) (nsmap : gmap string string) :
  detect_nsmap root = Py.Ok nsmap -> exists cm, nsmap !! "cm" = Some cm.
Proof.
  unfold detect_nsmap.
  destruct (Py.for_each nsmap_step (ET.iter root) ∅) as [m|e]; simpl; [|discriminate].
  intros H. injection H as <-. unfold Py.setdefault.
  destruct (m !! "cm") as [u|] eqn:Hm.
  - exists u. exact Hm.
  - exists default_cm. apply lookup_insert_eq.
Qed.

Section Returned.
Variable charref_sub : string -> string.

(** The value returned for a parsed document: the rows of the primary path,
    or those of the flat fallback when the primary path found none. *)
Lemma parse_nessus_file_returns (path : string) (root : ET.Element) (rows : list Row) :
  (parse_nessus_file charref_sub path (inr root)).2 = Py.Ok rows ->
  exists cm,
    primary_path charref_sub root = Py.Ok (primary_rows charref_sub cm root)
    /\ rows = match primary_rows charref_sub cm root with
              | [] => flat_fallback root []
              | _ :: _ => primary_rows charref_sub cm root
              end.
Proof.
  unfold parse_nessus_file, primary_path. simpl.
  destruct (detect_nsmap root) as [nsmap|e] eqn:Hns; simpl; [|discriminate].
  destruct (detect_nsmap_has_cm root nsmap Hns) as (cm & Hcm).
  rewrite (primary_pass_rows charref_sub nsmap cm root Hcm). simpl.
  intros H. injection H as <-. exists cm. split; [reflexivity|].
  destruct (primary_rows charref_sub cm root); reflexivity.
Qed.

Lemma parse_nessus_file_parsed (path : string) (root : ET.Element) :
  parsed_tags root = true ->
  (parse_nessus_file charref_sub path (inr root)).2
  = Py.Ok (match primary_rows charref_sub (resolved_cm root) root with
           | [] => flat_fallback root []
           | _ :: _ => primary_rows charref_sub (resolved_cm root) root
           end).
Proof.
  intros Htags. unfold parse_nessus_file. simpl.
  destruct (detect_nsmap_resolved root Htags) as (nsmap & Hns & Hcm).
  rewrite Hns. simpl.
  rewrite (primary_pass_rows charref_sub nsmap _ root Hcm). simpl.
  destruct (primary_rows charref_sub (resolved_cm root) root); reflexivity.
Qed.

End Returned.

(** ** Flat fallback *)

Lemma flat_loop_imap (ips : list string) (items : list ET.Element) :
  forall (idx : nat) (rows : list Row),
  flat_loop ips idx items rows
  = rows ++ imap (fun i it => flat_row (default "" (ips !! (idx + i))) it) items.
Proof.
  induction items as [|it items IH]; intros idx rows; simpl.
  - now rewrite app_nil_r.
  - rewrite IH, <- app_assoc. simpl. f_equal. f_equal.
    + f_equal. rewrite Nat.add_0_r.
      destruct (Nat.ltb_spec idx (length ips)) as [Hlt|Hge].
      * now destruct (ips !! idx).
      * now rewrite (proj2 (lookup_ge_None ips idx) Hge).
    + apply imap_ext. intros i x _. simpl. now rewrite Nat.add_succ_r.
Qed.

Lemma flat_fallback_lookup (root : ET.Element) (i : nat) (it : ET.Element) :
  ET.iter_tag "ReportItem" root !! i = Some it ->
  flat_fallback root [] !! i = Some (flat_row (positional_address root i) it).
Proof.
  intros Hit. unfold flat_fallback. rewrite flat_loop_imap. simpl.
  rewrite list_lookup_imap, Hit. simpl. f_equal. f_equal.
  unfold positional_address. rewrite list_lookup_fmap.
  now destruct (ET.iter_tag "ReportHost" root !! i).
Qed.

Lemma flat_fallback_length (root : ET.Element) :
  length (flat_fallback root []) = length (ET.iter_tag "ReportItem" root).
Proof. unfold flat_fallback. rewrite flat_loop_imap. simpl. apply length_imap. Qed.

(** ** Where a returned row comes from *)

Lemma iter_trans (e h it : ET.Element) :
  In h (ET.iter e) -> In it (ET.iter h) -> In it (ET.iter e).
Proof.
  induction e as [t a x cs IH] using Element_tree_ind. intros Hh Hit.
  cbn [ET.iter] in Hh. destruct Hh as [<-|Hh]; [exact Hit|].
  cbn [ET.iter]. right. apply in_flat_map in Hh as (c & Hc & Hhc).
  apply in_flat_map. exists c. split; [exact Hc|].
  rewrite List.Forall_forall in IH. now apply (IH c Hc).
Qed.

Lemma findall_desc_iter (t : string) (e d : ET.Element) :
  In d (ET.findall_desc t e) -> In d (ET.iter e).
Proof.
  unfold ET.findall_desc. intros H. apply List.filter_In in H as [H _].
  rewrite iter_descendants. now right.
Qed.

Section Origin.
Variable charref_sub : string -> string.

Lemma primary_rows_origin (cm : string) (root : ET.Element) (r : Row) :
  In r (primary_rows charref_sub cm root) ->
  exists host it,
    In it (ET.iter root) /\ r = report_item_row charref_sub cm (host_ip host) it.
Proof.
  unfold primary_rows. intros H.
  apply in_flat_map in H as (host & Hhost & Hr).
  apply in_map_iff in Hr as (it & <- & Hit).
  exists host, it. split; [|reflexivity].
  apply (iter_trans root host it); eapply findall_desc_iter; eassumption.
Qed.

Lemma flat_fallback_origin (root : ET.Element) (r : Row) :
  In r (flat_fallback root []) ->
  exists i it,
    ET.iter_tag "ReportItem" root !! i = Some it
    /\ In it (ET.iter root) /\ r = flat_row (positional_address root i) it.
Proof.
  intros H. apply list_elem_of_In, list_elem_of_lookup in H as (i & Hi).
  destruct (ET.iter_tag "ReportItem" root !! i) as [it|] eqn:Hit.
  - rewrite (flat_fallback_lookup root i it Hit) in Hi. injection Hi as <-.
    exists i, it. split; [exact Hit|]. split; [|reflexivity].
    apply list_elem_of_lookup_2, list_elem_of_In in Hit.
    unfold ET.iter_tag in Hit. now apply List.filter_In in Hit.
  - apply lookup_lt_Some in Hi. rewrite flat_fallback_length in Hi.
    apply lookup_ge_None in Hit. lia.
Qed.

Lemma parse_rows_origin (path : string) (root : ET.Element) (rows : list Row) (r : Row) :
  (parse_nessus_file charref_sub path (inr root)).2 = Py.Ok rows ->
  In r rows ->
  exists cm ip it,
    In it (ET.iter root)
    /\ (r = report_item_row charref_sub cm ip it \/ r = flat_row ip it).
Proof.
  intros Hret Hin.
  destruct (parse_nessus_file_returns charref_sub path root rows Hret) as (cm & _ & ->).
  destruct (primary_rows charref_sub cm root) as [|r0 rs] eqn:Hprimary.
  - destruct (flat_fallback_origin root r Hin) as (i & it & _ & Hit & ->).
    exists cm, (positional_address root i), it. auto.
  - rewrite <- Hprimary in Hin.
    destruct (primary_rows_origin cm root r Hin) as (host & it & Hit & ->).
    exists cm, (host_ip host), it. auto.
Qed.

Lemma report_item_row_keys (cm ip : string) (it : ET.Element) :
  map fst (report_item_row charref_sub cm ip it) = fieldnames.
Proof. reflexivity. Qed.

Lemma flat_row_keys (ip : string) (it : ET.Element) :
  map fst (flat_row ip it) = fieldnames.
Proof. reflexivity. Qed.

Lemma parse_rows_keys (path : string) (parsed : string + ET.Element) (rows : list Row) :
  (parse_nessus_file charref_sub path parsed).2 = Py.Ok rows ->
  List.Forall (fun r => map fst r = fieldnames) rows.
Proof.
  intros Hret. apply List.Forall_forall. intros r Hin.
  destruct parsed as [e|root].
  - simpl in Hret. injection Hret as <-. contradiction.
  - destruct (parse_rows_origin path root rows r Hret Hin) as (cm & ip & it & _ & [->| ->]).
    + apply report_item_row_keys.
    + apply flat_row_keys.
Qed.

End Origin.

Lemma fieldnames_distinct : NoDup fieldnames.
Proof. apply (bool_decide_unpack _). vm_compute. exact I. Qed.

(** ** The shape of the rows *)

Section Shape.
Variable charref_sub : string -> string.





Lemma flat_row_compliance_empty (ip : string) (it : ET.Element) :
  List.Forall (fun k => row_get k (flat_row ip it) = Some "") compliance_fields.
Proof. unfold compliance_fields. repeat constructor. Qed.

Lemma flat_row_base (ip : string) (it : ET.Element) :
  List.Forall (fun kv => row_get kv.1 (flat_row ip it) = Some kv.2) (base_fields it).
Proof.
  unfold base_fields. repeat constructor; cbn [fst snd]; read_field;
    try reflexivity.
  now rewrite severity_text_label.
Qed.

End Shape.








(** ** Flat fallback, the claim *)

(** C7: the flat fallback runs exactly when the primary traversal gives no
    row.  It then returns one row per ReportItem element of the document, in
    document order; the i-th row carries the name attribute of the i-th
    ReportHost element (the empty string when the hosts are exhausted), the
    base vulnerability fields of the i-th item, the empty string in every
    compliance field and the flag "false". *)
Theorem flat_fallback_positional (charref_sub : string -> string)
  (path : string) (root : ET.Element) :
  parsed_tags root = true ->
  exists primary rows,
    primary_path charref_sub root = Py.Ok primary
    /\ (parse_nessus_file charref_sub path (inr root)).2 = Py.Ok rows
    /\ match primary with
       | _ :: _ => rows = primary
       | [] =>
           length rows = length (ET.iter_tag "ReportItem" root)
           /\ forall i it,
                ET.iter_tag "ReportItem" root !! i = Some it ->
                exists r,
                  rows !! i = Some r
                  /\ row_get "IP Address" r = Some (positional_address root i)
                  /\ List.Forall (fun kv => row_get kv.1 r = Some kv.2) (base_fields it)
                  /\ List.Forall (fun k => row_get k r = Some "") compliance_fields
                  /\ row_get "Is Compliance Item" r = Some "false"
       end.
Proof.
  intros Htags.
  destruct (detect_nsmap_resolved root Htags) as (nsmap & Hns & Hcm).
  exists (primary_rows charref_sub (resolved_cm root) root). eexists.
  split.
  { unfold primary_path. rewrite Hns. simpl. now apply primary_pass_rows. }
  split; [now apply parse_nessus_file_parsed|].
  destruct (primary_rows charref_sub (resolved_cm root) root); [|reflexivity].
  split; [apply flat_fallback_length|].
  intros i it Hit. exists (flat_row (positional_address root i) it).
  split; [apply flat_fallback_lookup; exact Hit|].
  split; [now read_field|].
  split; [apply flat_row_base|].
  split; [apply flat_row_compliance_empty | now read_field].
Qed.

Lemma flat_fallback_positional_witness :
  parsed_tags unnested_document = true
  /\ primary_path same_text unnested_document = Py.Ok []
  /\ exists primary rows,
       primary_path same_text unnested_document = Py.Ok primary
       /\ (parse_nessus_file same_text "scan.nessus" (inr unnested_document)).2 = Py.Ok rows
       /\ match primary with
          | _ :: _ => rows = primary
          | [] =>
              length rows = length (ET.iter_tag "ReportItem" unnested_document)
              /\ forall i it,
                   ET.iter_tag "ReportItem" unnested_document !! i = Some it ->
                   exists r,
                     rows !! i = Some r
                     /\ row_get "IP Address" r
                        = Some (positional_address unnested_document i)
                     /\ List.Forall (fun kv => row_get kv.1 r = Some kv.2) (base_fields it)
                     /\ List.Forall (fun k => row_get k r = Some "") compliance_fields
                     /\ row_get "Is Compliance Item" r = Some "false"
          end.
Proof.
  split; [vm_compute; reflexivity|].
  split; [vm_compute; reflexivity|].
  apply (flat_fallback_positional same_text "scan.nessus" unnested_document).
  vm_compute; reflexivity.
Defined.

(** ** Aggregation over the input files *)

Section Aggregation.
Variable charref_sub : string -> string.
Variable parse : string -> string + ET.Element.

Lemma writerow_fieldnames (r : Row) :
  map fst r = fieldnames -> writerow fieldnames r = Py.Ok (row_cells r).
Proof.
  intros Hkeys. unfold writerow. rewrite Hkeys.
  assert (Hall : forallb (fun k => existsb (String.eqb k) fieldnames) fieldnames = true)
    by (vm_compute; reflexivity).
  now rewrite Hall.
Qed.

(** Writing the rows of one file appends their lines in order. *)
Lemma write_rows (rows : list Row) (out : list (list string)) :
  List.Forall (fun r => map fst r = fieldnames) rows ->
  Py.for_each (fun out r => let? line := writerow fieldnames r in Py.Ok (out ++ [line]))
    rows out
  = Py.Ok (out ++ map row_cells rows).
Proof.
  intros Hkeys.
  rewrite (for_each_fold _ (fun out r => out ++ [row_cells r])).
  - now rewrite fold_left_collect, flat_map_singleton.
  - intros acc r Hr. rewrite List.Forall_forall in Hkeys.
    now rewrite (writerow_fieldnames r (Hkeys r Hr)).
Qed.

(** What a file contributes, and what it prints. *)
Lemma parse_nessus_file_outcome (path : string) :
  match parse path with
  | inr root => parsed_tags root
  | inl _ => true
  end = true ->
  parse_nessus_file charref_sub path (parse path)
  = (file_diagnostic parse path, Py.Ok (file_rows charref_sub parse path)).
Proof.
  unfold file_rows, file_diagnostic.
  destruct (parse path) as [e|root] eqn:Hparse; [reflexivity|]. intros Htags.
  pose proof (parse_nessus_file_parsed charref_sub path root Htags) as Hret.
  rewrite Hret. destruct (parse_nessus_file charref_sub path (inr root)) as [diag ret] eqn:Hrun.
  simpl in Hret. subst ret. f_equal.
  unfold parse_nessus_file in Hrun. now injection Hrun as <- _.
Qed.

Lemma file_step_outcome (st : Output) (path : string) :
  match parse path with
  | inr root => parsed_tags root
  | inl _ => true
  end = true ->
  file_step charref_sub parse st path
  = Py.Ok {| written := written st ++ map row_cells (file_rows charref_sub parse path);
             stderr := stderr st ++ file_diagnostic parse path;
             total_rows := total_rows st + length (file_rows charref_sub parse path) |}.
Proof.
  intros Hok. unfold file_step.
  pose proof (parse_nessus_file_outcome path Hok) as Hrun. rewrite Hrun. simpl.
  rewrite write_rows; [reflexivity|].
  apply (parse_rows_keys charref_sub path (parse path)). now rewrite Hrun.
Qed.

Lemma files_loop (files : list string) :
  parsed_inputs parse files = true ->
  forall st,
  Py.for_each (file_step charref_sub parse) files st
  = Py.Ok {| written :=
               written st ++ map row_cells (flat_map (file_rows charref_sub parse) files);
             stderr := stderr st ++ flat_map (file_diagnostic parse) files;
             total_rows :=
               total_rows st + length (flat_map (file_rows charref_sub parse) files) |}.
Proof.
  induction files as [|path files IH]; intros Hok st.
  - destruct st. simpl. now rewrite !app_nil_r, Nat.add_0_r.
  - simpl in Hok. apply andb_true_iff in Hok as [Hpath Hrest].
    simpl. rewrite (file_step_outcome st path Hpath). simpl.
    rewrite (IH Hrest). simpl.
    now rewrite List.map_app, List.length_app, !app_assoc, Nat.add_assoc.
Qed.

End Aggregation.

(** C4: over an ordered list of input files, a file whose XML fails to
    parse contributes no row and one diagnostic line, and the run goes on;
    the written lines are the header and then the rows of each file, file
    after file in the order of submission; the reported file count is the
    number of input files, whether they parsed or not. *)
Theorem main_aggregates (charref_sub : string -> string)
  (parse : string -> string + ET.Element) (files : list string) :
  parsed_inputs parse files = true ->
  exists out,
    main charref_sub parse files
    = Py.Ok (out, {| wrote_rows := length (flat_map (file_rows charref_sub parse) files);
                     from_files := length files |})
    /\ written out
       = fieldnames :: map row_cells (flat_map (file_rows charref_sub parse) files)
    /\ stderr out = flat_map (file_diagnostic parse) files
    /\ List.Forall
         (fun path =>
            parse_nessus_file charref_sub path (parse path)
            = (file_diagnostic parse path, Py.Ok (file_rows charref_sub parse path))
            /\ match parse path with
               | inl e =>
                   file_rows charref_sub parse path = []
                   /\ file_diagnostic parse path = [parse_failure path e]
               | inr _ => file_diagnostic parse path = []
               end)
         files.
Proof.
  intros Hok. unfold main. rewrite (files_loop charref_sub parse files Hok). simpl.
  eexists. split; [reflexivity|]. simpl.
  repeat (split; [reflexivity|]).
  apply List.Forall_forall. intros path Hpath.
  unfold parsed_inputs in Hok. rewrite forallb_forall in Hok.
  split; [now apply parse_nessus_file_outcome, Hok|].
  unfold file_rows, file_diagnostic. now destruct (parse path).
Qed.

Lemma main_aggregates_witness :
  parsed_inputs sample_parse sample_files = true
  /\ map (file_diagnostic sample_parse) sample_files
     = [ []; ["[!] Failed to parse 'second.nessus': syntax error: line 1, column 0"]; [] ]
  /\ map (fun path => length (file_rows same_text sample_parse path)) sample_files
     = [1; 0; 1]
  /\ exists out,
       main same_text sample_parse sample_files
       = Py.Ok (out,
                {| wrote_rows :=
                     length (flat_map (file_rows same_text sample_parse) sample_files);
                   from_files := length sample_files |})
       /\ written out
          = fieldnames
            :: map row_cells (flat_map (file_rows same_text sample_parse) sample_files)
       /\ stderr out = flat_map (file_diagnostic sample_parse) sample_files
       /\ List.Forall
            (fun path =>
               parse_nessus_file same_text path (sample_parse path)
               = (file_diagnostic sample_parse path,
                  Py.Ok (file_rows same_text sample_parse path))
               /\ match sample_parse path with
                  | inl e =>
                      file_rows same_text sample_parse path = []
                      /\ file_diagnostic sample_parse path = [parse_failure path e]
                  | inr _ => file_diagnostic sample_parse path = []
                  end)
            sample_files.
Proof.
  split; [vm_compute; reflexivity|].
  split; [vm_compute; reflexivity|].
  split; [vm_compute; reflexivity|].
  apply (main_aggregates same_text sample_parse sample_files).
  vm_compute; reflexivity.
Defined.

(** ** The scenarios of the specification, evaluated *)

(** The end-to-end scenario: one host, one item, one row. *)
Example end_to_end_row :
  (parse_nessus_file same_text "scan.nessus" (inr tls_document)).2 = Py.Ok [tls_row]
  /\ map (fun k => row_get k tls_row)
       ["IP Address"; "Port"; "Protocol"; "Severity"; "Is Compliance Item";
        "Compliance Result"; "Compliance Check Name"; "Compliance Info"]
     = [Some "10.0.0.5"; Some "443"; Some "tcp"; Some "Medium"; Some "true";
        Some "FAILED"; Some "Ensure TLS enabled"; Some ""].
Proof. split; vm_compute; reflexivity. Qed.

(** Unprefixed compliance tags are read by the second tier, and the text of
    a field goes through the entity decoding once trimmed. *)
Example unprefixed_fields (charref_sub : string -> string) :
  cm_text charref_sub default_cm unprefixed_item "compliance-result" = "PASSED"
  /\ cm_text charref_sub default_cm unprefixed_item "compliance-info"
     = charref_sub "O&amp;M"
  /\ compliance unprefixed_item = true.
Proof. repeat split. Qed.

(** White space around a text goes, white space inside stays. *)
Example strip_sample :
  Py.strip (String (ascii_of_nat 10) "  Ensure TLS " +:+ String (ascii_of_nat 9) "")
  = "Ensure TLS".
Proof. reflexivity. Qed.

(** A document without nesting goes through the flat fallback: one row per
    item, paired with the hosts by position. *)
Example unnested_rows :
  (let? rows := (parse_nessus_file same_text "scan.nessus" (inr unnested_document)).2 in
   Py.Ok (map (fun r => (row_get "IP Address" r, row_get "Plugin ID" r,
                         row_get "Severity" r, row_get "Compliance Result" r)) rows))
  = Py.Ok [ (Some "10.0.0.1", Some "11", Some "High", Some "");
            (Some "", Some "12", Some "Unknown", Some "") ].
Proof. vm_compute; reflexivity. Qed.

(** * Further properties of the code *)

(** ** Input discovery *)

Lemma node_tree_ind (P : OS.node -> Prop) :
  P OS.File ->
  (forall entries, List.Forall (fun e => P e.2) entries -> P (OS.Dir entries)) ->
  forall n, P n.
Proof.
  intros Hfile Hdir. fix IH 1. intros [|entries]; [exact Hfile|].
  apply Hdir. induction entries as [|[name child] entries IHe]; constructor;
    [apply IH | exact IHe].
Qed.

Lemma app_assoc_string (a b c : string) : (a +:+ b) +:+ c = a +:+ (b +:+ c).
Proof.
  induction a as [|x a IH]; [reflexivity|]. now rewrite !app_cons, IH.
Qed.

Lemma lower_app (a b : string) : Py.lower (a +:+ b) = Py.lower a +:+ Py.lower b.
Proof.
  induction a as [|x a IH]; [reflexivity|].
  rewrite app_cons. cbn [Py.lower]. now rewrite IH, app_cons.
Qed.

Lemma endswith_refl (s : string) : endswith s s = true.
Proof. destruct s; cbn [endswith]; now rewrite String.eqb_refl. Qed.

Lemma endswith_app (a b s : string) :
  endswith b s = true -> endswith (a +:+ b) s = true.
Proof.
  intros Hb. induction a as [|x a IH]; [exact Hb|].
  rewrite app_cons. cbn [endswith]. rewrite IH. apply orb_true_r.
Qed.

(** [endswith] is the test for a trailing occurrence. *)
Lemma endswith_iff (s suffix : string) :
  endswith s suffix = true <-> exists a, s = a +:+ suffix.
Proof.
  induction s as [|x s IH]; cbn [endswith].
  - rewrite orb_false_r, String.eqb_eq. split.
    + intros <-. now exists "".
    + intros [a Ha]. destruct a; [exact Ha | discriminate].
  - rewrite orb_true_iff, String.eqb_eq, IH. split.
    + intros [<-|[a ->]]; [now exists "" | now exists (String x a)].
    + intros [a Ha]. destruct a as [|y a]; [left; exact Ha|].
      right. exists a. rewrite app_cons in Ha. congruence.
Qed.

(** A joined path keeps the end of its last part. *)
Lemma is_nessus_join (top name : string) :
  is_nessus name = true -> is_nessus (OS.join top name) = true.
Proof.
  unfold is_nessus, OS.join. intros H.
  destruct (String.prefix "/" name); [exact H|].
  destruct (negb (Py.truthy top) || endswith top "/");
    rewrite !lower_app; repeat apply endswith_app; exact H.
Qed.

Lemma prefix_refl (s : string) : String.prefix s s = true.
Proof. apply prefix_iff. exists "". induction s as [|x s IH]; [reflexivity|].
  now rewrite app_cons, <- IH. Qed.

Lemma prefix_app_r (p s x : string) :
  String.prefix p s = true -> String.prefix p (s +:+ x) = true.
Proof.
  rewrite !prefix_iff. intros [b ->]. exists (b +:+ x). apply app_assoc_string.
Qed.

(** A joined path lies under its first part when the second begins with no
    slash. *)
Lemma prefix_join (p top name : string) :
  String.prefix "/" name = false ->
  String.prefix p top = true -> String.prefix p (OS.join top name) = true.
Proof.
  intros Hname Htop. unfold OS.join. rewrite Hname.
  destruct (negb (Py.truthy top) || endswith top "/").
  - now apply prefix_app_r.
  - rewrite <- app_assoc_string. now do 2 apply prefix_app_r.
Qed.

Lemma filenames_cons (name : string) (child : OS.node) (entries : list (string * OS.node)) :
  OS.filenames ((name, child) :: entries)
  = if OS.is_dir child then OS.filenames entries else name :: OS.filenames entries.
Proof. unfold OS.filenames. cbn [List.filter snd]. now destruct (OS.is_dir child). Qed.

(** The paths of a walk: those of the directory itself, then those of each
    sub-directory in turn. *)
Lemma walk_files_dir (top : string) (entries : list (string * OS.node)) :
  walk_files top (OS.Dir entries)
  = map (OS.join top) (List.filter is_nessus (OS.filenames entries))
    ++ flat_map (fun e => if OS.is_dir e.2 then walk_files (OS.join top e.1) e.2 else [])
         entries.
Proof.
  unfold walk_files. cbn [OS.walk flat_map]. f_equal.
  rewrite flat_map_flat_map. apply flat_map_ext_Forall, List.Forall_forall.
  intros [name child] _. cbn [fst snd]. now destruct (OS.is_dir child).
Qed.

(** A recursive search comes back empty exactly when no file of the tree
    has a .nessus name. *)
Lemma walk_files_nil (top : string) (n : OS.node) :
  walk_files top n = [] <-> holds_nessus_file n = false.
Proof.
  revert top. induction n as [|entries IH] using node_tree_ind; intros top.
  - split; reflexivity.
  - rewrite walk_files_dir. cbn [holds_nessus_file].
    induction entries as [|[name child] entries IHe].
    + split; reflexivity.
    + apply List.Forall_cons_iff in IH as [IHchild IHrest]. cbn [fst snd] in IHchild.
      specialize (IHe IHrest). rewrite app_nil in IHe.
      rewrite filenames_cons. cbn [existsb flat_map fst snd].
      rewrite orb_false_iff, <- IHe.
      destruct (OS.is_dir child).
      * rewrite <- (IHchild (OS.join top name)), !app_nil. tauto.
      * cbn [app]. destruct (is_nessus name) eqn:Hname; cbn [List.filter];
          rewrite Hname; cbn [map]; rewrite app_nil; [|tauto].
        split; intros [H _]; discriminate.
Qed.

Lemma walk_files_under (p : string) (n : OS.node) :
  plain_names n = true ->
  forall top,
  String.prefix p top = true ->
  List.Forall (fun f => String.prefix p f = true) (walk_files top n).
Proof.
  induction n as [|entries IH] using node_tree_ind; intros Hplain top Htop.
  - constructor.
  - rewrite walk_files_dir. cbn [plain_names] in Hplain.
    induction entries as [|[name child] entries IHe]; [constructor|].
    apply List.Forall_cons_iff in IH as [IHchild IHrest]. cbn [fst snd] in IHchild.
    cbn [forallb fst snd] in Hplain.
    apply andb_true_iff in Hplain as [Hhere Hrest].
    apply andb_true_iff in Hhere as [Hname Hchild]. apply negb_true_iff in Hname.
    specialize (IHe IHrest Hrest). apply List.Forall_app in IHe as [IHfiles IHdirs].
    rewrite filenames_cons. cbn [flat_map fst snd].
    apply List.Forall_app. split.
    + destruct (OS.is_dir child); [exact IHfiles|].
      cbn [List.filter]. destruct (is_nessus name); [|exact IHfiles].
      cbn [map]. constructor; [|exact IHfiles]. now apply prefix_join.
    + destruct (OS.is_dir child); [|exact IHdirs].
      apply List.Forall_app. split; [|exact IHdirs].
      apply IHchild; [exact Hchild|]. now apply prefix_join.
Qed.

Lemma walk_files_nessus (top : string) (n : OS.node) :
  List.Forall (fun f => is_nessus f = true) (walk_files top n).
Proof.
  unfold walk_files. apply List.Forall_forall. intros f Hf.
  apply in_flat_map in Hf as ([[root_dir dirs] files] & _ & Hf).
  apply in_map_iff in Hf as (name & <- & Hname).
  apply List.filter_In in Hname as [_ Hname]. now apply is_nessus_join.
Qed.

(** Without a directory that carries a .nessus name, the listing and the
    walk see the same names in the directory itself. *)
Lemma listdir_filenames (entries : list (string * OS.node)) :
  no_nessus_dir entries = true ->
  List.filter is_nessus (OS.listdir entries)
  = List.filter is_nessus (OS.filenames entries).
Proof.
  induction entries as [|[name child] entries IH]; [reflexivity|].
  cbn [no_nessus_dir forallb fst snd]. intros H.
  apply andb_true_iff in H as [Hhere Hrest]. apply negb_true_iff in Hhere.
  rewrite filenames_cons. unfold OS.listdir in *. cbn [map fst List.filter].
  rewrite (IH Hrest). destruct (OS.is_dir child); [|reflexivity].
  cbn [andb] in Hhere. now rewrite Hhere.
Qed.

(** X1: on a normal return the list of input files is never empty, and
    every path in it ends in .nessus, whatever the case of its letters. *)
Theorem collect_returns_nessus_paths
  (found : option OS.node) (input_path : string) (recursive : bool)
  (files : list string) :
  collect_nessus_inputs found input_path recursive = OS.Return files ->
  files <> [] /\ List.Forall (fun f => is_nessus f = true) files.
Proof.
  unfold collect_nessus_inputs. destruct found as [[|entries]|]; [| |discriminate].
  - destruct (is_nessus input_path) eqn:Hp; [|discriminate].
    intros H. injection H as <-. split; [discriminate|]. now repeat constructor.
  - set (found_files := if recursive then _ else _).
    assert (Hall : List.Forall (fun f => is_nessus f = true) found_files).
    { subst found_files. destruct recursive.
      - apply (walk_files_nessus input_path (OS.Dir entries)).
      - apply List.Forall_forall. intros f Hf.
        apply in_map_iff in Hf as (name & <- & Hname).
        apply List.filter_In in Hname as [_ Hname]. now apply is_nessus_join. }
    destruct found_files as [|f fs]; [discriminate|].
    intros H. injection H as <-. split; [discriminate | exact Hall].
Qed.

Lemma collect_returns_nessus_paths_witness :
  collect_nessus_inputs (Some scans_directory) "scans" true
  = OS.Return ["scans/first.nessus"; "scans/third.NESSUS"; "scans/archive/old.nessus"]
  /\ ["scans/first.nessus"; "scans/third.NESSUS"; "scans/archive/old.nessus"] <> []
  /\ List.Forall (fun f => is_nessus f = true)
       ["scans/first.nessus"; "scans/third.NESSUS"; "scans/archive/old.nessus"].
Proof.
  split; [vm_compute; reflexivity|].
  apply (collect_returns_nessus_paths (Some scans_directory) "scans" true).
  vm_compute; reflexivity.
Defined.

(** X2: when no name of the listing begins with a slash, every path that is
    returned lies under the input path. *)
Theorem collect_paths_under_input
  (n : OS.node) (input_path : string) (recursive : bool) (files : list string) :
  plain_names n = true ->
  collect_nessus_inputs (Some n) input_path recursive = OS.Return files ->
  List.Forall (fun f => String.prefix input_path f = true) files.
Proof.
  intros Hplain. unfold collect_nessus_inputs. destruct n as [|entries].
  - destruct (is_nessus input_path); [|discriminate].
    intros H. injection H as <-. repeat constructor. apply prefix_refl.
  - set (found_files := if recursive then _ else _).
    assert (Hall : List.Forall (fun f => String.prefix input_path f = true) found_files).
    { subst found_files. destruct recursive.
      - apply (walk_files_under input_path (OS.Dir entries) Hplain), prefix_refl.
      - apply List.Forall_forall. intros f Hf.
        apply in_map_iff in Hf as (name & <- & Hname).
        apply List.filter_In in Hname as [Hname _].
        apply in_map_iff in Hname as ([name' child] & <- & Hentry).
        cbn [plain_names] in Hplain. rewrite forallb_forall in Hplain.
        specialize (Hplain _ Hentry). apply andb_true_iff in Hplain as [Hslash _].
        apply negb_true_iff in Hslash. apply prefix_join; [exact Hslash|].
        apply prefix_refl. }
    destruct found_files as [|f fs]; [discriminate|].
    intros H. injection H as <-. exact Hall.
Qed.

Lemma collect_paths_under_input_witness :
  plain_names scans_directory = true
  /\ collect_nessus_inputs (Some scans_directory) "scans/" false
     = OS.Return ["scans/first.nessus"; "scans/third.NESSUS"]
  /\ List.Forall (fun f => String.prefix "scans/" f = true)
       ["scans/first.nessus"; "scans/third.NESSUS"].
Proof.
  split; [vm_compute; reflexivity|].
  split; [vm_compute; reflexivity|].
  apply (collect_paths_under_input scans_directory "scans/" false);
    vm_compute; reflexivity.
Defined.

(** X3: input discovery in a directory fails exactly when the search finds
    no .nessus name: among the entries of the directory itself for a plain
    search (sub-directories included), among the files of the whole tree for
    a recursive one.  The failure is the FileNotFoundError that names the
    directory. *)
Theorem collect_directory_outcome
  (entries : list (string * OS.node)) (input_path : string) (recursive : bool) :
  match collect_nessus_inputs (Some (OS.Dir entries)) input_path recursive with
  | OS.Return files =>
      (if recursive
       then holds_nessus_file (OS.Dir entries)
       else existsb is_nessus (OS.listdir entries)) = true
  | OS.Raise e =>
      (if recursive
       then holds_nessus_file (OS.Dir entries)
       else existsb is_nessus (OS.listdir entries)) = false
      /\ e = OS.FileNotFoundError ("No .nessus files found in directory: " +:+ input_path)
  end.
Proof.
  unfold collect_nessus_inputs. destruct recursive.
  - fold (walk_files input_path (OS.Dir entries)).
    pose proof (walk_files_nil input_path (OS.Dir entries)) as Hnil.
    destruct (walk_files input_path (OS.Dir entries)) as [|f fs].
    + split; [now apply Hnil | reflexivity].
    + apply not_false_iff_true. intros H. apply Hnil in H. discriminate.
  - destruct (List.filter is_nessus (OS.listdir entries)) as [|name names] eqn:Hfilter;
      cbn [map].
    + split; [|reflexivity]. apply not_true_iff_false. intros H.
      apply existsb_exists in H as (name & Hin & Hname).
      assert (Hf : In name (List.filter is_nessus (OS.listdir entries)))
        by (apply List.filter_In; auto).
      now rewrite Hfilter in Hf.
    + apply existsb_exists. exists name.
      apply List.filter_In. rewrite Hfilter. now left.
Qed.

(** X4: when no sub-directory of the input directory carries a .nessus
    name, the recursive search returns the paths of the plain search first,
    in the same order, and then those found deeper. *)
Theorem recursive_extends_plain_search
  (entries : list (string * OS.node)) (input_path : string) (files : list string) :
  no_nessus_dir entries = true ->
  collect_nessus_inputs (Some (OS.Dir entries)) input_path false = OS.Return files ->
  exists deeper,
    collect_nessus_inputs (Some (OS.Dir entries)) input_path true
    = OS.Return (files ++ deeper).
Proof.
  intros Hdirs. unfold collect_nessus_inputs.
  fold (walk_files input_path (OS.Dir entries)).
  rewrite walk_files_dir, <- (listdir_filenames entries Hdirs).
  destruct (map (OS.join input_path) (List.filter is_nessus (OS.listdir entries)))
    as [|f fs]; [discriminate|].
  intros H. injection H as <-. eexists. reflexivity.
Qed.

Lemma recursive_extends_plain_search_witness :
  no_nessus_dir scans_entries = true
  /\ collect_nessus_inputs (Some (OS.Dir scans_entries)) "scans" false
     = OS.Return ["scans/first.nessus"; "scans/third.NESSUS"]
  /\ exists deeper,
       collect_nessus_inputs (Some (OS.Dir scans_entries)) "scans" true
       = OS.Return (["scans/first.nessus"; "scans/third.NESSUS"] ++ deeper).
Proof.
  split; [vm_compute; reflexivity|].
  split; [vm_compute; reflexivity|].
  apply (recursive_extends_plain_search scans_entries "scans"
           ["scans/first.nessus"; "scans/third.NESSUS"]);
    vm_compute; reflexivity.
Defined.

(** ** The run as a whole *)

Lemma collect_nonempty
  (found : option OS.node) (input_path : string) (recursive : bool)
  (files : list string) :
  collect_nessus_inputs found input_path recursive = OS.Return files ->
  1 <= length files.
Proof.
  unfold collect_nessus_inputs. destruct found as [[|entries]|]; [| |discriminate].
  - destruct (is_nessus input_path); [|discriminate].
    intros H. injection H as <-. reflexivity.
  - destruct (if recursive then _ else _) as [|f fs]; [discriminate|].
    intros H. injection H as <-. cbn [length]. lia.
Qed.

Section Run.
Variable charref_sub : string -> string.
Variable parse : string -> string + ET.Element.

(** The guarantee of the XML parser: a tree it returns has parsed tags. *)
Hypothesis parser_tags : forall path root, parse path = inr root -> parsed_tags root = true.

Lemma parser_inputs (files : list string) : parsed_inputs parse files = true.
Proof.
  unfold parsed_inputs. apply forallb_forall. intros path _.
  destruct (parse path) as [e|root] eqn:Hparse; [reflexivity|].
  now apply (parser_tags path).
Qed.

Lemma main_returns (files : list string) :
  exists out,
    main charref_sub parse files
    = Py.Ok (out, {| wrote_rows := length (flat_map (file_rows charref_sub parse) files);
                     from_files := length files |})
    /\ written out
       = fieldnames :: map row_cells (flat_map (file_rows charref_sub parse) files)
    /\ stderr out = flat_map (file_diagnostic parse) files.
Proof.
  unfold main. rewrite (files_loop charref_sub parse files (parser_inputs files)).
  simpl. eexists. repeat split.
Qed.

End Run.

(** X5: how a run ends.  When [parse_args] hands over the arguments and
    input discovery raises, the program prints the message of the exception
    after "[!] " and exits with status 1; this is settled before the output
    file is opened, whether or not the system would open it.  When
    discovery returns and the system refuses to open the output file, the
    OSError of [open] escapes.  Otherwise the run completes: at least one
    file is reported, as many as discovery returned, and the output holds
    the header and one line per reported row.  The writing loop raises
    nothing of its own. *)
Theorem run_outcome (charref_sub : string -> string)
  (parse : string -> string + ET.Element)
  (cli : parse_args) (found : option OS.node) (refused : option string) :
  (forall path root, parse path = inr root -> parsed_tags root = true) ->
  match run charref_sub parse cli found refused with
  | Usage status => cli = Leaves status
  | Exit1 line =>
      exists args e,
        cli = Returns args
        /\ collect_nessus_inputs found (Args.input args) (Args.recursive args) = OS.Raise e
        /\ line = "[!] " +:+ OS.message e
        /\ forall refused',
             run charref_sub parse cli found refused' = Exit1 line
  | OpenError e =>
      exists args files,
        cli = Returns args
        /\ collect_nessus_inputs found (Args.input args) (Args.recursive args)
           = OS.Return files
        /\ refused = Some e
  | Completed out msg =>
      exists args files,
        cli = Returns args
        /\ collect_nessus_inputs found (Args.input args) (Args.recursive args)
           = OS.Return files
        /\ refused = None
        /\ from_files msg = length files
        /\ 1 <= from_files msg
        /\ length (written out) = S (wrote_rows msg)
  | Uncaught _ => False
  end.
Proof.
  intros Hparser. unfold run. destruct cli as [status|args]; [reflexivity|].
  destruct (collect_nessus_inputs found (Args.input args) (Args.recursive args))
    as [files|e] eqn:Hcollect.
  - destruct refused as [e|].
    { exists args, files. repeat split. exact Hcollect. }
    destruct (main_returns charref_sub parse Hparser files) as (out & Hmain & Hwritten & _).
    rewrite Hmain. exists args, files. split; [reflexivity|]. split; [exact Hcollect|].
    split; [reflexivity|]. split; [reflexivity|].
    cbn [from_files wrote_rows]. split.
    + now apply (collect_nonempty found (Args.input args) (Args.recursive args)).
    + rewrite Hwritten. cbn [length]. now rewrite length_map.
  - exists args, e. split; [reflexivity|]. split; [exact Hcollect|].
    split; [reflexivity|]. intros refused'. reflexivity.
Qed.

Lemma run_outcome_witness :
  (forall path root, scans_parse path = inr root -> parsed_tags root = true)
  /\ match run same_text scans_parse (Returns scans_args) (Some scans_directory) None with
     | Usage status => Returns scans_args = Leaves status
     | Exit1 line =>
         exists args e,
           Returns scans_args = Returns args
           /\ collect_nessus_inputs (Some scans_directory) (Args.input args)
                (Args.recursive args) = OS.Raise e
           /\ line = "[!] " +:+ OS.message e
           /\ forall refused',
                run same_text scans_parse (Returns scans_args) (Some scans_directory)
                  refused' = Exit1 line
     | OpenError e =>
         exists args files,
           Returns scans_args = Returns args
           /\ collect_nessus_inputs (Some scans_directory) (Args.input args)
                (Args.recursive args) = OS.Return files
           /\ (None : option string) = Some e
     | Completed out msg =>
         exists args files,
           Returns scans_args = Returns args
           /\ collect_nessus_inputs (Some scans_directory) (Args.input args)
                (Args.recursive args) = OS.Return files
           /\ (None : option string) = None
           /\ from_files msg = length files
           /\ 1 <= from_files msg
           /\ length (written out) = S (wrote_rows msg)
     | Uncaught _ => False
     end.
Proof.
  assert (Hparser : forall path root,
             scans_parse path = inr root -> parsed_tags root = true).
  { intros path root. unfold scans_parse.
    destruct (String.eqb path "scans/first.nessus").
    - intros H. injection H as <-. vm_compute; reflexivity.
    - destruct (String.eqb path "scans/third.NESSUS"); [|discriminate].
      intros H. injection H as <-. vm_compute; reflexivity. }
  split; [exact Hparser|].
  apply (run_outcome same_text scans_parse (Returns scans_args) (Some scans_directory)
           None Hparser).
Defined.

(** An output path the system does not open: the files were found, and the
    OSError escapes with nothing written. *)
Example open_refused :
  run same_text scans_parse (Returns scans_args) (Some scans_directory)
    (Some "[Errno 13] Permission denied: 'results.csv'")
  = OpenError "[Errno 13] Permission denied: 'results.csv'"
  /\ run same_text scans_parse (Returns scans_args) None
       (Some "[Errno 13] Permission denied: 'results.csv'")
     = Exit1 "[!] Input path does not exist: scans".
Proof. split; vm_compute; reflexivity. Qed.

(** ** The lines of the output *)

(** With distinct keys, reading the keys of a row in order gives its values
    in order. *)
Lemma row_get_own_keys (r : Row) :
  NoDup (map fst r) ->
  map (fun k => match row_get k r with Some v => v | None => "" end) (map fst r)
  = map snd r.
Proof.
  induction r as [|[k v] r IH]; [reflexivity|]. cbn [map fst snd].
  intros Hnd. apply NoDup_cons in Hnd as [Hfresh Hnd].
  rewrite list_elem_of_In in Hfresh.
  cbn [row_get]. rewrite String.eqb_refl. f_equal.
  rewrite <- (IH Hnd). apply List.map_ext_in. intros k' Hk'.
  cbn [row_get]. destruct (String.eqb_spec k k') as [->|_]; [tauto | reflexivity].
Qed.

(** X6: the line written for a row that [parse_nessus_file] returned holds
    the 28 values of the row, column by column in the order of the header;
    the writer raises no ValueError on such a row. *)
Theorem writerow_returned_row (charref_sub : string -> string)
  (path : string) (parsed : string + ET.Element) (rows : list Row) (r : Row) :
  (parse_nessus_file charref_sub path parsed).2 = Py.Ok rows ->
  In r rows ->
  writerow fieldnames r = Py.Ok (map snd r) /\ length (map snd r) = length fieldnames.
Proof.
  intros Hret Hin.
  pose proof (parse_rows_keys charref_sub path parsed rows Hret) as Hall.
  rewrite List.Forall_forall in Hall. specialize (Hall r Hin).
  rewrite (writerow_fieldnames r Hall). unfold row_cells. split.
  - f_equal. rewrite <- Hall. apply row_get_own_keys.
    rewrite Hall. exact fieldnames_distinct.
  - now rewrite <- Hall, !length_map.
Qed.

Lemma writerow_returned_row_witness :
  (parse_nessus_file same_text "scan.nessus" (inr tls_document)).2 = Py.Ok [tls_row]
  /\ In tls_row [tls_row]
  /\ writerow fieldnames tls_row = Py.Ok (map snd tls_row)
  /\ length (map snd tls_row) = length fieldnames.
Proof.
  split; [vm_compute; reflexivity|].
  split; [left; reflexivity|].
  apply (writerow_returned_row same_text "scan.nessus" (inr tls_document) [tls_row] tls_row).
  - vm_compute; reflexivity.
  - left; reflexivity.
Defined.

(** The files whose XML did not parse. *)
Lemma diagnostics_count (parse : string -> string + ET.Element) (files : list string) :
  length (flat_map (file_diagnostic parse) files)
  = length (List.filter (fun path => match parse path with
                                     | inl _ => true
                                     | inr _ => false
                                     end) files).
Proof.
  induction files as [|path files IH]; [reflexivity|].
  cbn [flat_map List.filter]. rewrite List.length_app, IH.
  unfold file_diagnostic. now destruct (parse path).
Qed.

(** X7: the output of a batch is rectangular and agrees with the closing
    message: every written line, the header included, has 28 cells; the
    data lines are as many as the rows the message reports; and the
    standard error stream holds one line per file that did not parse. *)
Theorem main_output_shape (charref_sub : string -> string)
  (parse : string -> string + ET.Element) (files : list string) :
  parsed_inputs parse files = true ->
  exists out msg,
    main charref_sub parse files = Py.Ok (out, msg)
    /\ List.Forall (fun line => length line = 28) (written out)
    /\ length (written out) = S (wrote_rows msg)
    /\ length (stderr out)
       = length (List.filter (fun path => match parse path with
                                          | inl _ => true
                                          | inr _ => false
                                          end) files).
Proof.
  intros Hok. unfold main. rewrite (files_loop charref_sub parse files Hok).
  simpl. do 2 eexists. split; [reflexivity|]. cbn [written stderr wrote_rows].
  split; [|split].
  - constructor; [reflexivity|]. apply List.Forall_forall. intros line Hline.
    apply in_map_iff in Hline as (r & <- & _). unfold row_cells.
    now rewrite length_map.
  - cbn [length]. now rewrite length_map.
  - apply diagnostics_count.
Qed.

Lemma main_output_shape_witness :
  parsed_inputs sample_parse sample_files = true
  /\ exists out msg,
       main same_text sample_parse sample_files = Py.Ok (out, msg)
       /\ List.Forall (fun line => length line = 28) (written out)
       /\ length (written out) = S (wrote_rows msg)
       /\ length (stderr out)
          = length (List.filter (fun path => match sample_parse path with
                                             | inl _ => true
                                             | inr _ => false
                                             end) sample_files).
Proof.
  split; [vm_compute; reflexivity|].
  apply (main_output_shape same_text sample_parse sample_files).
  vm_compute; reflexivity.
Defined.

(** X8: a batch is the sum of its parts.  Running the files of two lists as
    one batch writes the lines of the first run and then the data lines of
    the second, prints the diagnostics of the first and then those of the
    second, and reports the sums of the row and file counts. *)
Theorem main_batches_compose (charref_sub : string -> string)
  (parse : string -> string + ET.Element) (files1 files2 : list string)
  (out1 out2 : Output) (msg1 msg2 : Summary) :
  parsed_inputs parse (files1 ++ files2) = true ->
  main charref_sub parse files1 = Py.Ok (out1, msg1) ->
  main charref_sub parse files2 = Py.Ok (out2, msg2) ->
  main charref_sub parse (files1 ++ files2)
  = Py.Ok ({| written := written out1 ++ tl (written out2);
              stderr := stderr out1 ++ stderr out2;
              total_rows := total_rows out1 + total_rows out2 |},
           {| wrote_rows := wrote_rows msg1 + wrote_rows msg2;
              from_files := from_files msg1 + from_files msg2 |}).
Proof.
  intros Hok. unfold parsed_inputs in Hok. rewrite List.forallb_app in Hok.
  apply andb_true_iff in Hok as [Hok1 Hok2].
  assert (Hok12 : parsed_inputs parse (files1 ++ files2) = true).
  { unfold parsed_inputs. rewrite List.forallb_app. now rewrite Hok1, Hok2. }
  unfold main.
  rewrite (files_loop charref_sub parse files1 Hok1),
          (files_loop charref_sub parse files2 Hok2),
          (files_loop charref_sub parse (files1 ++ files2) Hok12).
  simpl. intros H1 H2. injection H1 as <- <-. injection H2 as <- <-.
  cbn [written stderr total_rows wrote_rows from_files tl].
  now rewrite !List.flat_map_app, List.map_app, !List.length_app.
Qed.

Lemma main_batches_compose_witness :
  parsed_inputs sample_parse (["first.nessus"] ++ ["second.nessus"; "third.nessus"]) = true
  /\ exists out1 out2 msg1 msg2,
       main same_text sample_parse ["first.nessus"] = Py.Ok (out1, msg1)
       /\ main same_text sample_parse ["second.nessus"; "third.nessus"] = Py.Ok (out2, msg2)
       /\ main same_text sample_parse (["first.nessus"] ++ ["second.nessus"; "third.nessus"])
          = Py.Ok ({| written := written out1 ++ tl (written out2);
                      stderr := stderr out1 ++ stderr out2;
                      total_rows := total_rows out1 + total_rows out2 |},
                   {| wrote_rows := wrote_rows msg1 + wrote_rows msg2;
                      from_files := from_files msg1 + from_files msg2 |}).
Proof.
  split; [vm_compute; reflexivity|].
  destruct (main same_text sample_parse ["first.nessus"]) as [[out1 msg1]|e1] eqn:H1;
    [|vm_compute in H1; discriminate].
  destruct (main same_text sample_parse ["second.nessus"; "third.nessus"])
    as [[out2 msg2]|e2] eqn:H2; [|vm_compute in H2; discriminate].
  exists out1, out2, msg1, msg2. split; [reflexivity|]. split; [reflexivity|].
  apply (main_batches_compose same_text sample_parse
           ["first.nessus"] ["second.nessus"; "third.nessus"] out1 out2 msg1 msg2);
    [vm_compute; reflexivity | exact H1 | exact H2].
Defined.

(** ** Trimming *)

Lemma lstrip_suffix (s : string) : exists a, s = a +:+ Py.lstrip s.
Proof.
  induction s as [|c s [a IH]]; [now exists ""|]. cbn [Py.lstrip].
  destruct (Py.isspace c).
  - exists (String c a). now rewrite app_cons, <- IH.
  - now exists "".
Qed.

Lemma app_empty_r (s : string) : s +:+ "" = s.
Proof. induction s as [|c s IH]; [reflexivity|]. now rewrite app_cons, IH. Qed.

Lemma rstrip_prefix (s : string) : exists b, s = Py.rstrip s +:+ b.
Proof.
  induction s as [|c s [b IH]]; [now exists ""|]. cbn [Py.rstrip].
  destruct (Py.isspace c && negb (Py.truthy (Py.rstrip s))).
  - now exists (String c s).
  - exists b. now rewrite app_cons, <- IH.
Qed.

(** The trimmed text is a part of the text. *)
Lemma strip_infix (s : string) : exists a b, s = a +:+ Py.strip s +:+ b.
Proof.
  destruct (lstrip_suffix s) as [a Ha]. unfold Py.strip.
  destruct (rstrip_prefix (Py.lstrip s)) as [b Hb].
  exists a, b. now rewrite <- Hb.
Qed.

Lemma contains_strip (needle s : string) :
  Py.contains needle s = false -> Py.contains needle (Py.strip s) = false.
Proof.
  intros Hfree. apply not_true_iff_false. intros Hin.
  apply contains_iff in Hin as (a' & b' & Hin).
  destruct (strip_infix s) as (a & b & Hs).
  apply not_true_iff_false in Hfree. apply Hfree, contains_iff.
  exists (a +:+ a'), (b' +:+ b). rewrite Hs, Hin.
  now rewrite !app_assoc_string.
Qed.

Lemma rstrip_idempotent (s : string) : Py.rstrip (Py.rstrip s) = Py.rstrip s.
Proof.
  induction s as [|c s IH]; [reflexivity|]. cbn [Py.rstrip].
  destruct (Py.isspace c && negb (Py.truthy (Py.rstrip s))) eqn:Hdrop; [reflexivity|].
  cbn [Py.rstrip]. now rewrite IH, Hdrop.
Qed.

Lemma lstrip_head (s : string) :
  match Py.lstrip s with
  | String c _ => Py.isspace c = false
  | EmptyString => True
  end.
Proof.
  induction s as [|c s IH]; [exact I|]. cbn [Py.lstrip].
  destruct (Py.isspace c) eqn:Hc; [exact IH | exact Hc].
Qed.

(** Trimming twice is trimming once. *)
Lemma strip_idempotent (s : string) : Py.strip (Py.strip s) = Py.strip s.
Proof.
  unfold Py.strip. pose proof (lstrip_head s) as Hhead.
  destruct (Py.lstrip s) as [|c u]; [reflexivity|].
  cbn [Py.rstrip]. rewrite Hhead. cbn [andb Py.lstrip]. rewrite Hhead.
  cbn [Py.rstrip]. rewrite Hhead. cbn [andb]. now rewrite rstrip_idempotent.
Qed.

(** ** More on the extraction *)

(** X9: a text without ampersand comes out as it is, trimmed: when the
    lookup succeeds with such a text, the field is the trimmed text,
    whatever the table of character references holds. *)
Theorem cm_text_plain_text (charref_sub : string -> string)
  (cm : string) (item : ET.Element) (tagname t : string) :
  first_success [tier1 cm tagname; tier2 tagname; tier3 cm tagname] item = Some t ->
  Py.contains "&" t = false ->
  cm_text charref_sub cm item tagname = Py.strip t.
Proof.
  unfold first_success, tier1, tier2, tier3, cm_text. intros Hfound Hplain.
  assert (Hfinal : (if Py.truthy t then html_unescape charref_sub (Py.strip t) else "")
                   = Py.strip t).
  { destruct (Py.truthy t) eqn:Ht.
    - unfold html_unescape. now rewrite (contains_strip "&" t Hplain).
    - apply truthy_false in Ht. now subst t. }
  destruct (ET.findtext (qualified cm tagname) item) as [t1|].
  { injection Hfound as ->. exact Hfinal. }
  destruct (ET.findtext tagname item) as [t2|].
  { injection Hfound as ->. exact Hfinal. }
  destruct (ET.find_desc (qualified cm tagname) item) as [elem|]; [|discriminate].
  destruct (ET.text elem) as [t3|]; [|discriminate].
  cbn [Py.truthy_opt]. destruct (Py.truthy t3); [|discriminate].
  injection Hfound as ->. exact Hfinal.
Qed.

Lemma cm_text_plain_text_witness :
  first_success [tier1 default_cm "compliance-check-name";
                 tier2 "compliance-check-name";
                 tier3 default_cm "compliance-check-name"] tls_item
  = Some "Ensure TLS enabled"
  /\ Py.contains "&" "Ensure TLS enabled" = false
  /\ cm_text same_text default_cm tls_item "compliance-check-name"
     = Py.strip "Ensure TLS enabled".
Proof.
  split; [reflexivity|]. split; [reflexivity|].
  apply (cm_text_plain_text same_text default_cm tls_item
           "compliance-check-name" "Ensure TLS enabled"); reflexivity.
Defined.

(** ** Documents without rows *)

Lemma primary_rows_item (charref_sub : string -> string) (cm : string)
  (root : ET.Element) (r : Row) :
  In r (primary_rows charref_sub cm root) ->
  exists it, In it (ET.iter_tag "ReportItem" root).
Proof.
  unfold primary_rows. intros H.
  apply in_flat_map in H as (host & Hhost & Hr).
  apply in_map_iff in Hr as (it & _ & Hit).
  exists it. unfold ET.iter_tag. apply List.filter_In. split.
  - apply (iter_trans root host it); eapply findall_desc_iter; eassumption.
  - unfold ET.findall_desc in Hit. now apply List.filter_In in Hit.
Qed.

(** X10: a parsed document comes back without rows exactly when it holds no
    ReportItem element at all; a report item anywhere in the document, under
    a host or not, gives at least one row. *)
Theorem no_rows_iff_no_items (charref_sub : string -> string)
  (path : string) (root : ET.Element) :
  parsed_tags root = true ->
  exists rows,
    (parse_nessus_file charref_sub path (inr root)).2 = Py.Ok rows
    /\ (rows = [] <-> ET.iter_tag "ReportItem" root = []).
Proof.
  intros Htags. rewrite (parse_nessus_file_parsed charref_sub path root Htags).
  eexists. split; [reflexivity|].
  destruct (primary_rows charref_sub (resolved_cm root) root) as [|r rs] eqn:Hprimary.
  - pose proof (flat_fallback_length root) as Hlen.
    split; intros H.
    + rewrite H in Hlen. now destruct (ET.iter_tag "ReportItem" root).
    + rewrite H in Hlen. now destruct (flat_fallback root []).
  - split; [discriminate|]. intros Hnone.
    destruct (primary_rows_item charref_sub (resolved_cm root) root r) as (it & Hit).
    + rewrite Hprimary. now left.
    + now rewrite Hnone in Hit.
Qed.

Lemma no_rows_iff_no_items_witness :
  parsed_tags unnested_document = true
  /\ exists rows,
       (parse_nessus_file same_text "scan.nessus" (inr unnested_document)).2 = Py.Ok rows
       /\ (rows = [] <-> ET.iter_tag "ReportItem" unnested_document = []).
Proof.
  split; [vm_compute; reflexivity|].
  apply (no_rows_iff_no_items same_text "scan.nessus" unnested_document).
  vm_compute; reflexivity.
Defined.

(** * The Word report *)

(** ** The tally *)

Section Tally.
Variable upper : string -> string.

Lemma sum_increment (counts : gmap string nat) (key : string) :
  map_fold (fun _ count acc => acc + count) 0
    (<[key := default 0 (counts !! key) + 1]> counts)
  = map_fold (fun _ count acc => acc + count) 0 counts + 1.
Proof.
  destruct (counts !! key) as [v|] eqn:Hkey; cbn [default].
  - rewrite <- insert_delete_eq.
    rewrite map_fold_insert_L; [|intros; cbn; lia | apply lookup_delete_eq].
    rewrite (map_fold_delete_L _ 0 key v counts);
      [unfold id; lia | intros; cbn; lia | exact Hkey].
  - rewrite map_fold_insert_L; [lia | intros; cbn; lia | exact Hkey].
Qed.

Lemma count_increment (counts : gmap string nat) (r : gmap string string) (key : string) :
  Word.count_of (Word.tally_step upper counts r) key
  = Word.count_of counts key
    + (if String.eqb (Word.normalized upper (r !! "Compliance Result")) key then 1 else 0).
Proof.
  unfold Word.count_of, Word.tally_step.
  destruct (String.eqb_spec (Word.normalized upper (r !! "Compliance Result")) key)
    as [->|Hne].
  - rewrite lookup_insert_eq. reflexivity.
  - rewrite lookup_insert_ne by exact Hne. lia.
Qed.

Lemma tally_fold (rows : list (gmap string string)) :
  forall counts : gmap string nat,
  map_fold (fun _ count acc => acc + count) 0 (fold_left (Word.tally_step upper) rows counts)
  = map_fold (fun _ count acc => acc + count) 0 counts + length rows
  /\ forall key,
       Word.count_of (fold_left (Word.tally_step upper) rows counts) key
       = Word.count_of counts key + Word.rows_with upper key rows.
Proof.
  induction rows as [|r rows IH]; intros counts.
  - cbn [fold_left length]. split; [lia|]. intros key. unfold Word.rows_with. simpl. lia.
  - cbn [fold_left length]. destruct (IH (Word.tally_step upper counts r)) as [Hsum Hcount].
    split.
    + rewrite Hsum. unfold Word.tally_step at 1. rewrite sum_increment. lia.
    + intros key. rewrite Hcount, count_increment. unfold Word.rows_with.
      cbn [List.filter].
      destruct (String.eqb (Word.normalized upper (r !! "Compliance Result")) key);
        cbn [length]; lia.
Qed.

Lemma rows_with_apart (rows : list (gmap string string)) :
  Word.rows_with upper "PASSED" rows + Word.rows_with upper "FAILED" rows <= length rows.
Proof.
  unfold Word.rows_with. induction rows as [|r rows IH]; [reflexivity|].
  cbn [List.filter length].
  destruct (String.eqb_spec (Word.normalized upper (r !! "Compliance Result")) "PASSED")
    as [->|_].
  - cbn [length]. change (String.eqb "PASSED" "FAILED") with false. cbn iota. lia.
  - destruct (String.eqb (Word.normalized upper (r !! "Compliance Result")) "FAILED");
      cbn [length]; lia.
Qed.

Lemma tally_total (rows : list (gmap string string)) :
  (Word.tally_results upper rows).2 = length rows.
Proof.
  unfold Word.tally_results. cbn [snd].
  destruct (tally_fold rows ∅) as [Hsum _]. rewrite Hsum. now rewrite map_fold_empty.
Qed.

Lemma tally_count (rows : list (gmap string string)) (key : string) :
  Word.count_of (Word.tally_results upper rows).1 key = Word.rows_with upper key rows.
Proof.
  unfold Word.tally_results. cbn [fst].
  destruct (tally_fold rows ∅) as [_ Hcount]. rewrite Hcount.
  unfold Word.count_of at 1. now rewrite lookup_empty.
Qed.

End Tally.

(** X11: the tally loses no row and invents none: the total is the number
    of rows, and the count under each key is the number of rows whose
    result, trimmed and upper-cased, is that key (0 for a key that is not
    in the counter). *)
Theorem tally_counts_rows (upper : string -> string)
  (rows : list (gmap string string)) :
  (Word.tally_results upper rows).2 = length rows
  /\ forall key,
       Word.count_of (Word.tally_results upper rows).1 key
       = Word.rows_with upper key rows.
Proof.
  split; [apply tally_total | intros key; apply tally_count].
Qed.

(** ** The order of the summary table *)

Lemma str_le_total (a b : string) : Word.str_le a b = true \/ Word.str_le b a = true.
Proof.
  revert b. induction a as [|x a IH]; intros b; [now left|].
  destruct b as [|y b]; [now right|]. cbn [Word.str_le].
  destruct (IH b) as [Hab|Hba];
    destruct (Nat.ltb_spec (nat_of_ascii x) (nat_of_ascii y));
    destruct (Nat.ltb_spec (nat_of_ascii y) (nat_of_ascii x));
    destruct (Nat.eqb_spec (nat_of_ascii x) (nat_of_ascii y));
    destruct (Nat.eqb_spec (nat_of_ascii y) (nat_of_ascii x));
    cbn [orb andb]; try rewrite Hab; try rewrite Hba; auto; lia.
Qed.

Lemma str_le_trans (a b c : string) :
  Word.str_le a b = true -> Word.str_le b c = true -> Word.str_le a c = true.
Proof.
  revert b c. induction a as [|x a IH]; intros b c; [reflexivity|].
  destruct b as [|y b]; [discriminate|]. destruct c as [|z c]; [discriminate|].
  cbn [Word.str_le]. intros Hab Hbc.
  apply orb_true_iff in Hab as [Hab|Hab]; apply orb_true_iff in Hbc as [Hbc|Hbc];
    apply orb_true_iff.
  - left. apply Nat.ltb_lt in Hab, Hbc. apply Nat.ltb_lt. lia.
  - left. apply andb_true_iff in Hbc as [Hbc _].
    apply Nat.ltb_lt in Hab. apply Nat.eqb_eq in Hbc. apply Nat.ltb_lt. lia.
  - left. apply andb_true_iff in Hab as [Hab _].
    apply Nat.ltb_lt in Hbc. apply Nat.eqb_eq in Hab. apply Nat.ltb_lt. lia.
  - right. apply andb_true_iff in Hab as [Hab Hab'].
    apply andb_true_iff in Hbc as [Hbc Hbc'].
    apply Nat.eqb_eq in Hab, Hbc. apply andb_true_iff. split.
    + apply Nat.eqb_eq. lia.
    + now apply (IH b c).
Qed.

Lemma key_order_total : Total Word.key_order.
Proof.
  intros a b. unfold Word.key_order, Word.key_le.
  destruct (str_le_total a b) as [Hab|Hba];
    destruct (Nat.ltb_spec (Word.priority a) (Word.priority b));
    destruct (Nat.ltb_spec (Word.priority b) (Word.priority a));
    destruct (Nat.eqb_spec (Word.priority a) (Word.priority b));
    destruct (Nat.eqb_spec (Word.priority b) (Word.priority a));
    cbn [orb andb]; try rewrite Hab; try rewrite Hba; auto; lia.
Qed.

Lemma key_order_trans : Transitive Word.key_order.
Proof.
  intros a b c. unfold Word.key_order, Word.key_le. intros Hab Hbc.
  apply orb_true_iff in Hab as [Hab|Hab]; apply orb_true_iff in Hbc as [Hbc|Hbc];
    apply orb_true_iff.
  - left. apply Nat.ltb_lt in Hab, Hbc. apply Nat.ltb_lt. lia.
  - left. apply andb_true_iff in Hbc as [Hbc _].
    apply Nat.ltb_lt in Hab. apply Nat.eqb_eq in Hbc. apply Nat.ltb_lt. lia.
  - left. apply andb_true_iff in Hab as [Hab _].
    apply Nat.ltb_lt in Hbc. apply Nat.eqb_eq in Hab. apply Nat.ltb_lt. lia.
  - right. apply andb_true_iff in Hab as [Hab Hab'].
    apply andb_true_iff in Hbc as [Hbc Hbc'].
    apply Nat.eqb_eq in Hab, Hbc. apply andb_true_iff. split.
    + apply Nat.eqb_eq. lia.
    + now apply (str_le_trans a b c).
Qed.

Lemma priority_passed (k : string) : Word.priority k = 0 <-> k = "PASSED".
Proof.
  unfold Word.priority. destruct (String.eqb_spec k "PASSED") as [->|Hne].
  - split; reflexivity.
  - destruct (String.eqb k "FAILED"); split; congruence.
Qed.

Lemma priority_failed (k : string) : Word.priority k = 1 <-> k = "FAILED".
Proof.
  unfold Word.priority. destruct (String.eqb_spec k "PASSED") as [->|Hne].
  - split; discriminate.
  - destruct (String.eqb_spec k "FAILED") as [->|Hne']; split; congruence.
Qed.

(** What lies before a key in the order has no higher priority. *)
Lemma key_order_priority (a b : string) :
  Word.key_order a b -> Word.priority a <= Word.priority b.
Proof.
  unfold Word.key_order, Word.key_le. intros H.
  apply orb_true_iff in H as [H|H].
  - apply Nat.ltb_lt in H. lia.
  - apply andb_true_iff in H as [H _]. apply Nat.eqb_eq in H. lia.
Qed.

Lemma summary_keys_elem (counts : gmap string nat) (k : string) :
  k ∈ Word.summary_keys counts <-> is_Some (counts !! k).
Proof.
  unfold Word.summary_keys. rewrite merge_sort_Permutation.
  rewrite list_elem_of_fmap. split.
  - intros ([k' n] & -> & Hin). apply elem_of_map_to_list in Hin. now exists n.
  - intros [n Hn]. exists (k, n). split; [reflexivity|]. now apply elem_of_map_to_list.
Qed.

(** The first key of a sorted list is before every key of the list. *)
Lemma sorted_head_least (keys : list string) (h k : string) :
  StronglySorted Word.key_order keys ->
  head keys = Some h -> k ∈ keys -> k = h \/ Word.key_order h k.
Proof.
  intros Hsorted Hhead Hk. destruct keys as [|h' keys]; [discriminate|].
  injection Hhead as ->. apply StronglySorted_inv in Hsorted as [_ Hall].
  apply elem_of_cons in Hk as [->|Hk]; [now left|]. right.
  rewrite List.Forall_forall in Hall. apply Hall. now apply list_elem_of_In.
Qed.

(** X18: the summary table has one row per result value of the tally, in
    the order of the sort key: the row of PASSED first when there is one,
    then the row of FAILED, then the other values in the order of their
    code points. *)
Theorem summary_keys_order (counts : gmap string nat) :
  NoDup (Word.summary_keys counts)
  /\ (forall k, k ∈ Word.summary_keys counts <-> is_Some (counts !! k))
  /\ StronglySorted Word.key_order (Word.summary_keys counts)
  /\ length (Word.summary_rows counts) = size counts
  /\ (is_Some (counts !! "PASSED") -> head (Word.summary_keys counts) = Some "PASSED")
  /\ (counts !! "PASSED" = None -> is_Some (counts !! "FAILED") ->
      head (Word.summary_keys counts) = Some "FAILED").
Proof.
  assert (Hsorted : StronglySorted Word.key_order (Word.summary_keys counts)).
  { apply StronglySorted_merge_sort; [apply key_order_trans | apply key_order_total]. }
  assert (Hperm : Word.summary_keys counts ≡ₚ map fst (map_to_list counts))
    by apply merge_sort_Permutation.
  split; [rewrite Hperm; apply NoDup_fst_map_to_list|].
  split; [apply summary_keys_elem|]. split; [exact Hsorted|].
  split.
  { unfold Word.summary_rows. rewrite length_map, Hperm, length_map.
    apply length_map_to_list. }
  split.
  - intros Hpassed. apply summary_keys_elem in Hpassed.
    destruct (head (Word.summary_keys counts)) as [h|] eqn:Hhead.
    + destruct (sorted_head_least _ h "PASSED" Hsorted Hhead Hpassed) as [->|Hle];
        [reflexivity|].
      apply key_order_priority in Hle. f_equal. apply priority_passed.
      change (Word.priority "PASSED") with 0 in Hle. lia.
    + apply head_None in Hhead. rewrite Hhead in Hpassed. now apply elem_of_nil in Hpassed.
  - intros Hnone Hfailed. apply summary_keys_elem in Hfailed.
    destruct (head (Word.summary_keys counts)) as [h|] eqn:Hhead.
    + destruct (sorted_head_least _ h "FAILED" Hsorted Hhead Hfailed) as [->|Hle];
        [reflexivity|].
      apply key_order_priority in Hle. f_equal.
      change (Word.priority "FAILED") with 1 in Hle.
      assert (Hin : h ∈ Word.summary_keys counts).
      { destruct (Word.summary_keys counts); [discriminate|].
        injection Hhead as ->. apply elem_of_cons. now left. }
      apply summary_keys_elem in Hin.
      destruct (Nat.eq_dec (Word.priority h) 0) as [H0|H0].
      * apply priority_passed in H0. subst h. rewrite Hnone in Hin.
        now destruct Hin.
      * apply priority_failed. lia.
    + apply head_None in Hhead. rewrite Hhead in Hfailed. now apply elem_of_nil in Hfailed.
Qed.
(** ** The table *)

Lemma map_m_all {A B : Type} (f : A -> Word.result B) (p : A -> bool) (g : A -> B)
  (e : Word.exn) (xs : list A) :
  (forall x, f x = if p x then Word.Ok (g x) else Word.Raise e) ->
  Word.map_m f xs = if forallb p xs then Word.Ok (map g xs) else Word.Raise e.
Proof.
  intros Hf. induction xs as [|x xs IH]; [reflexivity|].
  cbn [Word.map_m forallb map]. rewrite Hf, IH.
  destruct (p x); [|reflexivity]. now destruct (forallb p xs).
Qed.

Lemma Ok_inj {A : Type} (a b : A) : Word.Ok a = Word.Ok b -> a = b.
Proof. congruence. Qed.

Section Table.
Variable upper : string -> string.

(** The result cell: the value with its colours, when lxml takes the value. *)
Lemma result_cell (colors : Word.palette) (value : string) :
  Word.set_result_cell_style upper colors value
  = if Word.xml_compatible value
    then Word.Ok (Word.Shaded value (Word.result_colors upper colors value).1
                    (Word.result_colors upper colors value).2)
    else Word.Raise Word.xml_error.
Proof.
  unfold Word.set_result_cell_style, Word.put_text.
  destruct (Word.result_colors upper colors value) as [text_color bg_color].
  now destruct (Word.xml_compatible value).
Qed.

(** The cells of one row of the table, in the order they are filled: the
    row stands when all its texts are taken, and the first text that is not
    taken raises. *)
Lemma row_cells_filled (colors : Word.palette) (r : gmap string string) :
  Word.bind (Word.bind (Word.put_text (Word.benchmark_text r))
                       (fun text => Word.Ok (Word.Plain text))) (fun c1 =>
  Word.bind (Word.bind (Word.bind (Word.put_text (Word.field r "Compliance Info"))
                       (fun text => Word.Ok (Word.Plain text))) (fun c2 =>
  Word.bind (Word.bind (Word.bind (Word.put_text (Word.field r "Compliance Actual Value"))
                       (fun text => Word.Ok (Word.Plain text))) (fun c3 =>
  Word.bind (Word.bind (Word.set_result_cell_style upper colors
                          (Word.field r "Compliance Result")) (fun c4 =>
  Word.bind (Word.bind (Word.bind (Word.put_text (Word.field r "Compliance Solution"))
                       (fun text => Word.Ok (Word.Plain text))) (fun c5 =>
  Word.bind (Word.bind (Word.bind (Word.put_text "")
                       (fun text => Word.Ok (Word.Plain text))) (fun c6 =>
  Word.bind (Word.bind (Word.bind (Word.put_text "")
                       (fun text => Word.Ok (Word.Plain text))) (fun c7 =>
  Word.bind (Word.Ok []) (fun cs => Word.Ok (c7 :: cs))))
    (fun cs => Word.Ok (c6 :: cs))))
    (fun cs => Word.Ok (c5 :: cs))))
    (fun cs => Word.Ok (c4 :: cs))))
    (fun cs => Word.Ok (c3 :: cs))))
    (fun cs => Word.Ok (c2 :: cs))))
    (fun cs => Word.Ok (c1 :: cs)))
  = if forallb Word.xml_compatible (Word.row_texts r)
    then Word.Ok (Word.table_row upper colors r)
    else Word.Raise Word.xml_error.
Proof.
  rewrite result_cell. unfold Word.put_text, Word.row_texts, Word.table_row.
  cbn [forallb].
  destruct (Word.xml_compatible (Word.benchmark_text r)); [|reflexivity].
  destruct (Word.xml_compatible (Word.field r "Compliance Info")); [|reflexivity].
  destruct (Word.xml_compatible (Word.field r "Compliance Actual Value")); [|reflexivity].
  destruct (Word.xml_compatible (Word.field r "Compliance Result")); [|reflexivity].
  destruct (Word.xml_compatible (Word.field r "Compliance Solution")); reflexivity.
Qed.

Lemma row_cells_v1 (r : gmap string string) :
  Word.map_m
    (fun header =>
       Word.bind (Word.csv_map_item header)
         (fun csv_col => Word.fill_cell upper Word.palette_v1 r header csv_col))
    Word.HEADERS
  = if forallb Word.xml_compatible (Word.row_texts r)
    then Word.Ok (Word.table_row upper Word.palette_v1 r)
    else Word.Raise Word.xml_error.
Proof. rewrite <- row_cells_filled. reflexivity. Qed.

Lemma row_cells_v2 (r : gmap string string) :
  Word.map_m
    (fun header => Word.fill_cell upper Word.palette_v2 r header (Word.csv_map_get header))
    Word.HEADERS
  = if forallb Word.xml_compatible (Word.row_texts r)
    then Word.Ok (Word.table_row upper Word.palette_v2 r)
    else Word.Raise Word.xml_error.
Proof. rewrite <- row_cells_filled. reflexivity. Qed.

Lemma create_table_from_rows_eq (rows : list (gmap string string)) :
  Word.create_table_from_rows upper rows
  = if Word.table_compatible rows
    then Word.Ok (map Word.Heading Word.HEADERS
                  :: map (Word.table_row upper Word.palette_v1) rows)
    else Word.Raise Word.xml_error.
Proof.
  unfold Word.create_table_from_rows, Word.table_compatible.
  rewrite (map_m_all _ _ _ _ rows row_cells_v1).
  now destruct (forallb _ rows).
Qed.

Lemma create_compliance_table_eq (rows : list (gmap string string)) :
  Word.create_compliance_table upper rows
  = if Word.table_compatible rows
    then Word.Ok (map Word.Heading Word.HEADERS
                  :: map (Word.table_row upper Word.palette_v2) rows)
    else Word.Raise Word.xml_error.
Proof.
  unfold Word.create_compliance_table, Word.table_compatible.
  rewrite (map_m_all _ _ _ _ rows row_cells_v2).
  now destruct (forallb _ rows).
Qed.

Lemma table_row_texts (colors : Word.palette) (r : gmap string string) :
  map Word.cell_text (Word.table_row upper colors r) = Word.row_texts r.
Proof. reflexivity. Qed.

Lemma table_texts (colors : Word.palette) (rows : list (gmap string string)) :
  map (map Word.cell_text)
    (map Word.Heading Word.HEADERS :: map (Word.table_row upper colors) rows)
  = Word.HEADERS :: map Word.row_texts rows.
Proof.
  cbn [map]. f_equal. rewrite List.map_map.
  apply List.map_ext. intros r. apply table_row_texts.
Qed.

Lemma table_widths (colors : Word.palette) (rows : list (gmap string string)) :
  List.Forall (fun row => length row = 7)
    (map Word.Heading Word.HEADERS :: map (Word.table_row upper colors) rows).
Proof.
  constructor; [reflexivity|]. apply List.Forall_forall. intros row Hrow.
  apply in_map_iff in Hrow as (r & <- & _). reflexivity.
Qed.

(** The result cell is normalized like the tally: the value was trimmed
    once already. *)
Lemma normalized_field (r : gmap string string) :
  Word.normalized upper (Some (Word.field r "Compliance Result"))
  = Word.normalized upper (r !! "Compliance Result").
Proof.
  unfold Word.normalized, Word.field. f_equal.
  set (x := Py.or_else (r !! "Compliance Result") "").
  assert (Hsame : Py.or_else (Some (Py.strip x)) "" = Py.strip x).
  { unfold Py.or_else. destruct (Py.truthy (Py.strip x)) eqn:Ht; [reflexivity|].
    apply truthy_false in Ht. now rewrite Ht. }
  rewrite Hsame. apply strip_idempotent.
Qed.

Lemma shaded_rows (colors : Word.palette) (fill : string)
  (rows : list (gmap string string)) :
  Word.shaded_with fill (map Word.Heading Word.HEADERS :: map (Word.table_row upper colors) rows)
  = length (List.filter
              (fun r => String.eqb
                          (Word.result_colors upper colors
                             (Word.field r "Compliance Result")).2 fill)
              rows).
Proof.
  unfold Word.shaded_with. cbn [concat]. rewrite List.filter_app, List.length_app.
  cbn [map Word.HEADERS List.filter length Nat.add].
  induction rows as [|r rows IH]; [reflexivity|].
  cbn [map concat]. rewrite List.filter_app, List.length_app, IH.
  unfold Word.table_row at 1. cbn [List.filter].
  destruct (String.eqb _ fill); reflexivity.
Qed.

Lemma shaded_passed (colors : Word.palette) (rows : list (gmap string string)) :
  Word.distinct_fills colors ->
  Word.shaded_with (Word.bg_pass colors)
    (map Word.Heading Word.HEADERS :: map (Word.table_row upper colors) rows)
  = Word.rows_with upper "PASSED" rows
  /\ Word.shaded_with (Word.bg_fail colors)
       (map Word.Heading Word.HEADERS :: map (Word.table_row upper colors) rows)
     = Word.rows_with upper "FAILED" rows.
Proof.
  intros (Hpf & Hpo & Hfo). rewrite !shaded_rows. unfold Word.rows_with.
  split; f_equal; apply List.filter_ext; intros r;
    unfold Word.result_colors; rewrite normalized_field;
    destruct (String.eqb_spec (Word.normalized upper (r !! "Compliance Result")) "PASSED")
      as [Heq|Hne]; cbn [snd].
  - now rewrite String.eqb_refl.
  - destruct (String.eqb (Word.normalized upper (r !! "Compliance Result")) "FAILED");
      cbn [snd]; apply String.eqb_neq; congruence.
  - rewrite Heq. change (String.eqb "PASSED" "FAILED") with false.
    apply String.eqb_neq. congruence.
  - destruct (String.eqb (Word.normalized upper (r !! "Compliance Result")) "FAILED");
      cbn [snd].
    + apply String.eqb_refl.
    + apply String.eqb_neq. congruence.
Qed.

End Table.

(** X12: both programs fill the table alike.  Both return the table exactly
    when every text of every row is XML compatible, and both raise the
    ValueError of lxml otherwise; the lookup in the column map of
    csv2word.py raises no KeyError.  The tables they return hold the same
    texts: the header row, then per CSV row the check name with its
    profile, the trimmed info, actual value, result and solution, and two
    blank cells; every row has 7 cells. *)
Theorem tables_same_texts (upper : string -> string)
  (rows : list (gmap string string)) :
  match Word.create_table_from_rows upper rows,
        Word.create_compliance_table upper rows with
  | Word.Ok t1, Word.Ok t2 =>
      Word.table_compatible rows = true
      /\ map (map Word.cell_text) t1 = Word.HEADERS :: map Word.row_texts rows
      /\ map (map Word.cell_text) t2 = Word.HEADERS :: map Word.row_texts rows
      /\ List.Forall (fun row => length row = 7) t1
      /\ List.Forall (fun row => length row = 7) t2
  | Word.Raise e1, Word.Raise e2 =>
      Word.table_compatible rows = false
      /\ e1 = Word.xml_error /\ e2 = Word.xml_error
  | _, _ => False
  end.
Proof.
  rewrite create_table_from_rows_eq, create_compliance_table_eq.
  destruct (Word.table_compatible rows); [|repeat split].
  split; [reflexivity|].
  split; [apply table_texts|]. split; [apply table_texts|].
  split; apply table_widths.
Qed.

(** X13: the summary agrees with the table.  In a table that either
    program has built, the result cells with the fill of a passed check are
    as many as the tally counts under PASSED, and those with the fill of a
    failed check as many as it counts under FAILED. *)
Theorem summary_matches_shading (upper : string -> string)
  (rows : list (gmap string string)) (t1 t2 : list (list Word.cell)) :
  Word.create_table_from_rows upper rows = Word.Ok t1 ->
  Word.create_compliance_table upper rows = Word.Ok t2 ->
  Word.shaded_with (Word.bg_pass Word.palette_v1) t1
  = Word.count_of (Word.tally_results upper rows).1 "PASSED"
  /\ Word.shaded_with (Word.bg_fail Word.palette_v1) t1
     = Word.count_of (Word.tally_results upper rows).1 "FAILED"
  /\ Word.shaded_with (Word.bg_pass Word.palette_v2) t2
     = Word.count_of (Word.tally_results upper rows).1 "PASSED"
  /\ Word.shaded_with (Word.bg_fail Word.palette_v2) t2
     = Word.count_of (Word.tally_results upper rows).1 "FAILED".
Proof.
  rewrite create_table_from_rows_eq, create_compliance_table_eq.
  destruct (Word.table_compatible rows); [|discriminate].
  intros H1 H2. apply Ok_inj in H1, H2. subst t1 t2.
  rewrite !tally_count.
  destruct (shaded_passed upper Word.palette_v1 rows) as [Hp1 Hf1];
    [repeat split; discriminate|].
  destruct (shaded_passed upper Word.palette_v2 rows) as [Hp2 Hf2];
    [repeat split; discriminate|].
  now rewrite Hp1, Hf1, Hp2, Hf2.
Qed.

Lemma summary_matches_shading_witness :
  Word.create_table_from_rows ascii_upper sample_rows
  = Word.Ok (map Word.Heading Word.HEADERS
             :: map (Word.table_row ascii_upper Word.palette_v1) sample_rows)
  /\ Word.create_compliance_table ascii_upper sample_rows
     = Word.Ok (map Word.Heading Word.HEADERS
                :: map (Word.table_row ascii_upper Word.palette_v2) sample_rows)
  /\ Word.shaded_with (Word.bg_pass Word.palette_v1)
       (map Word.Heading Word.HEADERS
        :: map (Word.table_row ascii_upper Word.palette_v1) sample_rows)
     = Word.count_of (Word.tally_results ascii_upper sample_rows).1 "PASSED"
  /\ Word.shaded_with (Word.bg_fail Word.palette_v1)
       (map Word.Heading Word.HEADERS
        :: map (Word.table_row ascii_upper Word.palette_v1) sample_rows)
     = Word.count_of (Word.tally_results ascii_upper sample_rows).1 "FAILED"
  /\ Word.shaded_with (Word.bg_pass Word.palette_v2)
       (map Word.Heading Word.HEADERS
        :: map (Word.table_row ascii_upper Word.palette_v2) sample_rows)
     = Word.count_of (Word.tally_results ascii_upper sample_rows).1 "PASSED"
  /\ Word.shaded_with (Word.bg_fail Word.palette_v2)
       (map Word.Heading Word.HEADERS
        :: map (Word.table_row ascii_upper Word.palette_v2) sample_rows)
     = Word.count_of (Word.tally_results ascii_upper sample_rows).1 "FAILED".
Proof.
  split; [vm_compute; reflexivity|].
  split; [vm_compute; reflexivity|].
  apply (summary_matches_shading ascii_upper sample_rows); vm_compute; reflexivity.
Defined.

(** ** The two entry points *)

Lemma mem_In (x : string) (xs : list string) : Word.mem x xs = true <-> In x xs.
Proof.
  unfold Word.mem. rewrite existsb_exists. split.
  - intros (y & Hy & Heq). apply String.eqb_eq in Heq. now subst y.
  - intros Hx. exists x. split; [exact Hx | apply String.eqb_refl].
Qed.

Lemma mem_false (x : string) (xs : list string) : Word.mem x xs = false <-> ~ In x xs.
Proof. rewrite <- mem_In. now destruct (Word.mem x xs). Qed.

Lemma remove_first_last (x : string) (xs : list string) :
  ~ In x xs -> Word.remove_first x (xs ++ [x]) = xs.
Proof.
  induction xs as [|y xs IH]; intros Hnot; cbn [app Word.remove_first].
  - now rewrite String.eqb_refl.
  - destruct (String.eqb_spec y x) as [->|_]; [exfalso; apply Hnot; now left|].
    rewrite IH; [reflexivity|]. intros Hin. apply Hnot. now right.
Qed.

Lemma filter_nil_forallb {A : Type} (p : A -> bool) (xs : list A) :
  List.filter (fun x => negb (p x)) xs = [] <-> forallb p xs = true.
Proof.
  induction xs as [|x xs IH]; [split; reflexivity|]. cbn [List.filter forallb].
  destruct (p x); cbn [negb andb]; [exact IH|]. split; discriminate.
Qed.

(** The columns csv2word_v2.py reports as missing are those csv2word.py
    reports: the benchmark profile is dropped again when it is missing. *)
Lemma missing_v2 (names : list string) :
  let missing :=
    List.filter (fun col => negb (Word.mem col names))
      (Word.required_columns ++ ["Compliance Benchmark Profile"]) in
  (if Word.mem "Compliance Benchmark Profile" missing
   then Word.remove_first "Compliance Benchmark Profile" missing
   else missing)
  = List.filter (fun col => negb (Word.mem col names)) Word.required_columns.
Proof.
  cbv zeta. rewrite List.filter_app.
  set (missing1 := List.filter _ Word.required_columns).
  assert (Hnot : ~ In "Compliance Benchmark Profile" missing1).
  { intros Hin. apply List.filter_In in Hin as [Hin _].
    apply mem_In in Hin. vm_compute in Hin. discriminate. }
  cbn [List.filter]. destruct (Word.mem "Compliance Benchmark Profile" names); cbn [negb].
  - rewrite app_nil_r. now rewrite (proj2 (mem_false _ _) Hnot).
  - assert (Hin : Word.mem "Compliance Benchmark Profile"
                    (missing1 ++ ["Compliance Benchmark Profile"]) = true).
    { apply mem_In, in_or_app. right. now left. }
    rewrite Hin. now apply remove_first_last.
Qed.

(** *** The summary table *)

Lemma label_compatible (k : string) :
  Word.xml_compatible (if Py.truthy k then k else "(blank)") = Word.xml_compatible k.
Proof.
  destruct (Py.truthy k) eqn:Hk; [reflexivity|].
  apply truthy_false in Hk. now subst k.
Qed.

(** The summary table stands when lxml takes every key of the counter. *)
Lemma add_summary_section_eq (counts : gmap string nat) (total : nat) :
  Word.add_summary_section counts total
  = if forallb Word.xml_compatible (Word.summary_keys counts)
    then Word.Ok (Word.summary_rows counts)
    else Word.Raise Word.xml_error.
Proof.
  unfold Word.add_summary_section, Word.summary_rows.
  apply map_m_all. intros k. unfold Word.put_text. rewrite label_compatible.
  now destruct (Word.xml_compatible k).
Qed.

Section Keys.
Variable upper : string -> string.

(** The keys of the tally are the normalized results of the rows. *)
Lemma tally_keys_fold (rows : list (gmap string string)) :
  forall (counts : gmap string nat) (k : string),
  is_Some (fold_left (Word.tally_step upper) rows counts !! k)
  <-> is_Some (counts !! k)
      \/ exists r, In r rows /\ Word.normalized upper (r !! "Compliance Result") = k.
Proof.
  induction rows as [|r rows IH]; intros counts k; cbn [fold_left].
  - split; [now left|]. intros [H|(r & [] & _)]. exact H.
  - rewrite IH. unfold Word.tally_step at 1. rewrite lookup_insert_is_Some. split.
    + intros [[Heq|[_ H]]|(r' & Hin & Hr')].
      * right. exists r. split; [now left | exact Heq].
      * now left.
      * right. exists r'. split; [now right | exact Hr'].
    + intros [H|(r' & [<-|Hin] & Hr')].
      * left. destruct (decide (Word.normalized upper (r !! "Compliance Result") = k));
          [now left | now right].
      * left. now left.
      * right. exists r'. split; assumption.
Qed.

Lemma summary_keys_compatible (rows : list (gmap string string)) :
  forallb Word.xml_compatible (Word.summary_keys (Word.tally_results upper rows).1)
  = forallb (fun r => Word.xml_compatible (Word.normalized upper (r !! "Compliance Result")))
      rows.
Proof.
  apply eq_true_iff_eq. rewrite !forallb_forall. unfold Word.tally_results. cbn [fst].
  split.
  - intros H r Hr. apply H. apply list_elem_of_In, summary_keys_elem, tally_keys_fold.
    right. exists r. split; [exact Hr | reflexivity].
  - intros H k Hk. apply list_elem_of_In, summary_keys_elem, tally_keys_fold in Hk.
    destruct Hk as [Hk|(r & Hr & <-)].
    + rewrite lookup_empty in Hk. now destruct Hk.
    + now apply H.
Qed.

End Keys.

Section Reports.
Variable upper : string -> string.

(** The building of the document, which both programs share but for the
    table: it stands when every text is taken. *)
Lemma built_report (colors : Word.palette) (a : Word.args)
  (rows : list (gmap string string)) (refused : option Word.exn)
  (build : list (gmap string string) -> Word.result (list (list Word.cell))) :
  build rows
  = (if Word.table_compatible rows
     then Word.Ok (map Word.Heading Word.HEADERS :: map (Word.table_row upper colors) rows)
     else Word.Raise Word.xml_error) ->
  (let '(counts, total) := Word.tally_results upper rows in
   Word.bind (Word.put_text (Word.title a)) (fun heading =>
   Word.bind (Word.add_summary_section counts total) (fun summary =>
   Word.bind (build rows) (fun t =>
   match refused with
   | Some e => Word.Raise e
   | None =>
       Word.Ok {| Word.heading := heading;
                  Word.summary := summary;
                  Word.table := t;
                  Word.passed := Word.count_of counts "PASSED";
                  Word.failed := Word.count_of counts "FAILED";
                  Word.total := total |}
   end))))
  = if Word.document_compatible upper (Word.title a) rows
    then match refused with
         | Some e => Word.Raise e
         | None =>
             Word.Ok {| Word.heading := Word.title a;
                        Word.summary :=
                          Word.summary_rows (Word.tally_results upper rows).1;
                        Word.table :=
                          map Word.Heading Word.HEADERS
                          :: map (Word.table_row upper colors) rows;
                        Word.passed := Word.rows_with upper "PASSED" rows;
                        Word.failed := Word.rows_with upper "FAILED" rows;
                        Word.total := length rows |}
         end
    else Word.Raise Word.xml_error.
Proof.
  intros Hbuild. rewrite Hbuild. unfold Word.document_compatible.
  rewrite <- (summary_keys_compatible upper rows),
    <- (tally_total upper rows), <- !(tally_count upper rows).
  destruct (Word.tally_results upper rows) as [counts total]. cbn [fst snd].
  rewrite add_summary_section_eq. unfold Word.put_text.
  destruct (Word.xml_compatible (Word.title a)); [|reflexivity].
  destruct (forallb Word.xml_compatible (Word.summary_keys counts)); [|reflexivity].
  destruct (Word.table_compatible rows); [|reflexivity].
  now destruct refused.
Qed.

Lemma main_v1_lines (a : Word.args) (names : list string) (rest : list (list string))
  (refused : option Word.exn) :
  Word.within_limit (names :: rest) = true ->
  Word.main_v1 upper (Word.Ok a) (Word.Readable (names :: rest)) refused
  = match List.filter (fun col => negb (Word.mem col names)) Word.required_columns with
    | (_ :: _) as missing => Word.Raise (Word.missing_error missing)
    | [] =>
        let rows := map (Word.reader_row names) (Word.data_lines rest) in
        if Word.document_compatible upper (Word.title a) rows
        then match refused with
             | Some e => Word.Raise e
             | None =>
                 Word.Ok {| Word.heading := Word.title a;
                            Word.summary :=
                              Word.summary_rows (Word.tally_results upper rows).1;
                            Word.table :=
                              map Word.Heading Word.HEADERS
                              :: map (Word.table_row upper Word.palette_v1) rows;
                            Word.passed := Word.rows_with upper "PASSED" rows;
                            Word.failed := Word.rows_with upper "FAILED" rows;
                            Word.total := length rows |}
             end
        else Word.Raise Word.xml_error
    end.
Proof.
  intros Hlimit. unfold Word.main_v1, Word.read_csv_rows. rewrite Hlimit.
  unfold Word.missing_columns. cbn [Word.bind].
  destruct (List.filter _ Word.required_columns); [|reflexivity].
  fold (Word.data_lines rest). cbv zeta.
  apply (built_report Word.palette_v1 a _ refused (Word.create_table_from_rows upper)).
  apply create_table_from_rows_eq.
Qed.

Lemma main_v2_lines (a : Word.args) (names : list string) (rest : list (list string))
  (refused : option Word.exn) :
  Word.within_limit (names :: rest) = true ->
  Word.main_v2 upper (Word.Ok a) (Word.Readable (names :: rest)) refused
  = match List.filter (fun col => negb (Word.mem col names)) Word.required_columns with
    | (_ :: _) as missing => Word.Raise (Word.missing_error missing)
    | [] =>
        let rows := map (Word.reader_row names) (Word.data_lines rest) in
        if Word.document_compatible upper (Word.title a) rows
        then match refused with
             | Some e => Word.Raise e
             | None =>
                 Word.Ok {| Word.heading := Word.title a;
                            Word.summary :=
                              Word.summary_rows (Word.tally_results upper rows).1;
                            Word.table :=
                              map Word.Heading Word.HEADERS
                              :: map (Word.table_row upper Word.palette_v2) rows;
                            Word.passed := Word.rows_with upper "PASSED" rows;
                            Word.failed := Word.rows_with upper "FAILED" rows;
                            Word.total := length rows |}
             end
        else Word.Raise Word.xml_error
    end.
Proof.
  intros Hlimit. unfold Word.main_v2, Word.read_csv_rows. rewrite Hlimit.
  unfold Word.missing_columns. cbn [Word.bind].
  rewrite (missing_v2 names).
  destruct (List.filter _ Word.required_columns); [|reflexivity].
  fold (Word.data_lines rest). cbv zeta.
  apply (built_report Word.palette_v2 a _ refused (Word.create_compliance_table upper)).
  apply create_compliance_table_eq.
Qed.

(** Before the first line is looked at: the command line, the file, the
    size of its cells.  Both programs go the same way. *)
Lemma main_v1_early (cli : Word.result Word.args) (file : Word.csv_file)
  (refused : option Word.exn) :
  match cli, file with
  | Word.Raise e, _ => Word.main_v1 upper cli file refused = Word.Raise e
  | Word.Ok a, Word.Missing =>
      Word.main_v1 upper cli file refused
      = Word.Raise (Word.FileNotFoundError ("CSV not found: " +:+ Word.input a))
  | Word.Ok a, Word.Unreadable e => Word.main_v1 upper cli file refused = Word.Raise e
  | Word.Ok a, Word.Readable lines =>
      if Word.within_limit lines
      then match lines with
           | [] => Word.main_v1 upper cli file refused = Word.Raise Word.TypeError
           | _ :: _ => True
           end
      else Word.main_v1 upper cli file refused = Word.Raise Word.csv_error
  end.
Proof.
  destruct cli as [a|e]; [|reflexivity].
  destruct file as [|e|lines]; [reflexivity|reflexivity|].
  unfold Word.main_v1, Word.read_csv_rows. cbn [Word.bind].
  destruct (Word.within_limit lines); [|reflexivity].
  now destruct lines.
Qed.

Lemma main_v2_early (cli : Word.result Word.args) (file : Word.csv_file)
  (refused : option Word.exn) :
  match cli, file with
  | Word.Raise e, _ => Word.main_v2 upper cli file refused = Word.Raise e
  | Word.Ok a, Word.Missing =>
      Word.main_v2 upper cli file refused
      = Word.Raise (Word.FileNotFoundError ("CSV not found: " +:+ Word.input a))
  | Word.Ok a, Word.Unreadable e => Word.main_v2 upper cli file refused = Word.Raise e
  | Word.Ok a, Word.Readable lines =>
      if Word.within_limit lines
      then match lines with
           | [] => Word.main_v2 upper cli file refused = Word.Raise Word.TypeError
           | _ :: _ => True
           end
      else Word.main_v2 upper cli file refused = Word.Raise Word.csv_error
  end.
Proof.
  destruct cli as [a|e]; [|reflexivity].
  destruct file as [|e|lines]; [reflexivity|reflexivity|].
  unfold Word.main_v2, Word.read_csv_rows. cbn [Word.bind].
  destruct (Word.within_limit lines); [|reflexivity].
  now destruct lines.
Qed.

End Reports.

(** X14: how csv2word.py ends, in the order in which the run can stop.  It
    ends in [parse_args] with SystemExit; without the input file it raises
    FileNotFoundError; on a file that cannot be opened or decoded it raises
    what the system says; on a cell over the field size limit it raises
    the error of the csv module; on a file without any line it raises
    TypeError, not the error about missing columns; when the first line
    lacks a required column it raises ValueError with the missing columns
    in the order of the column map; when the title, a result value or a
    text of the table is not XML compatible it raises the ValueError of
    lxml; when the document cannot be saved it raises what the system
    says.  Otherwise it builds the report: the title is the one given, the
    total is the number of lines after the first that are not blank, the
    table has one row more, and passed and failed together do not exceed
    the total. *)
Theorem main_v1_outcome (upper : string -> string)
  (cli : Word.result Word.args) (file : Word.csv_file) (refused : option Word.exn) :
  match cli with
  | Word.Raise e => Word.main_v1 upper cli file refused = Word.Raise e
  | Word.Ok a =>
      match file with
      | Word.Missing =>
          Word.main_v1 upper cli file refused
          = Word.Raise (Word.FileNotFoundError ("CSV not found: " +:+ Word.input a))
      | Word.Unreadable e => Word.main_v1 upper cli file refused = Word.Raise e
      | Word.Readable lines =>
          if negb (Word.within_limit lines)
          then Word.main_v1 upper cli file refused = Word.Raise Word.csv_error
          else
            match lines with
            | [] => Word.main_v1 upper cli file refused = Word.Raise Word.TypeError
            | names :: rest =>
                if negb (Word.has_required names)
                then Word.main_v1 upper cli file refused
                     = Word.Raise
                         (Word.missing_error
                            (List.filter (fun col => negb (Word.mem col names))
                               Word.required_columns))
                else if negb (Word.document_compatible upper (Word.title a)
                                (map (Word.reader_row names) (Word.data_lines rest)))
                then Word.main_v1 upper cli file refused = Word.Raise Word.xml_error
                else
                  match refused with
                  | Some e => Word.main_v1 upper cli file refused = Word.Raise e
                  | None =>
                      exists rep,
                        Word.main_v1 upper cli file refused = Word.Ok rep
                        /\ Word.heading rep = Word.title a
                        /\ Word.total rep = length (Word.data_lines rest)
                        /\ length (Word.table rep) = S (Word.total rep)
                        /\ Word.passed rep + Word.failed rep <= Word.total rep
                  end
            end
      end
  end.
Proof.
  pose proof (main_v1_early upper cli file refused) as Hearly.
  destruct cli as [a|e]; [|exact Hearly].
  destruct file as [|e|lines]; [exact Hearly|exact Hearly|].
  destruct (Word.within_limit lines) eqn:Hlimit; cbn [negb]; [|exact Hearly].
  destruct lines as [|names rest]; [exact Hearly|]. clear Hearly.
  rewrite (main_v1_lines upper a names rest refused Hlimit). unfold Word.has_required.
  pose proof (filter_nil_forallb (fun col => Word.mem col names) Word.required_columns)
    as Hnil.
  destruct (List.filter _ Word.required_columns) as [|col cols].
  - rewrite (proj1 Hnil eq_refl). cbn [negb]. cbv zeta.
    destruct (Word.document_compatible upper (Word.title a) _); cbn [negb]; [|reflexivity].
    destruct refused as [e|]; [reflexivity|].
    eexists. split; [reflexivity|].
    cbn [Word.heading Word.total Word.table Word.passed Word.failed].
    rewrite !length_map.
    split; [reflexivity|]. split; [reflexivity|].
    split; [cbn [length]; now rewrite !length_map|].
    pose proof (rows_with_apart upper (map (Word.reader_row names) (Word.data_lines rest)))
      as Hle.
    now rewrite length_map in Hle.
  - destruct (forallb (fun col => Word.mem col names) Word.required_columns) eqn:Hall;
      [|reflexivity].
    destruct Hnil as [_ Hnil]. discriminate (Hnil eq_refl).
Qed.

(** X15: csv2word_v2.py ends as csv2word.py does on every input: the same
    exception with the same message, or a report with the same title, the
    same summary rows, the same numbers and a table of the same texts, the
    colours apart.  The benchmark profile it adds to the required columns
    is never held against the file. *)
Theorem main_v2_agrees (upper : string -> string)
  (cli : Word.result Word.args) (file : Word.csv_file) (refused : option Word.exn) :
  match Word.main_v1 upper cli file refused, Word.main_v2 upper cli file refused with
  | Word.Ok rep1, Word.Ok rep2 =>
      map (map Word.cell_text) (Word.table rep1) = map (map Word.cell_text) (Word.table rep2)
      /\ Word.passed rep1 = Word.passed rep2
      /\ Word.failed rep1 = Word.failed rep2
      /\ Word.total rep1 = Word.total rep2
      /\ Word.heading rep1 = Word.heading rep2
      /\ Word.summary rep1 = Word.summary rep2
  | Word.Raise e1, Word.Raise e2 => e1 = e2
  | _, _ => False
  end.
Proof.
  pose proof (main_v1_early upper cli file refused) as H1.
  pose proof (main_v2_early upper cli file refused) as H2.
  destruct cli as [a|e]; [|now rewrite H1, H2].
  destruct file as [|e|lines]; [now rewrite H1, H2|now rewrite H1, H2|].
  destruct (Word.within_limit lines) eqn:Hlimit; [|now rewrite H1, H2].
  destruct lines as [|names rest]; [now rewrite H1, H2|]. clear H1 H2.
  rewrite (main_v1_lines upper a names rest refused Hlimit),
    (main_v2_lines upper a names rest refused Hlimit).
  destruct (List.filter _ Word.required_columns); [|reflexivity].
  cbv zeta. destruct (Word.document_compatible upper (Word.title a) _); [|reflexivity].
  destruct refused as [e|]; [reflexivity|].
  cbn [Word.table Word.passed Word.failed Word.total Word.heading Word.summary].
  rewrite !table_texts. repeat split.
Qed.

(** *** Sample runs *)

(** The sample file gives a report of three checks, one passed, one failed
    and one without result, in the order of the summary table. *)
Example sample_report :
  exists rep,
    Word.main_v1 ascii_upper (Word.Ok sample_args) (Word.Readable sample_csv) None
    = Word.Ok rep
    /\ Word.total rep = 3 /\ Word.passed rep = 1 /\ Word.failed rep = 1
    /\ Word.summary rep = [("PASSED", 1); ("FAILED", 1); ("(blank)", 1)]
    /\ length (Word.table rep) = 4.
Proof. eexists. split; [vm_compute; reflexivity|]. repeat split. Qed.

(** A form feed in a cell of the table stops both programs in lxml. *)
Example form_feed_raises :
  Word.main_v1 ascii_upper (Word.Ok sample_args) (Word.Readable form_feed_csv) None
  = Word.Raise Word.xml_error
  /\ Word.main_v2 ascii_upper (Word.Ok sample_args) (Word.Readable form_feed_csv) None
     = Word.Raise Word.xml_error.
Proof. split; vm_compute; reflexivity. Qed.

(** A document that cannot be saved: the exception of [doc.save] escapes. *)
Example save_refused :
  Word.main_v1 ascii_upper (Word.Ok sample_args) (Word.Readable sample_csv)
    (Some (Word.OSError "[Errno 13] Permission denied: 'report.docx'"))
  = Word.Raise (Word.OSError "[Errno 13] Permission denied: 'report.docx'").
Proof. vm_compute; reflexivity. Qed.

(** A command line without [-i]: the run ends in [parse_args]. *)
Example usage_error :
  Word.main_v2 ascii_upper (Word.Raise (Word.SystemExit 2)) Word.Missing None
  = Word.Raise (Word.SystemExit 2).
Proof. reflexivity. Qed.

(** ** From the CSV file of nessus2csv to the report *)

Lemma row_get_fresh (k : string) (r : Row) :
  ~ In k (map fst r) -> row_get k r = None.
Proof.
  induction r as [|[k' v] r IH]; [reflexivity|]. cbn [map fst In row_get].
  intros Hnot. destruct (String.eqb_spec k' k) as [->|Hne]; [tauto|].
  apply IH. tauto.
Qed.

(** Entering the pairs of a row with distinct keys into a dictionary gives
    a dictionary that answers as the row does. *)
Lemma fold_insert_lookup (pairs : Row) :
  NoDup (map fst pairs) ->
  forall (d : gmap string string) (k : string),
  fold_left (fun d kv => <[kv.1 := kv.2]> d) pairs d !! k
  = match row_get k pairs with
    | Some v => Some v
    | None => d !! k
    end.
Proof.
  induction pairs as [|[k' v] pairs IH]; intros Hnd d k; [reflexivity|].
  cbn [map fst] in Hnd. apply NoDup_cons in Hnd as [Hfresh Hnd].
  rewrite list_elem_of_In in Hfresh.
  cbn [fold_left row_get fst snd]. rewrite (IH Hnd).
  destruct (String.eqb_spec k' k) as [->|Hne].
  - rewrite (row_get_fresh k pairs Hfresh). apply lookup_insert_eq.
  - destruct (row_get k pairs); [reflexivity|]. now apply lookup_insert_ne.
Qed.

Lemma combine_fst_snd (r : Row) : combine (map fst r) (map snd r) = r.
Proof. induction r as [|[k v] r IH]; [reflexivity|]. cbn [map combine fst snd]. now rewrite IH. Qed.

(** The reader undoes the writer on a row that carries the field names. *)
Lemma reader_row_cells (r : Row) (k : string) :
  map fst r = fieldnames ->
  Word.reader_row fieldnames (row_cells r) !! k = row_get k r.
Proof.
  intros Hkeys.
  assert (Hnd : NoDup (map fst r)) by (rewrite Hkeys; exact fieldnames_distinct).
  assert (Hcells : row_cells r = map snd r).
  { unfold row_cells. rewrite <- Hkeys. now apply row_get_own_keys. }
  unfold Word.reader_row. rewrite Hcells, <- Hkeys.
  rewrite drop_ge; [|now rewrite !length_map].
  cbn [fold_left]. rewrite combine_fst_snd, (fold_insert_lookup r Hnd).
  destruct (row_get k r); [reflexivity | apply lookup_empty].
Qed.

Lemma file_rows_keys (charref_sub : string -> string)
  (parse : string -> string + ET.Element) (files : list string) :
  List.Forall (fun r => map fst r = fieldnames)
    (flat_map (file_rows charref_sub parse) files).
Proof.
  apply List.Forall_flat_map, List.Forall_forall. intros path _. unfold file_rows.
  destruct (parse_nessus_file charref_sub path (parse path)).2 as [rows|e] eqn:Hret.
  - now apply (parse_rows_keys charref_sub path (parse path)).
  - constructor.
Qed.

Lemma data_lines_cells (rows : list Row) :
  Word.data_lines (map row_cells rows) = map row_cells rows.
Proof.
  unfold Word.data_lines. apply List.forallb_filter_id, forallb_forall.
  intros line Hline. apply in_map_iff in Hline as (r & <- & _). reflexivity.
Qed.

(** The rows the reader makes of the lines written for rows with the field
    names are counted as the rows themselves. *)
Lemma read_back_count (upper : string -> string) (key : string) (rows : list Row) :
  List.Forall (fun r => map fst r = fieldnames) rows ->
  Word.rows_with upper key (map (Word.reader_row fieldnames) (map row_cells rows))
  = result_rows upper key rows.
Proof.
  unfold Word.rows_with, result_rows.
  induction 1 as [|r rs Hr _ IH]; [reflexivity|].
  cbn [map List.filter]. rewrite (reader_row_cells r "Compliance Result" Hr).
  destruct (String.eqb _ key); cbn [length]; now rewrite IH.
Qed.

(** How either report program ends on the output of a batch. *)
Lemma report_of_written (upper : string -> string) (rows : list Row)
  (a : Word.args) (refused : option Word.exn)
  (program : Word.result Word.args -> Word.csv_file -> option Word.exn
             -> Word.result Word.report) :
  program = Word.main_v1 upper \/ program = Word.main_v2 upper ->
  List.Forall (fun r => map fst r = fieldnames) rows ->
  exists t,
    program (Word.Ok a) (Word.Readable (fieldnames :: map row_cells rows)) refused
    = if Word.within_limit (fieldnames :: map row_cells rows)
      then if Word.document_compatible upper (Word.title a)
                (map (Word.reader_row fieldnames) (map row_cells rows))
           then match refused with
                | Some e => Word.Raise e
                | None =>
                    Word.Ok {| Word.heading := Word.title a;
                               Word.summary :=
                                 Word.summary_rows
                                   (Word.tally_results upper
                                      (map (Word.reader_row fieldnames)
                                         (map row_cells rows))).1;
                               Word.table := t;
                               Word.passed := result_rows upper "PASSED" rows;
                               Word.failed := result_rows upper "FAILED" rows;
                               Word.total := length rows |}
                end
           else Word.Raise Word.xml_error
      else Word.Raise Word.csv_error.
Proof.
  intros Hprogram Hkeys.
  destruct (Word.within_limit (fieldnames :: map row_cells rows)) eqn:Hlimit.
  - destruct Hprogram as [->| ->];
      [rewrite (main_v1_lines upper a _ _ refused Hlimit)
      |rewrite (main_v2_lines upper a _ _ refused Hlimit)];
      change (List.filter (fun col => negb (Word.mem col fieldnames)) Word.required_columns)
        with (@nil string);
      cbv zeta; rewrite data_lines_cells, !(read_back_count upper _ rows Hkeys),
        !length_map; eexists; reflexivity.
  - exists [].
    destruct Hprogram as [->| ->].
    + pose proof (main_v1_early upper (Word.Ok a)
                    (Word.Readable (fieldnames :: map row_cells rows)) refused) as H.
      cbn beta iota in H. now rewrite Hlimit in H.
    + pose proof (main_v2_early upper (Word.Ok a)
                    (Word.Readable (fieldnames :: map row_cells rows)) refused) as H.
      cbn beta iota in H. now rewrite Hlimit in H.
Qed.

(** X17: the report programs on what nessus2csv writes.  On the lines of a
    batch, neither program misses a required column or the field names.
    Each builds its report exactly when no written cell is over the field
    size limit of the csv module, every text that goes into the document is
    XML compatible and the document can be saved; it raises the error of
    the csv module, the ValueError of lxml or what the system says
    otherwise.  The total, the passed and the failed numbers of a report
    that is built are the number of rows nessus2csv wrote and the numbers
    of those whose Compliance Result, trimmed and upper-cased, is PASSED
    and FAILED. *)
Theorem report_of_nessus_output (charref_sub upper : string -> string)
  (parse : string -> string + ET.Element) (files : list string)
  (a : Word.args) (refused : option Word.exn)
  (program : Word.result Word.args -> Word.csv_file -> option Word.exn
             -> Word.result Word.report) :
  parsed_inputs parse files = true ->
  program = Word.main_v1 upper \/ program = Word.main_v2 upper ->
  exists out msg,
    main charref_sub parse files = Py.Ok (out, msg)
    /\ match program (Word.Ok a) (Word.Readable (written out)) refused with
       | Word.Ok rep =>
           Word.within_limit (written out) = true
           /\ Word.document_compatible upper (Word.title a)
                (map (Word.reader_row fieldnames) (List.tl (written out))) = true
           /\ refused = None
           /\ Word.total rep = wrote_rows msg
           /\ Word.passed rep
              = result_rows upper "PASSED" (flat_map (file_rows charref_sub parse) files)
           /\ Word.failed rep
              = result_rows upper "FAILED" (flat_map (file_rows charref_sub parse) files)
       | Word.Raise e =>
           if negb (Word.within_limit (written out)) then e = Word.csv_error
           else if negb (Word.document_compatible upper (Word.title a)
                           (map (Word.reader_row fieldnames) (List.tl (written out))))
           then e = Word.xml_error
           else refused = Some e
       end.
Proof.
  intros Hok Hprogram. unfold main.
  rewrite (files_loop charref_sub parse files Hok).
  cbn [Py.bind written total_rows Nat.add app].
  set (rows := flat_map (file_rows charref_sub parse) files).
  do 2 eexists. split; [reflexivity|]. cbn [written wrote_rows List.tl].
  pose proof (file_rows_keys charref_sub parse files) as Hkeys. fold rows in Hkeys.
  destruct (report_of_written upper rows a refused program Hprogram Hkeys) as (t & ->).
  destruct (Word.within_limit (fieldnames :: map row_cells rows)); cbn [negb];
    [|reflexivity].
  destruct (Word.document_compatible upper (Word.title a) _); cbn [negb]; [|reflexivity].
  destruct refused as [e|]; [reflexivity|].
  cbn [Word.total Word.passed Word.failed]. repeat split.
Qed.

Lemma report_of_nessus_output_witness :
  parsed_inputs sample_parse sample_files = true
  /\ (Word.main_v2 ascii_upper = Word.main_v1 ascii_upper
      \/ Word.main_v2 ascii_upper = Word.main_v2 ascii_upper)
  /\ exists out msg,
       main same_text sample_parse sample_files = Py.Ok (out, msg)
       /\ match Word.main_v2 ascii_upper (Word.Ok sample_args)
                (Word.Readable (written out)) None with
          | Word.Ok rep =>
              Word.within_limit (written out) = true
              /\ Word.document_compatible ascii_upper (Word.title sample_args)
                   (map (Word.reader_row fieldnames) (List.tl (written out))) = true
              /\ (None : option Word.exn) = None
              /\ Word.total rep = wrote_rows msg
              /\ Word.passed rep
                 = result_rows ascii_upper "PASSED"
                     (flat_map (file_rows same_text sample_parse) sample_files)
              /\ Word.failed rep
                 = result_rows ascii_upper "FAILED"
                     (flat_map (file_rows same_text sample_parse) sample_files)
          | Word.Raise e =>
              if negb (Word.within_limit (written out)) then e = Word.csv_error
              else if negb (Word.document_compatible ascii_upper (Word.title sample_args)
                              (map (Word.reader_row fieldnames) (List.tl (written out))))
              then e = Word.xml_error
              else (None : option Word.exn) = Some e
          end.
Proof.
  split; [vm_compute; reflexivity|].
  split; [right; reflexivity|].
  apply (report_of_nessus_output same_text ascii_upper sample_parse sample_files
           sample_args None (Word.main_v2 ascii_upper)).
  - vm_compute; reflexivity.
  - right; reflexivity.
Defined.
